(** * Backeye front end: data access, alert handling and live map state

    A shallow embedding of the TypeScript components of the tracker front
    end (AuthContext, AlertsPanel, MapView, ClientDashboard) together with
    the Supabase queries they issue, and the properties of the tracking
    specification checked against them. *)

From Stdlib Require Import ZArith Ascii.
From stdpp Require Import base strings list gmap option sorting.

Open Scope string_scope.
Open Scope Z_scope.

(** ** Supabase: rows, responses and the query builder *)

(** JavaScript numbers are only stored, compared and copied by the code
    below, never computed with: they are carried as integers (coordinates
    in micro-degrees, lengths in metres, instants in epoch milliseconds). *)
Definition number := Z.

Module User.
Record t := mk { id : string; email : string; role : string }.
End User.

Module Device.
Record t := mk {
  id : string;
  device_id : string;
  phone_number : string;
  device_type : string;
  is_online : bool;
  battery_level : number;
  client_id : option string
}.
End Device.

Module LocationData.
Record t := mk {
  id : number;
  device_id : string;
  latitude : number;
  longitude : number;
  accuracy : number;
  timestamp : number;
  battery_level : number;
  device_type : string
}.
End LocationData.

Module Geofence.
Record t := mk {
  id : string;
  name : string;
  type : string;
  latitude : number;
  longitude : number;
  radius : number;
  is_active : bool
}.
End Geofence.

Module Alert.
Record t := mk {
  id : string;
  device_id : string;
  geofence_id : string;
  type : string;
  message : string;
  is_read : bool;
  created_at : number
}.

(** [{ ...alert, is_read: true }] *)
Definition with_is_read (b : bool) (a : t) : t :=
  mk (id a) (device_id a) (geofence_id a) (type a) (message a) b (created_at a).
End Alert.

(** The outcome of awaiting a promise: it resolves to a value or rejects. *)
Inductive Outcome (A : Type) : Type :=
  | Returned (a : A)
  | Thrown (e : string).
Arguments Returned {A} a.
Arguments Thrown {A} e.

Module Supabase.

(** [{ data, error }], as every supabase-js call resolves to. *)
Record Response (A : Type) := mkResponse { data : option A; error : option string }.
Arguments mkResponse {A} data error.
Arguments data {A} r.
Arguments error {A} r.

Definition ok {A} (a : A) : Response A := mkResponse (Some a) None.
Definition failed {A} (e : string) : Response A := mkResponse None (Some e).

(** [data || []] *)
Definition data_or_empty {A} (r : Response (list A)) : list A :=
  default [] (data r).

(** Column values as PostgREST compares them. *)
Inductive Value := VNull | VStr (s : string) | VBool (b : bool) | VNum (z : Z).

#[global] Instance Value_eq_dec : EqDecision Value.
Proof. solve_decision. Defined.

Definition of_nullable (o : option string) : Value :=
  match o with Some s => VStr s | None => VNull end.

(** A table row exposes its columns by name. *)
Class Columns (Row : Type) := column : Row -> string -> Value.

#[global] Instance User_columns : Columns User.t := fun r c =>
  if String.eqb c "id" then VStr (User.id r)
  else if String.eqb c "email" then VStr (User.email r)
  else if String.eqb c "role" then VStr (User.role r)
  else VNull.

#[global] Instance Device_columns : Columns Device.t := fun r c =>
  if String.eqb c "id" then VStr (Device.id r)
  else if String.eqb c "device_id" then VStr (Device.device_id r)
  else if String.eqb c "phone_number" then VStr (Device.phone_number r)
  else if String.eqb c "device_type" then VStr (Device.device_type r)
  else if String.eqb c "is_online" then VBool (Device.is_online r)
  else if String.eqb c "battery_level" then VNum (Device.battery_level r)
  else if String.eqb c "client_id" then of_nullable (Device.client_id r)
  else VNull.

#[global] Instance Geofence_columns : Columns Geofence.t := fun r c =>
  if String.eqb c "id" then VStr (Geofence.id r)
  else if String.eqb c "name" then VStr (Geofence.name r)
  else if String.eqb c "type" then VStr (Geofence.type r)
  else if String.eqb c "latitude" then VNum (Geofence.latitude r)
  else if String.eqb c "longitude" then VNum (Geofence.longitude r)
  else if String.eqb c "radius" then VNum (Geofence.radius r)
  else if String.eqb c "is_active" then VBool (Geofence.is_active r)
  else VNull.

#[global] Instance Alert_columns : Columns Alert.t := fun r c =>
  if String.eqb c "id" then VStr (Alert.id r)
  else if String.eqb c "device_id" then VStr (Alert.device_id r)
  else if String.eqb c "geofence_id" then VStr (Alert.geofence_id r)
  else if String.eqb c "type" then VStr (Alert.type r)
  else if String.eqb c "message" then VStr (Alert.message r)
  else if String.eqb c "is_read" then VBool (Alert.is_read r)
  else if String.eqb c "created_at" then VNum (Alert.created_at r)
  else VNull.

(** The filters the components chain onto a query: [.eq(col, v)] and
    [.in(col, vs)].  SQL comparison with NULL never holds. *)
Inductive Filter :=
  | Eq (col : string) (v : Value)
  | In_ (col : string) (vs : list Value).

Definition holds `{Columns Row} (r : Row) (f : Filter) : bool :=
  match f with
  | Eq c v =>
      match column r c with
      | VNull => false
      | x => bool_decide (x = v)
      end
  | In_ c vs =>
      match column r c with
      | VNull => false
      | x => bool_decide (x ∈ vs)
      end
  end.

Definition matches `{Columns Row} (fs : list Filter) (r : Row) : bool :=
  forallb (holds r) fs.

(** [from(table).select('*')] followed by filters. *)
Definition select `{Columns Row} (table : list Row) (fs : list Filter) : list Row :=
  List.filter (matches fs) table.

(** [from(table).update(patch)] followed by filters: the rows the
    filters keep are patched, the others are left as they are. *)
Definition update `{Columns Row} (table : list Row) (patch : Row -> Row)
    (fs : list Filter) : list Row :=
  List.map (fun r => if matches fs r then patch r else r) table.

(** The tables the front end reads and writes. *)
Record Db := mkDb {
  users : list User.t;
  devices : list Device.t;
  location_data : list LocationData.t;
  geofences : list Geofence.t;
  alerts : list Alert.t
}.

Definition with_alerts (al : list Alert.t) (db : Db) : Db :=
  mkDb (users db) (devices db) (location_data db) (geofences db) al.

(** The requests the components await.  Each one resolves to a
    [{ data, error }] response or rejects; only [update_alerts] writes. *)
Record Backend := mkBackend {
  select_devices : list Filter -> Db -> Outcome (Response (list Device.t));
  select_device_single : list Filter -> Db -> Outcome (Response Device.t);
  select_geofences : list Filter -> Db -> Outcome (Response (list Geofence.t));
  select_geofence_single : list Filter -> Db -> Outcome (Response Geofence.t);
  (* [.order('created_at', { ascending: false })] *)
  select_alerts_newest_first : list Filter -> Db -> Outcome (Response (list Alert.t));
  (* [.order('timestamp', { ascending: false }).limit(1)] *)
  select_latest_location : list Filter -> Db -> Outcome (Response (list LocationData.t));
  update_alerts : (Alert.t -> Alert.t) -> list Filter -> Db -> Outcome (Response unit) * Db
}.

(** [.single()]: exactly one row, or an error. *)
Definition single {A} (rows : list A) : Response A :=
  match rows with
  | [r] => ok r
  | _ => failed "PGRST116"
  end.

Definition newer_alert (a b : Alert.t) : Prop := Alert.created_at b <= Alert.created_at a.
Definition newer_location (a b : LocationData.t) : Prop :=
  LocationData.timestamp b <= LocationData.timestamp a.

#[global] Instance newer_alert_dec a b : Decision (newer_alert a b).
Proof. unfold newer_alert. apply _. Defined.
#[global] Instance newer_location_dec a b : Decision (newer_location a b).
Proof. unfold newer_location. apply _. Defined.

#[global] Instance LocationData_columns : Columns LocationData.t := fun r c =>
  if String.eqb c "id" then VNum (LocationData.id r)
  else if String.eqb c "device_id" then VStr (LocationData.device_id r)
  else if String.eqb c "latitude" then VNum (LocationData.latitude r)
  else if String.eqb c "longitude" then VNum (LocationData.longitude r)
  else if String.eqb c "accuracy" then VNum (LocationData.accuracy r)
  else if String.eqb c "timestamp" then VNum (LocationData.timestamp r)
  else if String.eqb c "battery_level" then VNum (LocationData.battery_level r)
  else if String.eqb c "device_type" then VStr (LocationData.device_type r)
  else VNull.

(** A database that answers every request. *)
Definition postgrest : Backend := {|
  select_devices fs db := Returned (ok (select (devices db) fs));
  select_device_single fs db := Returned (single (select (devices db) fs));
  select_geofences fs db := Returned (ok (select (geofences db) fs));
  select_geofence_single fs db := Returned (single (select (geofences db) fs));
  select_alerts_newest_first fs db :=
    Returned (ok (merge_sort newer_alert (select (alerts db) fs)));
  select_latest_location fs db :=
    Returned (ok (take 1 (merge_sort newer_location (select (location_data db) fs))));
  update_alerts patch fs db :=
    (Returned (mkResponse None None), with_alerts (update (alerts db) patch fs) db)
|}.

End Supabase.

Import Supabase.

(** ** Component code: state, exceptions and [try]/[catch] *)

(** A component function runs over the state of its component and either
    returns or throws; state written before a throw stays written. *)
Definition M (S A : Type) : Type := S -> Outcome A * S.

Definition ret {S A} (a : A) : M S A := fun s => (Returned a, s).
Definition throw {S A} (e : string) : M S A := fun s => (Thrown e, s).
Definition bind {S A B} (m : M S A) (k : A -> M S B) : M S B :=
  fun s => match m s with
           | (Returned a, s') => k a s'
           | (Thrown e, s') => (Thrown e, s')
           end.
Definition await {S A} (p : Outcome A) : M S A := fun s => (p, s).
Definition modify {S} (f : S -> S) : M S unit := fun s => (Returned tt, f s).
Definition try_catch {S A} (body : M S A) (handler : string -> M S A) : M S A :=
  fun s => match body s with
           | (Returned a, s') => (Returned a, s')
           | (Thrown e, s') => handler e s'
           end.

Definition try_finally {S A} (body : M S A) (fin : M S unit) : M S A :=
  fun s => match body s with
           | (o, s') =>
               match fin s' with
               | (Returned _, s'') => (o, s'')
               | (Thrown e, s'') => (Thrown e, s'')
               end
           end.

Notation "x <- m ;; k" := (bind m (fun x => k))
  (at level 100, m at next level, right associativity).
Notation "m ;;; k" := (bind m (fun _ => k))
  (at level 100, right associativity).

(** ** AuthContext.tsx: [AuthProvider.signIn] *)

Module Auth.

Record AuthUser := mkAuthUser { au_id : string; au_email : option string }.
Record AuthData := mkAuthData { user : option AuthUser }.

(** [{ id, email, role }] handed to [insert]. *)
Record UserInsert := mkUserInsert {
  ins_id : string; ins_email : option string; ins_role : string }.

(** The client calls [signIn] awaits. *)
Record Client := mkClient {
  signInWithPassword : string -> string -> Outcome (AuthData * option string);
  select_user_single : Filter -> Outcome (Response User.t);
  insert_user_single : UserInsert -> Outcome (Response User.t)
}.

(** [useState] cells of the provider. *)
Record State := mkState { st_user : option User.t; st_loading : bool }.

Definition setUser (u : option User.t) : M State unit :=
  modify (fun s => mkState u (st_loading s)).

(** [{ error?: string }] *)
Record Result := mkResult { error : option string }.

Definition signIn (c : Client) (email password : string) : M State Result :=
  try_catch
    (auth <- await (signInWithPassword c email password) ;;
     let '(authData, authError) := auth in
     match authError with
     | Some _ => ret (mkResult (Some "Invalid credentials"))
     | None =>
       match user authData with
       | None => ret (mkResult (Some "Authentication failed"))
       | Some au =>
         fetched <- await (select_user_single c (Eq "id" (VStr (au_id au)))) ;;
         match Supabase.error fetched, Supabase.data fetched with
         | None, Some userData =>
             setUser (Some userData) ;;; ret (mkResult None)
         | _, _ =>
             created <- await (insert_user_single c
                                 (mkUserInsert (au_id au) (au_email au) "viewer")) ;;
             match Supabase.error created, Supabase.data created with
             | None, Some newUserData =>
                 setUser (Some newUserData) ;;; ret (mkResult None)
             | _, _ => ret (mkResult (Some "Failed to create user profile"))
             end
         end
       end
     end)
    (fun _ => ret (mkResult (Some "An error occurred during sign in"))).

End Auth.

(** [Promise.all(xs.map(f))] and [for (const x of xs) await f(x)], run in
    list order. *)
Fixpoint mapM {S A B} (f : A -> M S B) (xs : list A) : M S (list B) :=
  match xs with
  | [] => ret []
  | x :: xs' => y <- f x ;; ys <- mapM f xs' ;; ret (y :: ys)
  end.

Fixpoint forM_ {S A} (xs : list A) (f : A -> M S unit) : M S unit :=
  match xs with
  | [] => ret tt
  | x :: xs' => f x ;;; forM_ xs' f
  end.

(** [user?.role === 'client'], giving [user.id] when it holds. *)
Definition client_id_of (user : option User.t) : option string :=
  match user with
  | Some u => if String.eqb (User.role u) "client" then Some (User.id u) else None
  | None => None
  end.

(** [a || b] on strings: the empty string is falsy. *)
Definition or_else (a : option string) (b : string) : string :=
  match a with
  | Some s => if String.eqb s "" then b else s
  | None => b
  end.

(** ** AlertsPanel.tsx *)

Module AlertsPanel.

(** [AlertWithDetails extends Alert] *)
Record AlertWithDetails := mkDetails {
  alert : Alert.t;
  geofence_name : option string;
  device_name : option string
}.

Definition set_read (a : AlertWithDetails) : AlertWithDetails :=
  mkDetails (Alert.with_is_read true (alert a)) (geofence_name a) (device_name a).

(** The panel's [useState] cells and the toasts it has raised (newest
    first), next to the database the requests go to. *)
Record World := mkWorld {
  db : Db;
  alerts : list AlertWithDetails;
  isLoading : bool;
  toasts : list string
}.

Definition setAlerts (al : list AlertWithDetails) : M World unit :=
  modify (fun w => mkWorld (db w) al (isLoading w) (toasts w)).
Definition setIsLoading (b : bool) : M World unit :=
  modify (fun w => mkWorld (db w) (alerts w) b (toasts w)).
Definition toast (msg : string) : M World unit :=
  modify (fun w => mkWorld (db w) (alerts w) (isLoading w) (msg :: toasts w)).
Definition getAlerts : M World (list AlertWithDetails) :=
  fun w => (Returned (alerts w), w).

Definition request {A} (q : Db -> Outcome A) : M World A :=
  fun w => (q (db w), w).
Definition write {A} (q : Db -> Outcome A * Db) : M World A :=
  fun w => let '(o, db') := q (db w) in
           (o, mkWorld db' (alerts w) (isLoading w) (toasts w)).

Section WithBackend.
Variable backend : Backend.
Variable user : option User.t.

Definition enrich (a : Alert.t) : M World AlertWithDetails :=
  geofenceResult <- request (select_geofence_single backend
                               [Eq "id" (VStr (Alert.geofence_id a))]) ;;
  deviceResult <- request (select_device_single backend
                             [Eq "device_id" (VStr (Alert.device_id a))]) ;;
  ret (mkDetails a
         (Some (or_else (Geofence.name <$> data geofenceResult) "Unknown Geofence"))
         (Some (or_else (Device.device_id <$> data deviceResult) (Alert.device_id a)))).

(** The filter a client's requests get: [Some fs] to go on with [fs]
    chained, [None] when the client has no device. *)
Definition device_filter (uid : string) : M World (option (list Filter)) :=
  userDevices <- request (select_devices backend [Eq "client_id" (VStr uid)]) ;;
  match data userDevices with
  | Some (d :: ds) =>
      ret (Some [In_ "device_id" (List.map (fun d => VStr (Device.device_id d)) (d :: ds))])
  | _ => ret None
  end.

Definition loadAlerts : M World unit :=
  try_finally
    (try_catch
       (scope <- match client_id_of user with
                 | Some uid => device_filter uid
                 | None => ret (Some [])
                 end ;;
        match scope with
        | None =>
            (* No devices assigned to this client *)
            setAlerts [] ;;; setIsLoading false
        | Some fs =>
            r <- request (select_alerts_newest_first backend fs) ;;
            match error r with
            | Some e => throw e
            | None =>
                enrichedAlerts <- mapM enrich (data_or_empty r) ;;
                setAlerts enrichedAlerts
            end
        end)
       (fun _ => toast "Failed to load alerts"))
    (setIsLoading false).

(** The [postgres_changes] INSERT handler on [alerts]. *)
Definition on_alert_insert (newAlert : Alert.t) : M World unit :=
  toast ("New Alert: " ++ Alert.message newAlert) ;;; loadAlerts.

Definition markAsRead (alertId : string) : M World unit :=
  try_catch
    (r <- write (update_alerts backend (Alert.with_is_read true)
                   [Eq "id" (VStr alertId)]) ;;
     match error r with
     | Some e => throw e
     | None =>
         al <- getAlerts ;;
         setAlerts (List.map (fun a => if String.eqb (Alert.id (alert a)) alertId
                                       then set_read a else a) al)
     end)
    (fun _ => toast "Failed to update alert").

Definition markAllAsRead : M World unit :=
  try_catch
    (scope <- match client_id_of user with
              | Some uid => device_filter uid
              | None => ret None
              end ;;
     r <- write (update_alerts backend (Alert.with_is_read true)
                   (Eq "is_read" (VBool false) :: default [] scope)) ;;
     match error r with
     | Some e => throw e
     | None =>
         al <- getAlerts ;;
         setAlerts (List.map set_read al) ;;;
         toast "All alerts marked as read"
     end)
    (fun _ => toast "Failed to update alerts").

End WithBackend.

End AlertsPanel.

(** ** MapView.tsx *)

Module MapView.

Record LatLng := mkLatLng { lat : number; lng : number }.

Record MapInstance := mkMap { center : LatLng; zoom : number }.

(** What the marker's info window is built from. *)
Record MarkerInfo := mkMarkerInfo {
  heading : string;
  online : bool;
  battery : number;
  device_type : string;
  last_update : number;
  accuracy : number
}.

Record Marker := mkMarker {
  position : LatLng;
  title : string;
  fillColor : string;
  info : MarkerInfo
}.

Record Circle := mkCircle {
  strokeColor : string;
  circle_center : LatLng;
  circle_radius : number;
  circle_name : string;
  circle_type : string
}.

(** [mapInstanceRef], [markersRef], [geofenceCirclesRef], the [useState]
    cells and the toasts raised. *)
Record State := mkState {
  mapInstance : option MapInstance;
  markers : gmap string Marker;
  geofenceCircles : gmap string Circle;
  devices : list Device.t;
  geofences : list Geofence.t;
  toasts : list string
}.

Definition setDevices (ds : list Device.t) : M State unit :=
  modify (fun s => mkState (mapInstance s) (markers s) (geofenceCircles s)
                           ds (geofences s) (toasts s)).
Definition setGeofences (gs : list Geofence.t) : M State unit :=
  modify (fun s => mkState (mapInstance s) (markers s) (geofenceCircles s)
                           (devices s) gs (toasts s)).
Definition toast (msg : string) : M State unit :=
  modify (fun s => mkState (mapInstance s) (markers s) (geofenceCircles s)
                           (devices s) (geofences s) (msg :: toasts s)).
Definition setCircles (cs : gmap string Circle) : M State unit :=
  modify (fun s => mkState (mapInstance s) (markers s) cs
                           (devices s) (geofences s) (toasts s)).
Definition getMap : M State (option MapInstance) :=
  fun s => (Returned (mapInstance s), s).
Definition getCircles : M State (gmap string Circle) :=
  fun s => (Returned (geofenceCircles s), s).

Definition lower_ascii (c : ascii) : ascii :=
  let n := nat_of_ascii c in
  if (Nat.leb 65 n && Nat.leb n 90)%bool then ascii_of_nat (n + 32) else c.

Fixpoint toLowerCase (s : string) : string :=
  match s with
  | EmptyString => EmptyString
  | String c s' => String (lower_ascii c) (toLowerCase s')
  end.

Definition getGeofenceColor (type : string) : string :=
  let t := toLowerCase type in
  if String.eqb t "garage" then "#3B82F6"
  else if String.eqb t "hot_zone" then "#EF4444"
  else if String.eqb t "safe_zone" then "#10B981"
  else "#8B5CF6".

Definition make_marker (device : Device.t) (locationData : LocationData.t) : Marker :=
  mkMarker
    (mkLatLng (LocationData.latitude locationData) (LocationData.longitude locationData))
    (Device.device_id device)
    (if Device.is_online device then "#10B981" else "#EF4444")
    (mkMarkerInfo (Device.device_id device) (Device.is_online device)
       (LocationData.battery_level locationData) (Device.device_type device)
       (LocationData.timestamp locationData) (LocationData.accuracy locationData)).

Definition make_circle (g : Geofence.t) : Circle :=
  mkCircle (getGeofenceColor (Geofence.type g))
    (mkLatLng (Geofence.latitude g) (Geofence.longitude g))
    (Geofence.radius g) (Geofence.name g) (Geofence.type g).

Section Render.
(** The values [supabase] answers with, and [user] and [devices] as
    the closures of one render see them. *)
Variable backend : Backend.
Variable db : Db.
Variable user : option User.t.
Variable devices_seen : list Device.t.

Definition updateDeviceLocation (locationData : LocationData.t) : M State unit :=
  fun s =>
    match mapInstance s with
    | None => (Returned tt, s)
    | Some map =>
        match List.find (fun d => String.eqb (Device.device_id d)
                                    (LocationData.device_id locationData))
                        devices_seen with
        | None => (Returned tt, s)
        | Some device =>
            let marker := make_marker device locationData in
            (* the marker it replaces is taken off the map *)
            let markers' := <[Device.device_id device := marker]> (markers s) in
            (* Center map on first device location *)
            let map' := if Nat.eqb (size markers') 1
                        then mkMap (position marker) (zoom map) else map in
            (Returned tt,
             mkState (Some map') markers' (geofenceCircles s)
                     (devices s) (geofences s) (toasts s))
        end
    end.

(** The [location_data] INSERT handler. *)
Definition on_location_insert (payload : LocationData.t) : M State unit :=
  updateDeviceLocation payload.

(** The body of the loop of [loadDevicesAndLocations]: the newest
    location of the device, if there is one, goes to the map. *)
Definition show_latest_location (device : Device.t) : M State unit :=
  l <- await (select_latest_location backend
                [Eq "device_id" (VStr (Device.device_id device))] db) ;;
  match data l with
  | Some (locationData :: _) => updateDeviceLocation locationData
  | _ => ret tt
  end.

Definition loadDevicesAndLocations : M State unit :=
  try_catch
    (r <- await (select_devices backend
                   match client_id_of user with
                   | Some uid => [Eq "client_id" (VStr uid)]
                   | None => []
                   end db) ;;
     match error r with
     | Some e => throw e
     | None =>
         setDevices (data_or_empty r) ;;;
         forM_ (data_or_empty r) show_latest_location
     end)
    (fun _ => toast "Failed to load devices").

Definition add_circle (g : Geofence.t) : M State unit :=
  m <- getMap ;;
  match m with
  | Some _ =>
      cs <- getCircles ;;
      setCircles (<[Geofence.id g := make_circle g]> cs)
  | None => ret tt
  end.

Definition loadGeofences : M State unit :=
  try_catch
    (r <- await (select_geofences backend [Eq "is_active" (VBool true)] db) ;;
     match error r with
     | Some e => throw e
     | None =>
         setGeofences (data_or_empty r) ;;;
         (* Clear existing geofence circles *)
         setCircles ∅ ;;;
         forM_ (default [] (data r)) add_circle
     end)
    (fun _ => toast "Failed to load geofences").

End Render.

End MapView.

(** ** ClientDashboard.tsx *)

Module ClientDashboard.

Record State := mkState { devices : list Device.t }.

Definition setDevices (ds : list Device.t) : M State unit :=
  modify (fun _ => mkState ds).

Definition loadDevices (backend : Backend) (db : Db) (user : option User.t)
    : M State unit :=
  match user with
  | None => ret tt
  | Some u =>
      try_catch
        (r <- await (select_devices backend [Eq "client_id" (VStr (User.id u))] db) ;;
         match error r with
         | Some e => throw e
         | None => setDevices (data_or_empty r)
         end)
        (fun _ => ret tt)
  end.

End ClientDashboard.

(** ** The tracking core of the specification

    The containment tracker and the alert dispatcher are not part of the
    front end: the components above only display positions and read the
    [alerts] table.  Both are modelled from the text of the specification. *)

Module Core.

(** Modelled from the spec: the alert kinds of the data model, which the
    front end only meets as free-form strings. *)
Inductive AlertKind := geofence_enter | geofence_exit | device_offline | low_battery.

#[global] Instance AlertKind_eq_dec : EqDecision AlertKind.
Proof. solve_decision. Defined.

Module ContainmentTracker.

Record Position := mkPosition { lat : number; lon : number }.

(** Modelled from the spec: the Geofence of the data model, as the absent
    Containment Tracker reads it. *)
Record Geofence := mkGeofence {
  id : string;
  center : Position;
  radiusMeters : number;
  active : bool
}.

(** Modelled from the spec: the ContainmentState of one (device,
    geofence) pair, owned by the absent Containment Tracker. *)
Record ContainmentState := mkContainment { inside : bool; lastTransitionAt : number }.

(** Modelled from the spec: what the absent Containment Tracker uses of
    an accepted LocationPing. *)
Record Fix := mkFix { at_ : Position; accuracy : number; timestamp : number }.

Section Tracker.
(** The great-circle distance between two positions, in metres, and
    the configured cap on the margin. *)
Variable distance : Position -> Position -> number.
Variable max_margin : number.

(** Modelled from the spec: the hysteresis margin of the Containment
    Tracker, no code of which is in the front end; the reported
    accuracy of the ping, capped at a configurable maximum. *)
Definition margin (f : Fix) : number := Z.min (accuracy f) max_margin.

(** Modelled from the spec: the containment decision of the
    Containment Tracker, no code of which is in the front end; inside
    becomes true when distance < radius - margin, false when
    distance > radius + margin, and keeps its value in between. *)
Definition decide_inside (prior : bool) (d radius m : number) : bool :=
  if prior then negb (radius + m <? d) else (d <? radius - m).

(** Modelled from the spec: one evaluation of a fix against one
    geofence by the Containment Tracker, no code of which is in the
    front end; a true transition emits one alert request tagged
    geofence_enter or geofence_exit and updates lastTransitionAt. *)
Definition evaluate (g : Geofence) (prior : ContainmentState) (f : Fix)
    : ContainmentState * list AlertKind :=
  let d := distance (at_ f) (center g) in
  let now_inside := decide_inside (inside prior) d (radiusMeters g) (margin f) in
  match inside prior, now_inside with
  | false, true => (mkContainment true (timestamp f), [geofence_enter])
  | true, false => (mkContainment false (timestamp f), [geofence_exit])
  | _, _ => (prior, [])
  end.

(** Modelled from the spec: the Containment Tracker, no code of which is
    in the front end, fed the accepted pings of one device in turn, for
    one geofence; the alert requests are collected in order. *)
Fixpoint track (g : Geofence) (st : ContainmentState) (fs : list Fix)
    : ContainmentState * list AlertKind :=
  match fs with
  | [] => (st, [])
  | f :: fs' =>
      let '(st1, out1) := evaluate g st f in
      let '(st2, out2) := track g st1 fs' in
      (st2, (out1 ++ out2)%list)
  end.

(** Modelled from the spec: the dead band of the absent Containment
    Tracker, the distances from radius - margin to radius + margin. *)
Definition in_dead_band (g : Geofence) (f : Fix) : Prop :=
  radiusMeters g - margin f <= distance (at_ f) (center g) <= radiusMeters g + margin f.

End Tracker.

End ContainmentTracker.

Module AlertDispatcher.

(** Modelled from the spec: the alert request (deviceId, geofenceId?,
    kind, contextual message) the absent Alert Dispatcher receives. *)
Record Request := mkRequest {
  req_deviceId : string;
  req_geofenceId : option string;
  req_kind : AlertKind;
  req_message : string
}.

(** Modelled from the spec: the Alert of the data model, as the absent
    Alert Dispatcher creates it. *)
Record Alert := mkAlert {
  id : nat;
  deviceId : string;
  geofenceId : option string;
  kind : AlertKind;
  message : string;
  createdAt : number;
  isRead : bool
}.

(** Modelled from the spec: what the absent Alert Dispatcher has done so
    far; the alerts persisted and the alerts published to the fanout hub,
    newest first, and the suppressed requests, which are only logged. *)
Record State := mkState {
  persisted : list Alert;
  published : list Alert;
  suppressed_log : list Request
}.

Definition initial : State := mkState [] [] [].


Section Dispatcher.
(** The cool-down window. *)
Variable window : number.




End Dispatcher.




End AlertDispatcher.

End Core.

(** ** The geofence registry of the specification

    Nor is there a registry or an evaluation pass in the front end: the
    map reads the [geofences] table and draws what it gets.  The registry's
    read path and the pass that consumes it are modelled from the text of
    the specification, over the geofences of the tracker above. *)

Module GeofenceRegistry.
Import Core.

(** Modelled from the spec: the definitions the absent Geofence Registry
    holds, active or not. *)
Definition Registry := list ContainmentTracker.Geofence.

(** Modelled from the spec: the read path of the absent Geofence Registry,
    the snapshot of all currently active geofences the Containment Tracker
    is given per evaluation pass. *)
Definition active_snapshot (registry : Registry) : list ContainmentTracker.Geofence :=
  List.filter ContainmentTracker.active registry.

(** Modelled from the spec: the ContainmentState entries of one device,
    keyed by geofence id, owned by the absent Containment Tracker. *)
Definition Containment := gmap string ContainmentTracker.ContainmentState.

(** Modelled from the spec: an alert request of the absent Containment
    Tracker, the geofence it is about and its kind. *)
Record Request := mkRequest { about : string; kind : AlertKind }.

Section Pass.
(** The great-circle distance and the cap on the margin, as for the
    tracker, and the state a (device, geofence) pair is given on its first
    evaluation, which the specification leaves open. *)
Variable distance : ContainmentTracker.Position -> ContainmentTracker.Position -> number.
Variable max_margin : number.
Variable first_state :
  ContainmentTracker.Geofence -> ContainmentTracker.Fix -> ContainmentTracker.ContainmentState.

(** Modelled from the spec: the evaluation of one geofence of the
    snapshot in a pass of the absent Containment Tracker; a pair
    without a state is given its initial state without an alert, any
    other goes through [evaluate], and each alert kind that comes out is
    requested for this geofence. *)
Definition evaluate_geofence (f : ContainmentTracker.Fix)
    (acc : Containment * list Request) (g : ContainmentTracker.Geofence)
    : Containment * list Request :=
  match acc.1 !! ContainmentTracker.id g with
  | None => (<[ContainmentTracker.id g := first_state g f]> acc.1, acc.2)
  | Some prior =>
      let '(st, kinds) := ContainmentTracker.evaluate distance max_margin g prior f in
      (<[ContainmentTracker.id g := st]> acc.1,
       (acc.2 ++ List.map (mkRequest (ContainmentTracker.id g)) kinds)%list)
  end.

(** Modelled from the spec: one evaluation pass of the absent
    Containment Tracker; the fix of an accepted ping is evaluated against
    every geofence of the active snapshot of the registry.  The entries
    of geofences outside the snapshot are left as they are: the
    containment history of a deactivated geofence is retained until
    explicitly purged. *)
Definition evaluation_pass (registry : Registry) (states : Containment)
    (f : ContainmentTracker.Fix) : Containment * list Request :=
  fold_left (evaluate_geofence f) (active_snapshot registry) (states, []).

End Pass.

(** A row of the [geofences] table as the registry holds it. *)
Definition of_row (g : Geofence.t) : ContainmentTracker.Geofence :=
  ContainmentTracker.mkGeofence (Geofence.id g)
    (ContainmentTracker.mkPosition (Geofence.latitude g) (Geofence.longitude g))
    (Geofence.radius g) (Geofence.is_active g).

End GeofenceRegistry.

(** ** What the requests of [signIn] came back with *)

Module AuthCases.
Import Auth.

Section Cases.
Variable c : Client.
Variables email password : string.

Definition auth_fails : Prop :=
  exists d e, signInWithPassword c email password = Returned (d, Some e).

Definition auth_user_absent : Prop :=
  exists d, signInWithPassword c email password = Returned (d, None) /\ user d = None.

Definition signed_in (au : AuthUser) : Prop :=
  exists d, signInWithPassword c email password = Returned (d, None) /\ user d = Some au.

Definition fetched (au : AuthUser) (u : User.t) : Prop :=
  exists r, select_user_single c (Eq "id" (VStr (au_id au))) = Returned r
            /\ Supabase.error r = None /\ Supabase.data r = Some u.

Definition fetch_fails (au : AuthUser) : Prop :=
  exists r, select_user_single c (Eq "id" (VStr (au_id au))) = Returned r
            /\ (is_Some (Supabase.error r) \/ Supabase.data r = None).

Definition created (au : AuthUser) (u : User.t) : Prop :=
  exists r, insert_user_single c (mkUserInsert (au_id au) (au_email au) "viewer")
            = Returned r
            /\ Supabase.error r = None /\ Supabase.data r = Some u.

Definition create_fails (au : AuthUser) : Prop :=
  exists r, insert_user_single c (mkUserInsert (au_id au) (au_email au) "viewer")
            = Returned r
            /\ (is_Some (Supabase.error r) \/ Supabase.data r = None).

(** The profile row could neither be fetched nor created. *)
Definition profile_unavailable : Prop :=
  exists au, signed_in au /\ fetch_fails au /\ create_fails au.

(** A profile row was fetched, or created after the fetch failed. *)
Definition profile_obtained (u : User.t) : Prop :=
  exists au, signed_in au /\ (fetched au u \/ (fetch_fails au /\ created au u)).

End Cases.
End AuthCases.

(** ** Sample runs of the tracking core *)

Module CoreSample.
Import Core.ContainmentTracker Core.AlertDispatcher.

(** A stand-in for the great-circle distance on a grid of metres. *)
Definition grid_distance (p q : Position) : number :=
  Z.abs (lat p - lat q) + Z.abs (lon p - lon q).

Definition yard : Geofence := mkGeofence "g1" (mkPosition 0 0) 100 true.

(** Fixes 95 m, 105 m and 100 m from the centre, each accurate to 5 m. *)
Definition wobble : list Fix :=
  [mkFix (mkPosition 95 0) 5 1; mkFix (mkPosition 0 105) 5 2; mkFix (mkPosition 100 0) 5 3].



End CoreSample.

(** ** Reading the map state *)

Module MapFacts.

(** [devices.find(d => d.device_id === locationData.device_id)] *)
Definition find_device (seen : list Device.t) (loc : LocationData.t) : option Device.t :=
  List.find (fun d => String.eqb (Device.device_id d) (LocationData.device_id loc)) seen.

(** Where the marker of a device stands, and the instant of the ping it
    was built from. *)
Definition recorded_position (s : MapView.State) (device_id : string)
    : option MapView.LatLng :=
  MapView.position <$> MapView.markers s !! device_id.

Definition recorded_timestamp (s : MapView.State) (device_id : string) : option number :=
  (fun m => MapView.last_update (MapView.info m)) <$> MapView.markers s !! device_id.

Definition position_of (loc : LocationData.t) : MapView.LatLng :=
  MapView.mkLatLng (LocationData.latitude loc) (LocationData.longitude loc).

(** The state [updateDeviceLocation] runs to. *)
Definition after_ping (seen : list Device.t) (loc : LocationData.t) (s : MapView.State)
    : MapView.State :=
  (MapView.updateDeviceLocation seen loc s).2.

End MapFacts.

(** ** Reading the alert rows *)

Module AlertFacts.

(** Every column of the row except [is_read] is the same. *)
Definition same_but_read (a a' : Alert.t) : Prop :=
  Alert.id a' = Alert.id a
  /\ Alert.device_id a' = Alert.device_id a
  /\ Alert.geofence_id a' = Alert.geofence_id a
  /\ Alert.type a' = Alert.type a
  /\ Alert.message a' = Alert.message a
  /\ Alert.created_at a' = Alert.created_at a.

(** [a'] is [a] after [markAsRead alertId]: the row with that id has
    [is_read] set, every other row is as it was. *)
Definition marked_read (alertId : string) (a a' : Alert.t) : Prop :=
  same_but_read a a'
  /\ (Alert.id a = alertId -> Alert.is_read a' = true)
  /\ (Alert.id a <> alertId -> a' = a).

(** The same on the rows of the panel, which carry two names more. *)
Definition marked_read_view (alertId : string) (v v' : AlertsPanel.AlertWithDetails) : Prop :=
  marked_read alertId (AlertsPanel.alert v) (AlertsPanel.alert v')
  /\ AlertsPanel.geofence_name v' = AlertsPanel.geofence_name v
  /\ AlertsPanel.device_name v' = AlertsPanel.device_name v.

(** The [device_id]s of the devices whose [client_id] is [uid]. *)
Definition owned_device_ids (db : Db) (uid : string) : list string :=
  List.map Device.device_id
    (List.filter (fun d => bool_decide (Device.client_id d = Some uid)) (devices db)).

(** What [enrich] adds to a row when every request is answered. *)
Definition details_of (db : Db) (a : Alert.t) : AlertsPanel.AlertWithDetails :=
  AlertsPanel.mkDetails a
    (Some (or_else (Geofence.name <$>
                      data (single (select (geofences db) [Eq "id" (VStr (Alert.geofence_id a))])))
                   "Unknown Geofence"))
    (Some (or_else (Device.device_id <$>
                      data (single (select (devices db)
                                      [Eq "device_id" (VStr (Alert.device_id a))])))
                   (Alert.device_id a))).

End AlertFacts.

(** ** Sample rows *)

Module Sample.

(** Alice is a client with one tracker, Carol a client with none, Root
    an administrator. *)
Definition alice : User.t := User.mk "u-alice" "alice@demo.com" "client".
Definition carol : User.t := User.mk "u-carol" "carol@demo.com" "client".
Definition root : User.t := User.mk "u-root" "admin@demo.com" "admin".

Definition tracker_a : Device.t :=
  Device.mk "1" "dev-A" "555-0100" "vehicle" true 90 (Some "u-alice").
Definition tracker_b : Device.t :=
  Device.mk "2" "dev-B" "555-0101" "vehicle" false 40 None.

Definition alert_a : Alert.t :=
  Alert.mk "al-1" "dev-A" "g-1" "geofence_violation" "dev-A left Depot" false 1000.
Definition alert_b : Alert.t :=
  Alert.mk "al-2" "dev-B" "g-1" "geofence_violation" "dev-B left Depot" false 2000.

Definition depot : Geofence.t := Geofence.mk "g-1" "Depot" "garage" 40000000 (-74000000) 100 true.
Definition old_yard : Geofence.t :=
  Geofence.mk "g-2" "Old yard" "safe_zone" 40100000 (-74100000) 250 false.

Definition db0 : Db :=
  mkDb [alice; carol; root] [tracker_a; tracker_b] [] [depot; old_yard] [alert_a; alert_b].

Definition panel0 : AlertsPanel.World := AlertsPanel.mkWorld db0 [] true [].

(** The map once it is initialised, centred on New York, with no marker
    yet; the render sees Alice's tracker. *)
Definition map0 : MapView.MapInstance :=
  MapView.mkMap (MapView.mkLatLng 40712800 (-74006000)) 12.
Definition view0 : MapView.State := MapView.mkState (Some map0) ∅ ∅ [tracker_a] [] [].

(** Two pings of dev-A one second apart, and one with latitude 95 degrees,
    longitude -200 degrees, accuracy -3 m and battery 150 %. *)
Definition ping_early : LocationData.t :=
  LocationData.mk 1 "dev-A" 40000000 (-74000000) 5 1000 90 "vehicle".
Definition ping_late : LocationData.t :=
  LocationData.mk 2 "dev-A" 40001000 (-74000000) 5 2000 89 "vehicle".
Definition ping_invalid : LocationData.t :=
  LocationData.mk 3 "dev-A" 95000000 (-200000000) (-3) 3000 150 "vehicle".

(** The database with both pings of dev-A on record, the earlier one
    inserted last. *)
Definition db_tracks : Db :=
  mkDb [alice; carol; root] [tracker_a; tracker_b] [ping_late; ping_early]
       [depot; old_yard] [alert_a; alert_b].

(** A ping of the other tracker. *)
Definition ping_b : LocationData.t :=
  LocationData.mk 4 "dev-B" 41000000 (-73000000) 8 1500 40 "vehicle".

(** Clients for [signIn]: the password is wrong; the profile row is
    there; the row is missing and gets created; the row is missing, cannot
    be created; the network is down. *)
Definition alice_auth : Outcome (Auth.AuthData * option string) :=
  Returned (Auth.mkAuthData (Some (Auth.mkAuthUser "u-alice" (Some "alice@demo.com"))), None).

Definition wrong_password : Auth.Client :=
  Auth.mkClient
    (fun _ _ => Returned (Auth.mkAuthData None, Some "Invalid login credentials"))
    (fun _ => Returned (failed "PGRST116"))
    (fun _ => Returned (failed "42501")).

Definition with_profile : Auth.Client :=
  Auth.mkClient (fun _ _ => alice_auth)
    (fun _ => Returned (ok alice))
    (fun _ => Returned (failed "23505")).

Definition without_profile : Auth.Client :=
  Auth.mkClient (fun _ _ => alice_auth)
    (fun _ => Returned (failed "PGRST116"))
    (fun i => Returned (ok (User.mk (Auth.ins_id i) (default "" (Auth.ins_email i))
                              (Auth.ins_role i)))).

Definition read_only : Auth.Client :=
  Auth.mkClient (fun _ _ => alice_auth)
    (fun _ => Returned (failed "PGRST116"))
    (fun _ => Returned (failed "42501")).

Definition offline : Auth.Client :=
  Auth.mkClient (fun _ _ => Thrown "TypeError: Failed to fetch")
    (fun _ => Thrown "TypeError: Failed to fetch")
    (fun _ => Thrown "TypeError: Failed to fetch").

Definition signed_out : Auth.State := Auth.mkState None false.

(** A database that refuses every request. *)
Definition unavailable : Backend := {|
  select_devices _ _ := Returned (failed "503");
  select_device_single _ _ := Returned (failed "503");
  select_geofences _ _ := Returned (failed "503");
  select_geofence_single _ _ := Returned (failed "503");
  select_alerts_newest_first _ _ := Returned (failed "503");
  select_latest_location _ _ := Returned (failed "503");
  update_alerts _ _ db := (Returned (failed "503"), db)
|}.

(** A database whose device lookup fails while everything else works. *)
Definition devices_down : Backend := {|
  select_devices _ _ := Returned (failed "57014");
  select_device_single := select_device_single postgrest;
  select_geofences := select_geofences postgrest;
  select_geofence_single := select_geofence_single postgrest;
  select_alerts_newest_first := select_alerts_newest_first postgrest;
  select_latest_location := select_latest_location postgrest;
  update_alerts := update_alerts postgrest
|}.

End Sample.

(** ** AlertsPanel.tsx: what is derived from the rows *)

Module AlertsPanelView.
Import AlertsPanel.

(** The [filter] cell: ['all' | 'unread' | 'read']. *)
Inductive Choice := all | unread | read.

Definition filteredAlerts (filter : Choice) (alerts : list AlertWithDetails)
    : list AlertWithDetails :=
  List.filter (fun a => match filter with
                        | unread => negb (Alert.is_read (alert a))
                        | read => Alert.is_read (alert a)
                        | all => true
                        end) alerts.

Definition unreadCount (alerts : list AlertWithDetails) : nat :=
  length (List.filter (fun a => negb (Alert.is_read (alert a))) alerts).

(** The row has a geofence name to show. *)
Definition named (v : AlertWithDetails) : Prop :=
  exists n, geofence_name v = Some n /\ n <> "".

End AlertsPanelView.

(** ** AlertsPanel.tsx: the requests of one load *)

Module LoadFacts.

(** The promise rejected. *)
Definition rejected {A} (o : Outcome A) : bool :=
  match o with
  | Thrown _ => true
  | Returned _ => false
  end.

Section Requests.
Variable backend : Backend.
Variable user : option User.t.
Variable db : Db.

(** The device lookup [loadAlerts] makes for a client, and no other
    user, rejects. *)
Definition device_lookup_rejected : bool :=
  match client_id_of user with
  | Some uid => rejected (select_devices backend [Eq "client_id" (VStr uid)] db)
  | None => false
  end.

(** The filters the list request goes out with: none for a user who is
    not a client, the ids of the client's devices otherwise; [None] when
    the list request is not made, because the device lookup rejected or
    found no device. *)
Definition list_filters : option (list Filter) :=
  match client_id_of user with
  | Some uid =>
      match select_devices backend [Eq "client_id" (VStr uid)] db with
      | Returned userDevices =>
          match data userDevices with
          | Some (d :: ds) =>
              Some [In_ "device_id"
                      (List.map (fun d => VStr (Device.device_id d)) (d :: ds))]
          | _ => None
          end
      | Thrown _ => None
      end
  | None => Some []
  end.

(** The answer to the list request, when it is made. *)
Definition list_answer : option (Outcome (Response (list Alert.t))) :=
  (fun fs => select_alerts_newest_first backend fs db) <$> list_filters.

(** The rows the list request came back with. *)
Definition listed : list Alert.t :=
  match list_answer with
  | Some (Returned r) => data_or_empty r
  | _ => []
  end.

(** The list request rejects or is answered with an error. *)
Definition list_refused : bool :=
  match list_answer with
  | Some (Returned r) => match error r with Some _ => true | None => false end
  | Some (Thrown _) => true
  | None => false
  end.

(** One of the two lookups for the names of a row rejects. *)
Definition names_rejected (a : Alert.t) : bool :=
  rejected (select_geofence_single backend [Eq "id" (VStr (Alert.geofence_id a))] db)
  || rejected (select_device_single backend [Eq "device_id" (VStr (Alert.device_id a))] db).

(** A request of [loadAlerts] fails: the device lookup rejects, the
    list request rejects or is answered with an error, or a lookup for
    the names of a listed row rejects. *)
Definition load_fails : bool :=
  device_lookup_rejected || list_refused || existsb names_rejected listed.

End Requests.

End LoadFacts.

(** ** MapView.tsx: where markers may appear *)

Module MarkerFacts.

(** Every marker of [s'] was already there in [s] or is filed under the
    id of a device of the list [seen]. *)
Definition markers_within (seen : list Device.t) (s s' : MapView.State) : Prop :=
  forall id, is_Some (MapView.markers s' !! id) ->
             is_Some (MapView.markers s !! id)
             \/ exists d, d ∈ seen /\ Device.device_id d = id.

(** A device other than [id] has a marker. *)
Definition other_marker (s : MapView.State) (id : string) : Prop :=
  exists id', id' <> id /\ is_Some (MapView.markers s !! id').

End MarkerFacts.

(** ** When the database refuses *)

Module Refusal.

(** The backend answers every list request on [db] with an error. *)
Definition refuses_lists (backend : Backend) (db : Db) : Prop :=
  (forall fs, exists r e, select_devices backend fs db = Returned r /\ error r = Some e)
  /\ (forall fs, exists r e, select_geofences backend fs db = Returned r /\ error r = Some e).

End Refusal.

(** ** AuthContext.tsx: the session *)

Module AuthSession.
Import Auth.

(** [session?.user] *)
Record Session := mkSession { session_user : option AuthUser }.

(** The calls of [supabase.auth] besides [signInWithPassword]:
    [getSession], resolving to the session if there is one, and
    [signOut], resolving to its error if there is one. *)
Record SessionApi := mkSessionApi {
  getSession : Outcome (option Session);
  auth_signOut : Outcome (option string)
}.

Definition setLoading (b : bool) : M State unit :=
  modify (fun s => mkState (st_user s) b).

(** The row of [users] with the e-mail of the signed-in user, stored if
    it is found: the lookup [checkUser] and the auth listener share. *)
Definition adopt_profile (c : Client) (au : AuthUser) : M State unit :=
  fetched <- await (select_user_single c (Eq "email" (of_nullable (au_email au)))) ;;
  match Supabase.data fetched with
  | Some userData => setUser (Some userData)
  | None => ret tt
  end.

Definition checkUser (c : Client) (api : SessionApi) : M State unit :=
  try_finally
    (try_catch
       (session <- await (getSession api) ;;
        match session with
        | Some (mkSession (Some au)) => adopt_profile c au
        | _ => ret tt
        end)
       (fun _ => ret tt))
    (setLoading false).

(** The [onAuthStateChange] listener. *)
Definition on_auth_state_change (c : Client) (event : string) (session : option Session)
    : M State unit :=
  match String.eqb event "SIGNED_IN", session with
  | true, Some (mkSession (Some au)) => adopt_profile c au
  | _, _ => if String.eqb event "SIGNED_OUT" then setUser None else ret tt
  end.

Definition signOut (api : SessionApi) : M State unit :=
  await (auth_signOut api) ;;; setUser None.

End AuthSession.

(** ** MapView.tsx: the component around the map *)

Module MapShell.

(** The [isLoading] and [mapError] cells next to the state of the map. *)
Record Shell := mkShell {
  isLoading : bool;
  mapError : option string;
  view : MapView.State
}.

(** What the component renders: the spinner, the error panel with its
    retry button, or the map element, with the 'No devices found' overlay
    when the device list is empty. *)
Inductive Screen :=
  | Spinner
  | ErrorPanel (message : string)
  | MapElement (no_devices : bool).

Definition render (sh : Shell) : Screen :=
  if isLoading sh then Spinner
  else match mapError sh with
       | Some e => if String.eqb e "" then MapElement (Nat.eqb (length (MapView.devices (view sh))) 0)
                   else ErrorPanel e
       | None => MapElement (Nat.eqb (length (MapView.devices (view sh))) 0)
       end.

(** [mapRef.current] after the render is committed: the element is there
    only when the map element was rendered. *)
Definition mapRef_attached (sh : Shell) : bool :=
  match render sh with
  | MapElement _ => true
  | _ => false
  end.

Definition setIsLoading (b : bool) : M Shell unit :=
  modify (fun sh => mkShell b (mapError sh) (view sh)).
Definition setMapError (e : option string) : M Shell unit :=
  modify (fun sh => mkShell (isLoading sh) e (view sh)).

(** A function of the map run inside the component. *)
Definition on_view {A} (m : M MapView.State A) : M Shell A :=
  fun sh => let '(o, v) := m (view sh) in (o, mkShell (isLoading sh) (mapError sh) v).

(** [mapInstanceRef.current = new google.maps.Map(...)], centred on New
    York at zoom 12. *)
Definition new_map : MapView.MapInstance :=
  MapView.mkMap (MapView.mkLatLng 40712800 (-74006000)) 12.

Definition set_map_instance : M MapView.State unit :=
  modify (fun v => MapView.mkState (Some new_map) (MapView.markers v)
                     (MapView.geofenceCircles v) (MapView.devices v)
                     (MapView.geofences v) (MapView.toasts v)).

Definition api_key_missing : string :=
  "Google Maps API key is not configured. Please add VITE_GOOGLE_MAPS_API_KEY to your .env file.".

Section Effect.
(** What the effect finds: whether the map element is mounted, the API
    key of the environment, how loading the maps script and constructing
    the map end, the database, and [user] and [devices] of the render.
    A thrown value is named by a string; [instanceof_Error] and
    [message_of] are [error instanceof Error] and [error.message] of the
    value so named. *)
Variable attached : bool.
Variable apiKey : option string.
Variable load : Outcome unit.
Variable construct : Outcome unit.
Variable instanceof_Error : string -> bool.
Variable message_of : string -> string.
Variable backend : Backend.
Variable db : Db.
Variable user : option User.t.
Variable devices_seen : list Device.t.

Definition initializeMap : M Shell unit :=
  if negb attached then ret tt
  else
    try_finally
      (try_catch
         (if String.eqb (default "" apiKey) ""
          then setMapError (Some api_key_missing) ;;; setIsLoading false
          else
            await load ;;;
            await construct ;;;
            on_view set_map_instance ;;;
            on_view (MapView.loadDevicesAndLocations backend db user devices_seen) ;;;
            on_view (MapView.loadGeofences backend db))
         (fun error =>
            let errorMessage :=
              if instanceof_Error error then message_of error else "Unknown error" in
            setMapError (Some ("Failed to load map: " ++ errorMessage))))
      (setIsLoading false).

End Effect.

(** The component as [useState] and [useRef] start it. *)
Definition initial : Shell :=
  mkShell true None (MapView.mkState None ∅ ∅ [] [] []).

Section Mounted.
(** What the component finds around it when it is mounted. *)
Variable apiKey : option string.
Variable load : Outcome unit.
Variable construct : Outcome unit.
Variable instanceof_Error : string -> bool.
Variable message_of : string -> string.
Variable backend : Backend.
Variable db : Db.
Variable user : option User.t.

(** The effect of the first render: it sees the element and the device
    list of that render. *)
Definition mount : M Shell unit :=
  initializeMap (mapRef_attached initial) apiKey load construct
    instanceof_Error message_of backend db user (MapView.devices (view initial)).

(** The [location_data] INSERT handler that effect subscribes:
    [updateDeviceLocation] of the first render, whose [devices] is the
    list the component starts with. *)
Definition on_location_insert (payload : LocationData.t) : M Shell unit :=
  on_view (MapView.on_location_insert (MapView.devices (view initial)) payload).

(** The component from its first render on: the effect runs once (its
    dependency list is empty), then the rows the subscription delivers
    are handled in the order they arrive. *)
Definition session (payloads : list LocationData.t) : M Shell unit :=
  mount ;;; forM_ payloads on_location_insert.

End Mounted.

End MapShell.

(** ** The tables as the administration pages see them *)

Module GeofenceRow.
(** A row of [geofences] in full: what the map reads of it, and the two
    instants the manager also reads. *)
Record t := mk { shown : Geofence.t; created_at : number; updated_at : number }.
End GeofenceRow.

Module DeviceRow.
Record t := mk {
  shown : Device.t;
  last_seen : number;
  created_at : number;
  updated_at : number
}.
End DeviceRow.

Module Admin.

#[global] Instance GeofenceRow_columns : Columns GeofenceRow.t := fun r c =>
  if String.eqb c "created_at" then VNum (GeofenceRow.created_at r)
  else if String.eqb c "updated_at" then VNum (GeofenceRow.updated_at r)
  else column (GeofenceRow.shown r) c.

#[global] Instance DeviceRow_columns : Columns DeviceRow.t := fun r c =>
  if String.eqb c "last_seen" then VNum (DeviceRow.last_seen r)
  else if String.eqb c "created_at" then VNum (DeviceRow.created_at r)
  else if String.eqb c "updated_at" then VNum (DeviceRow.updated_at r)
  else column (DeviceRow.shown r) c.

Record Tables := mkTables {
  users : list User.t;
  devices : list DeviceRow.t;
  location_data : list LocationData.t;
  geofences : list GeofenceRow.t;
  alerts : list Alert.t
}.

(** The same tables as the map, the panel and the dashboards read them. *)
Definition visible (t : Tables) : Db :=
  mkDb (users t) (List.map DeviceRow.shown (devices t)) (location_data t)
       (List.map GeofenceRow.shown (geofences t)) (alerts t).

Definition with_geofences (gs : list GeofenceRow.t) (t : Tables) : Tables :=
  mkTables (users t) (devices t) (location_data t) gs (alerts t).
Definition with_devices (ds : list DeviceRow.t) (t : Tables) : Tables :=
  mkTables (users t) ds (location_data t) (geofences t) (alerts t).

(** [{ ...geofenceData, is_active: true }] *)
Record GeofenceInsert := mkGeofenceInsert {
  gi_name : string;
  gi_type : string;
  gi_latitude : number;
  gi_longitude : number;
  gi_radius : number;
  gi_is_active : bool
}.

(** [Partial<Geofence>]: the columns an update names. *)
Record GeofencePatch := mkGeofencePatch {
  gp_id : option string;
  gp_name : option string;
  gp_type : option string;
  gp_latitude : option number;
  gp_longitude : option number;
  gp_radius : option number;
  gp_is_active : option bool;
  gp_created_at : option number;
  gp_updated_at : option number
}.

Definition no_geofence_patch : GeofencePatch :=
  mkGeofencePatch None None None None None None None None None.

Definition patch_geofence (p : GeofencePatch) (r : GeofenceRow.t) : GeofenceRow.t :=
  let g := GeofenceRow.shown r in
  GeofenceRow.mk
    (Geofence.mk (default (Geofence.id g) (gp_id p))
                 (default (Geofence.name g) (gp_name p))
                 (default (Geofence.type g) (gp_type p))
                 (default (Geofence.latitude g) (gp_latitude p))
                 (default (Geofence.longitude g) (gp_longitude p))
                 (default (Geofence.radius g) (gp_radius p))
                 (default (Geofence.is_active g) (gp_is_active p)))
    (default (GeofenceRow.created_at r) (gp_created_at p))
    (default (GeofenceRow.updated_at r) (gp_updated_at p)).

(** [{ ...updates, updated_at: new Date().toISOString() }] *)
Definition stamped (p : GeofencePatch) (now : number) : GeofencePatch :=
  mkGeofencePatch (gp_id p) (gp_name p) (gp_type p) (gp_latitude p) (gp_longitude p)
    (gp_radius p) (gp_is_active p) (gp_created_at p) (Some now).

(** What [handleAddDevice] inserts. *)
Record DeviceInsert := mkDeviceInsert {
  di_device_id : string;
  di_phone_number : string;
  di_device_type : string;
  di_client_id : option string;
  di_is_online : bool;
  di_battery_level : number;
  di_last_seen : number
}.

(** [Partial<Device>]: the columns an update names; [client_id: null] is
    [Some None]. *)
Record DevicePatch := mkDevicePatch {
  dp_id : option string;
  dp_device_id : option string;
  dp_phone_number : option string;
  dp_device_type : option string;
  dp_is_online : option bool;
  dp_battery_level : option number;
  dp_client_id : option (option string);
  dp_last_seen : option number;
  dp_created_at : option number;
  dp_updated_at : option number
}.

Definition patch_device (p : DevicePatch) (r : DeviceRow.t) : DeviceRow.t :=
  let d := DeviceRow.shown r in
  DeviceRow.mk
    (Device.mk (default (Device.id d) (dp_id p))
               (default (Device.device_id d) (dp_device_id p))
               (default (Device.phone_number d) (dp_phone_number p))
               (default (Device.device_type d) (dp_device_type p))
               (default (Device.is_online d) (dp_is_online p))
               (default (Device.battery_level d) (dp_battery_level p))
               (default (Device.client_id d) (dp_client_id p)))
    (default (DeviceRow.last_seen r) (dp_last_seen p))
    (default (DeviceRow.created_at r) (dp_created_at p))
    (default (DeviceRow.updated_at r) (dp_updated_at p)).

Definition stamped_device (p : DevicePatch) (now : number) : DevicePatch :=
  mkDevicePatch (dp_id p) (dp_device_id p) (dp_phone_number p) (dp_device_type p)
    (dp_is_online p) (dp_battery_level p) (dp_client_id p) (dp_last_seen p)
    (dp_created_at p) (Some now).

(** The requests of the two administration pages. *)
Record Backend := mkBackend {
  (* [.order('created_at', { ascending: false })] *)
  select_geofences_newest_first : Tables -> Outcome (Response (list GeofenceRow.t));
  insert_geofence : GeofenceInsert -> Tables -> Outcome (Response unit) * Tables;
  update_geofences : GeofencePatch -> list Filter -> Tables -> Outcome (Response unit) * Tables;
  delete_geofences : list Filter -> Tables -> Outcome (Response unit) * Tables;
  select_devices_newest_first : Tables -> Outcome (Response (list DeviceRow.t));
  select_users : list Filter -> Tables -> Outcome (Response (list User.t));
  insert_device : DeviceInsert -> Tables -> Outcome (Response unit) * Tables;
  update_devices : DevicePatch -> list Filter -> Tables -> Outcome (Response unit) * Tables;
  delete_devices : list Filter -> Tables -> Outcome (Response unit) * Tables
}.

Definition newer_geofence (a b : GeofenceRow.t) : Prop :=
  GeofenceRow.created_at b <= GeofenceRow.created_at a.
Definition newer_device (a b : DeviceRow.t) : Prop :=
  DeviceRow.created_at b <= DeviceRow.created_at a.

#[global] Instance newer_geofence_dec a b : Decision (newer_geofence a b).
Proof. unfold newer_geofence. apply _. Defined.
#[global] Instance newer_device_dec a b : Decision (newer_device a b).
Proof. unfold newer_device. apply _. Defined.

(** [.delete()] followed by filters. *)
Definition delete_rows `{Columns Row} (table : list Row) (fs : list Filter) : list Row :=
  List.filter (fun r => negb (matches fs r)) table.

Definition accepted : Response unit := mkResponse None None.

(** A database that answers every request; [new_id] and [db_now] are
    the id and the instant it gives to the next inserted row. *)
Definition postgrest (new_id : string) (db_now : number) : Backend := {|
  select_geofences_newest_first t :=
    Returned (ok (merge_sort newer_geofence (geofences t)));
  insert_geofence i t :=
    (Returned accepted,
     with_geofences
       (geofences t ++
          [GeofenceRow.mk
             (Geofence.mk new_id (gi_name i) (gi_type i) (gi_latitude i) (gi_longitude i)
                          (gi_radius i) (gi_is_active i))
             db_now db_now])%list t);
  update_geofences p fs t :=
    (Returned accepted, with_geofences (update (geofences t) (patch_geofence p) fs) t);
  delete_geofences fs t :=
    (Returned accepted, with_geofences (delete_rows (geofences t) fs) t);
  select_devices_newest_first t :=
    Returned (ok (merge_sort newer_device (devices t)));
  select_users fs t := Returned (ok (select (users t) fs));
  insert_device i t :=
    (Returned accepted,
     with_devices
       (devices t ++
          [DeviceRow.mk
             (Device.mk new_id (di_device_id i) (di_phone_number i) (di_device_type i)
                        (di_is_online i) (di_battery_level i) (di_client_id i))
             (di_last_seen i) db_now db_now])%list t);
  update_devices p fs t :=
    (Returned accepted, with_devices (update (devices t) (patch_device p) fs) t);
  delete_devices fs t :=
    (Returned accepted, with_devices (delete_rows (devices t) fs) t)
|}.

End Admin.

(** ** GeofenceManager.tsx *)

Module GeofenceManager.
Import Admin.

Record World := mkWorld {
  tables : Tables;
  geofences : list GeofenceRow.t;
  isLoading : bool;
  showAddModal : bool;
  editingGeofence : option GeofenceRow.t;
  toasts : list string
}.

Definition setGeofences (gs : list GeofenceRow.t) : M World unit :=
  modify (fun w => mkWorld (tables w) gs (isLoading w) (showAddModal w)
                           (editingGeofence w) (toasts w)).
Definition setIsLoading (b : bool) : M World unit :=
  modify (fun w => mkWorld (tables w) (geofences w) b (showAddModal w)
                           (editingGeofence w) (toasts w)).
Definition setShowAddModal (b : bool) : M World unit :=
  modify (fun w => mkWorld (tables w) (geofences w) (isLoading w) b
                           (editingGeofence w) (toasts w)).
Definition setEditingGeofence (g : option GeofenceRow.t) : M World unit :=
  modify (fun w => mkWorld (tables w) (geofences w) (isLoading w) (showAddModal w)
                           g (toasts w)).
Definition toast (msg : string) : M World unit :=
  modify (fun w => mkWorld (tables w) (geofences w) (isLoading w) (showAddModal w)
                           (editingGeofence w) (msg :: toasts w)).

Definition request {A} (q : Tables -> Outcome A) : M World A :=
  fun w => (q (tables w), w).
Definition write {A} (q : Tables -> Outcome A * Tables) : M World A :=
  fun w => let '(o, t') := q (tables w) in
           (o, mkWorld t' (geofences w) (isLoading w) (showAddModal w)
                       (editingGeofence w) (toasts w)).

(** [if (error) throw error] *)
Definition check {A} (r : Response A) : M World unit :=
  match error r with
  | Some e => throw e
  | None => ret tt
  end.

Section Page.
Variable backend : Backend.

Definition loadGeofences : M World unit :=
  try_finally
    (try_catch
       (r <- request (select_geofences_newest_first backend) ;;
        check r ;;;
        setGeofences (data_or_empty r))
       (fun _ => toast "Failed to load geofences"))
    (setIsLoading false).

(** The form of the modal: name, type, latitude, longitude, radius. *)
Record FormData := mkFormData {
  name : string;
  type : string;
  latitude : number;
  longitude : number;
  radius : number
}.

Definition handleAddGeofence (geofenceData : FormData) : M World unit :=
  try_catch
    (r <- write (insert_geofence backend
                   (mkGeofenceInsert (name geofenceData) (type geofenceData)
                      (latitude geofenceData) (longitude geofenceData)
                      (radius geofenceData) true)) ;;
     check r ;;;
     toast "Geofence added successfully" ;;;
     setShowAddModal false ;;;
     loadGeofences)
    (fun _ => toast "Failed to add geofence").

(** [now] is what [new Date()] gives when the update is built. *)
Definition handleUpdateGeofence (now : number) (geofenceId : string) (updates : GeofencePatch)
    : M World unit :=
  try_catch
    (r <- write (update_geofences backend (stamped updates now)
                   [Eq "id" (VStr geofenceId)]) ;;
     check r ;;;
     toast "Geofence updated successfully" ;;;
     setEditingGeofence None ;;;
     loadGeofences)
    (fun _ => toast "Failed to update geofence").

(** [confirmed] is the answer to the [confirm] dialogue. *)
Definition handleDeleteGeofence (confirmed : bool) (geofenceId : string) : M World unit :=
  if negb confirmed then ret tt
  else
    try_catch
      (r <- write (delete_geofences backend [Eq "id" (VStr geofenceId)]) ;;
       check r ;;;
       toast "Geofence deleted successfully" ;;;
       loadGeofences)
      (fun _ => toast "Failed to delete geofence").

Definition toggleGeofenceStatus (now : number) (geofenceId : string) (isActive : bool)
    : M World unit :=
  try_catch
    (r <- write (update_geofences backend
                   (mkGeofencePatch None None None None None None (Some (negb isActive))
                      None (Some now))
                   [Eq "id" (VStr geofenceId)]) ;;
     check r ;;;
     toast ("Geofence " ++ (if negb isActive then "activated" else "deactivated")) ;;;
     loadGeofences)
    (fun _ => toast "Failed to update geofence status").

End Page.

(** [a || b] on numbers: zero is falsy. *)
Definition num_or (a : number) (b : number) : number := if Z.eqb a 0 then b else a.

(** The form the modal opens with: the fields of the geofence it edits,
    or the defaults of a new one. *)
Definition initial_form (geofence : option GeofenceRow.t) : FormData :=
  let g := GeofenceRow.shown <$> geofence in
  mkFormData (or_else (Geofence.name <$> g) "")
             (or_else (Geofence.type <$> g) "custom")
             (num_or (default 0 (Geofence.latitude <$> g)) 0)
             (num_or (default 0 (Geofence.longitude <$> g)) 0)
             (num_or (default 0 (Geofence.radius <$> g)) 100).

(** The form as [onSave] of the edit modal passes it on. *)
Definition as_patch (f : FormData) : GeofencePatch :=
  mkGeofencePatch None (Some (name f)) (Some (type f)) (Some (latitude f))
    (Some (longitude f)) (Some (radius f)) None None None.

(** [handleSubmit] of the modal opened on [geofence], with the form
    [formData] as the user left it. *)
Definition handleSubmit (backend : Backend) (now : number) (geofence : option GeofenceRow.t)
    (formData : FormData) : M World unit :=
  match geofence with
  | Some editing =>
      handleUpdateGeofence backend now (Geofence.id (GeofenceRow.shown editing))
        (as_patch formData)
  | None => handleAddGeofence backend formData
  end.

End GeofenceManager.

(** ** DeviceManagement.tsx *)

Module DeviceManagement.
Import Admin.

Record World := mkWorld {
  tables : Tables;
  devices : list DeviceRow.t;
  users : list User.t;
  isLoading : bool;
  showAddModal : bool;
  editingDevice : option DeviceRow.t;
  toasts : list string
}.

Definition setDevices (ds : list DeviceRow.t) : M World unit :=
  modify (fun w => mkWorld (tables w) ds (users w) (isLoading w) (showAddModal w)
                           (editingDevice w) (toasts w)).
Definition setUsers (us : list User.t) : M World unit :=
  modify (fun w => mkWorld (tables w) (devices w) us (isLoading w) (showAddModal w)
                           (editingDevice w) (toasts w)).
Definition setIsLoading (b : bool) : M World unit :=
  modify (fun w => mkWorld (tables w) (devices w) (users w) b (showAddModal w)
                           (editingDevice w) (toasts w)).
Definition setShowAddModal (b : bool) : M World unit :=
  modify (fun w => mkWorld (tables w) (devices w) (users w) (isLoading w) b
                           (editingDevice w) (toasts w)).
Definition setEditingDevice (d : option DeviceRow.t) : M World unit :=
  modify (fun w => mkWorld (tables w) (devices w) (users w) (isLoading w) (showAddModal w)
                           d (toasts w)).
Definition toast (msg : string) : M World unit :=
  modify (fun w => mkWorld (tables w) (devices w) (users w) (isLoading w) (showAddModal w)
                           (editingDevice w) (msg :: toasts w)).

Definition request {A} (q : Tables -> Outcome A) : M World A :=
  fun w => (q (tables w), w).
Definition write {A} (q : Tables -> Outcome A * Tables) : M World A :=
  fun w => let '(o, t') := q (tables w) in
           (o, mkWorld t' (devices w) (users w) (isLoading w) (showAddModal w)
                       (editingDevice w) (toasts w)).

Definition check {A} (r : Response A) : M World unit :=
  match error r with
  | Some e => throw e
  | None => ret tt
  end.

(** [s || undefined], [s || null]: the empty string counts as none. *)
Definition truthy (s : option string) : option string :=
  match s with
  | Some x => if String.eqb x "" then None else Some x
  | None => None
  end.

(** What the add form hands to [onAdd]. *)
Record DeviceData := mkDeviceData {
  device_id : string;
  phone_number : string;
  device_type : string;
  client_id : option string
}.

(** The fields of the two forms; [client_id] is the value of the select,
    empty for 'Unassigned'. *)
Record FormData := mkFormData {
  form_device_id : string;
  form_phone_number : string;
  form_device_type : string;
  form_client_id : string
}.

Section Page.
Variable backend : Backend.

Definition loadDevices : M World unit :=
  try_finally
    (try_catch
       (r <- request (select_devices_newest_first backend) ;;
        check r ;;;
        setDevices (data_or_empty r))
       (fun _ => toast "Failed to load devices"))
    (setIsLoading false).

Definition loadUsers : M World unit :=
  try_catch
    (r <- request (select_users backend [Eq "role" (VStr "client")]) ;;
     check r ;;;
     setUsers (data_or_empty r))
    (fun _ => ret tt).

Definition handleAddDevice (now : number) (deviceData : DeviceData) : M World unit :=
  try_catch
    (r <- write (insert_device backend
                   (mkDeviceInsert (device_id deviceData) (phone_number deviceData)
                      (device_type deviceData) (truthy (client_id deviceData))
                      false 100 now)) ;;
     check r ;;;
     toast "Device added successfully" ;;;
     setShowAddModal false ;;;
     loadDevices)
    (fun _ => toast "Failed to add device").

Definition handleUpdateDevice (now : number) (deviceId : string) (updates : DevicePatch)
    : M World unit :=
  try_catch
    (r <- write (update_devices backend (stamped_device updates now)
                   [Eq "id" (VStr deviceId)]) ;;
     check r ;;;
     toast "Device updated successfully" ;;;
     setEditingDevice None ;;;
     loadDevices)
    (fun _ => toast "Failed to update device").

Definition handleDeleteDevice (confirmed : bool) (deviceId : string) : M World unit :=
  if negb confirmed then ret tt
  else
    try_catch
      (r <- write (delete_devices backend [Eq "id" (VStr deviceId)]) ;;
       check r ;;;
       toast "Device deleted successfully" ;;;
       loadDevices)
      (fun _ => toast "Failed to delete device").

(** [handleSubmit] of the add form. *)
Definition submit_add (now : number) (formData : FormData) : M World unit :=
  handleAddDevice now
    (mkDeviceData (form_device_id formData) (form_phone_number formData)
       (form_device_type formData) (truthy (Some (form_client_id formData)))).

(** [handleSubmit] of the edit form opened on [device]. *)
Definition submit_edit (now : number) (device : DeviceRow.t) (formData : FormData)
    : M World unit :=
  handleUpdateDevice now (Device.id (DeviceRow.shown device))
    (mkDevicePatch None (Some (form_device_id formData)) (Some (form_phone_number formData))
       (Some (form_device_type formData)) None None
       (Some (truthy (Some (form_client_id formData)))) None None None).

End Page.

(** The form the edit modal opens with. *)
Definition edit_form (device : DeviceRow.t) : FormData :=
  let d := DeviceRow.shown device in
  mkFormData (Device.device_id d) (Device.phone_number d) (Device.device_type d)
    (or_else (Device.client_id d) "").

(** The form the add modal opens with. *)
Definition add_form : FormData := mkFormData "" "" "GPS Tracker" "".

Definition getClientEmail (users : list User.t) (clientId : option string) : string :=
  match truthy clientId with
  | None => "Unassigned"
  | Some cid =>
      match List.find (fun u => String.eqb (User.id u) cid) users with
      | Some user => User.email user
      | None => "Unknown"
      end
  end.

End DeviceManagement.

(** ** Reading the geofence rows *)

Module GeofenceFacts.

(** [{ ...geofence, is_active: b }] *)
Definition set_active (b : bool) (g : Geofence.t) : Geofence.t :=
  Geofence.mk (Geofence.id g) (Geofence.name g) (Geofence.type g) (Geofence.latitude g)
    (Geofence.longitude g) (Geofence.radius g) b.

(** The geofences the map lists when it loads from the tables. *)
Definition on_map (t : Admin.Tables) (v : MapView.State) : list Geofence.t :=
  MapView.geofences (MapView.loadGeofences postgrest (Admin.visible t) v).2.

Definition row_id (r : GeofenceRow.t) : string := Geofence.id (GeofenceRow.shown r).

End GeofenceFacts.

(** ** Sample rows of the administration pages *)

Module AdminSample.

Definition depot_row : GeofenceRow.t := GeofenceRow.mk Sample.depot 100 100.
Definition old_yard_row : GeofenceRow.t := GeofenceRow.mk Sample.old_yard 200 250.

(** A geofence saved with radius 0 and no type. *)
Definition blank_row : GeofenceRow.t :=
  GeofenceRow.mk (Geofence.mk "g-3" "Gate" "" 0 0 0 true) 300 300.

Definition tracker_a_row : DeviceRow.t := DeviceRow.mk Sample.tracker_a 900 10 10.
Definition tracker_b_row : DeviceRow.t := DeviceRow.mk Sample.tracker_b 800 20 20.

Definition tables0 : Admin.Tables :=
  Admin.mkTables [Sample.alice; Sample.carol; Sample.root]
    [tracker_a_row; tracker_b_row] [] [depot_row; old_yard_row; blank_row]
    [Sample.alert_a; Sample.alert_b].

Definition manager0 : GeofenceManager.World :=
  GeofenceManager.mkWorld tables0 [] true false None [].

Definition healthy : Admin.Backend := Admin.postgrest "g-new" 5000.

Definition devices0 : DeviceManagement.World :=
  DeviceManagement.mkWorld tables0 [] [] true true None [].

(** The add form filled in for a tracker of Carol, and for one left
    unassigned. *)
Definition form_for_carol : DeviceManagement.FormData :=
  DeviceManagement.mkFormData "dev-C" "555-0102" "GPS Tracker" "u-carol".
Definition form_unassigned : DeviceManagement.FormData :=
  DeviceManagement.mkFormData "dev-D" "555-0103" "GPS Tracker" "".

End AdminSample.

(** ** A sample registry *)

Module RegistrySample.
Import Core.ContainmentTracker.

(** The registry holding the geofences of the sample table, a fix at
    the depot, and pairs that start outside. *)
Definition registry : GeofenceRegistry.Registry :=
  List.map GeofenceRegistry.of_row (Supabase.geofences Sample.db0).

Definition fix_at_depot : Fix := mkFix (mkPosition 40000000 (-74000000)) 5 1000.

Definition starts_outside (g : Geofence) (f : Fix) : ContainmentState :=
  mkContainment false (timestamp f).

End RegistrySample.

(** * Properties *)

(** ** Sign-in *)

Section SignIn.
Import Auth AuthCases.

Variable c : Client.
Variables email password : string.

Ltac run_signIn :=
  unfold signIn, try_catch, bind, await, ret, setUser, modify; simpl.

(** Two answers recorded for one request are the same answer. *)
Ltac same_answer :=
  repeat match goal with
         | H : ?q = Returned _, H' : ?q = _ |- _ => rewrite H in H'
         | H : ?q = Thrown _, H' : ?q = _ |- _ => rewrite H in H'
         end;
  simplify_eq; simpl in *; simplify_eq.

Lemma signIn_returns s : exists r s', signIn c email password s = (Returned r, s').
Proof.
  run_signIn.
  destruct (signInWithPassword c email password) as [[d [e|]]|]; simpl; eauto.
  destruct (user d) as [au|]; simpl; eauto.
  destruct (select_user_single c _) as [[[u|] [e|]]|]; simpl; eauto;
    destruct (insert_user_single c _) as [[[u'|] [e'|]]|]; simpl; eauto.
Qed.

(** C10. [signIn] never throws: for every input and every behaviour of
    the client it returns an object.  That object carries an error
    string, and the stored user is left as it was, whenever
    authentication fails, the authenticated user is absent, or the
    profile row can neither be fetched nor created; it is the empty
    object exactly when a profile row was fetched or created, and that
    row is then the stored user. *)
Theorem signIn_total_and_classified s :
  exists r s',
    signIn c email password s = (Returned r, s')
    /\ (auth_fails c email password \/ auth_user_absent c email password
        \/ profile_unavailable c email password ->
        is_Some (error r) /\ s' = s)
    /\ (error r = None <->
        exists u, profile_obtained c email password u
                  /\ s' = mkState (Some u) (st_loading s)).
Proof.
  unfold auth_fails, auth_user_absent, profile_unavailable, profile_obtained,
    signed_in, fetched, fetch_fails, created, create_fails.
  run_signIn.
  destruct (signInWithPassword c email password) as [[d [e|]]|e] eqn:Hauth; simpl.
  - eexists _, _; split; [reflexivity|]. split; [eauto|].
    split; [discriminate|]. intros (u & (au & (d' & ? & _) & _) & _); congruence.
  - destruct (user d) as [au|] eqn:Hu; simpl.
    + destruct (select_user_single c (Eq "id" (VStr (au_id au))))
        as [[[u|] [e|]]|e] eqn:Hsel; simpl;
        try (destruct (insert_user_single c (mkUserInsert (au_id au) (au_email au) "viewer"))
          as [[[u'|] [e'|]]|e'] eqn:Hins; simpl);
        (eexists _, _; split; [reflexivity|]; simpl; split; [|split]).
      all: lazymatch goal with
           | |- _ \/ _ -> _ =>
               intros [(d' & e0 & Ha) | [(d' & Ha & Hb)
                  | (au' & (d' & Ha & Hb) & (r1 & Hr1 & Hf) & (r2 & Hr2 & Hc))]];
               same_answer;
               try (destruct Hf as [[? Hf]|Hf]; same_answer);
               try (destruct Hc as [[? Hc]|Hc]; same_answer);
               try (split; [eauto | reflexivity])
           | |- _ = None -> _ =>
               intros Hnone; simplify_eq;
               (eexists; (split; [|reflexivity]); exists au;
                (split; [exists d; split; [reflexivity | assumption] |]);
                first [ left; eexists; (split; [eassumption|]); simpl;
                        split; reflexivity
                      | right; split; eexists; (split; [eassumption|]); simpl;
                        first [ split; reflexivity | left; eexists; reflexivity
                              | right; reflexivity ] ])
           | |- _ -> _ = None =>
               intros (u0 & (au' & (d' & Ha & Hb) & Hcase) & Hs); same_answer;
               destruct Hcase as [(r1 & Hr1 & He1 & Hd1)
                                 | ((r1 & Hr1 & Hf) & (r2 & Hr2 & He2 & Hd2))];
               same_answer;
               try (destruct Hf as [[? Hf]|Hf]; same_answer); try reflexivity
           end.
    + eexists _, _; split; [reflexivity|]. split; [eauto|].
      split; [discriminate|]. intros (u & (au & (d' & ? & ?) & _) & _); congruence.
  - eexists _, _; split; [reflexivity|]. split; [eauto|].
    split; [discriminate|]. intros (u & (au & (d' & ? & _) & _) & _); congruence.
Qed.

End SignIn.

Section SignInOnSamples.
Import Auth Sample.

Example signIn_wrong_password :
  signIn wrong_password "alice@demo.com" "guess" signed_out
  = (Returned (mkResult (Some "Invalid credentials")), signed_out).
Proof. reflexivity. Qed.

Example signIn_with_profile :
  signIn with_profile "alice@demo.com" "secret" signed_out
  = (Returned (mkResult None), mkState (Some alice) false).
Proof. reflexivity. Qed.

Example signIn_without_profile :
  signIn without_profile "alice@demo.com" "secret" signed_out
  = (Returned (mkResult None),
     mkState (Some (User.mk "u-alice" "alice@demo.com" "viewer")) false).
Proof. reflexivity. Qed.

Example signIn_read_only :
  signIn read_only "alice@demo.com" "secret" signed_out
  = (Returned (mkResult (Some "Failed to create user profile")), signed_out).
Proof. reflexivity. Qed.

Example signIn_offline :
  signIn offline "alice@demo.com" "secret" signed_out
  = (Returned (mkResult (Some "An error occurred during sign in")), signed_out).
Proof. reflexivity. Qed.

End SignInOnSamples.

(** ** Filters on the rows *)

Section Filters.

Lemma holds_client_id (d : Device.t) (uid : string) :
  holds d (Eq "client_id" (VStr uid)) = bool_decide (Device.client_id d = Some uid).
Proof.
  unfold holds, column, Device_columns; simpl.
  destruct (Device.client_id d) as [x|]; simpl.
  - apply bool_decide_ext. split; congruence.
  - done.
Qed.

Lemma holds_is_active (g : Geofence.t) :
  holds g (Eq "is_active" (VBool true)) = Geofence.is_active g.
Proof. unfold holds, column, Geofence_columns; simpl. by destruct (Geofence.is_active g). Qed.

Lemma holds_unread (a : Alert.t) :
  holds a (Eq "is_read" (VBool false)) = negb (Alert.is_read a).
Proof. unfold holds, column, Alert_columns; simpl. by destruct (Alert.is_read a). Qed.

Lemma holds_alert_id (a : Alert.t) (alertId : string) :
  holds a (Eq "id" (VStr alertId)) = String.eqb (Alert.id a) alertId.
Proof.
  unfold holds, column, Alert_columns; simpl.
  destruct (String.eqb_spec (Alert.id a) alertId) as [->|Hne].
  - by apply bool_decide_eq_true_2.
  - apply bool_decide_eq_false_2. congruence.
Qed.

Lemma VStr_elem_of (x : string) (ids : list string) :
  VStr x ∈ List.map VStr ids <-> x ∈ ids.
Proof.
  rewrite !list_elem_of_In, in_map_iff. split.
  - intros (y & Hy & Hin). by simplify_eq.
  - intros Hin. eauto.
Qed.

Lemma holds_device_in (a : Alert.t) (ids : list string) :
  holds a (In_ "device_id" (List.map VStr ids)) = bool_decide (Alert.device_id a ∈ ids).
Proof.
  unfold holds, column, Alert_columns; simpl.
  apply bool_decide_ext, VStr_elem_of.
Qed.

Lemma select_devices_of_client (db : Db) (uid : string) :
  List.map Device.device_id (select (devices db) [Eq "client_id" (VStr uid)])
  = AlertFacts.owned_device_ids db uid.
Proof.
  unfold AlertFacts.owned_device_ids, select. f_equal.
  apply filter_ext. intros d. unfold matches; cbn [forallb].
  by rewrite holds_client_id, andb_true_r.
Qed.

End Filters.

(** ** AlertsPanel: marking alerts as read *)

Section MarkRead.
Import AlertsPanel AlertFacts.

Lemma with_is_read_same (b : bool) (a : Alert.t) : same_but_read a (Alert.with_is_read b a).
Proof. by destruct a. Qed.

Lemma with_is_read_id (a : Alert.t) : Alert.with_is_read (Alert.is_read a) a = a.
Proof. by destruct a. Qed.

(** The filters [markAllAsRead] chains after [.eq('is_read', false)]. *)
Lemma device_filter_postgrest (uid : string) (w : World) :
  device_filter postgrest uid w
  = (Returned match owned_device_ids (db w) uid with
              | [] => None
              | ids => Some [In_ "device_id" (List.map VStr ids)]
              end, w).
Proof.
  unfold device_filter, bind, request, ret; simpl.
  rewrite <- select_devices_of_client.
  destruct (select (devices (db w)) [Eq "client_id" (VStr uid)]) as [|d ds]; simpl.
  - reflexivity.
  - by rewrite map_map.
Qed.

Lemma client_id_of_client (u : User.t) :
  User.role u = "client" -> client_id_of (Some u) = Some (User.id u).
Proof. intros Hrole. unfold client_id_of. by rewrite Hrole. Qed.

Lemma markAllAsRead_client_db (u : User.t) (w : World) :
  User.role u = "client" ->
  Supabase.alerts (db (markAllAsRead postgrest (Some u) w).2)
  = update (Supabase.alerts (db w)) (Alert.with_is_read true)
      (Eq "is_read" (VBool false)
       :: match owned_device_ids (db w) (User.id u) with
          | [] => []
          | ids => [In_ "device_id" (List.map VStr ids)]
          end).
Proof.
  intros Hrole. unfold markAllAsRead, try_catch, bind.
  rewrite (client_id_of_client u Hrole), device_filter_postgrest.
  by destruct (owned_device_ids (db w) (User.id u)).
Qed.

Lemma Forall2_map_self {A} (R : A -> A -> Prop) (f : A -> A) (l : list A) :
  (forall x, R x (f x)) -> Forall2 R l (List.map f l).
Proof. intros Hf. induction l; simpl; constructor; auto. Qed.

Lemma update_only_is_read (rows : list Alert.t) (fs : list Filter) :
  Forall2 same_but_read rows (update rows (Alert.with_is_read true) fs).
Proof.
  apply Forall2_map_self. intros a. destruct (matches fs a).
  - apply with_is_read_same.
  - by destruct a.
Qed.

(** C9. When a client-role user who owns no device invokes
    [markAllAsRead], no device filter is chained: the update leaves every
    alert of the table with [is_read] true, whichever device it is about,
    so also the alerts of devices the client does not own.  The device
    filter narrows the update only when the client owns at least one
    device: then the alerts of the client's devices end with [is_read]
    true and every other alert is as it was.  Either way no other column
    of any alert changes, and no alert is added or dropped. *)
Theorem markAllAsRead_client_without_devices (u : User.t) (w : World) :
  User.role u = "client" ->
  let owned := owned_device_ids (db w) (User.id u) in
  let before := Supabase.alerts (db w) in
  let after := Supabase.alerts (db (markAllAsRead postgrest (Some u) w).2) in
  Forall2 same_but_read before after
  /\ (owned = [] -> Forall (fun a' => Alert.is_read a' = true) after)
  /\ (owned <> [] ->
      Forall2 (fun a a' => if bool_decide (Alert.device_id a ∈ owned)
                           then Alert.is_read a' = true
                           else a' = a) before after).
Proof.
  intros Hrole owned before after. subst before after.
  rewrite (markAllAsRead_client_db u w Hrole). fold owned.
  split; [apply update_only_is_read|]. unfold update. split; intros Howned.
  - rewrite Howned. apply Forall_forall. intros a' Hin.
    apply list_elem_of_In, in_map_iff in Hin as (a & <- & _).
    unfold matches; cbn [forallb]. rewrite holds_unread, andb_true_r.
    by destruct a as [? ? ? ? ? []].
  - destruct owned as [|i ids] eqn:Hids; [done|].
    apply Forall2_map_self. intros a.
    unfold matches; cbn [forallb]. rewrite holds_unread, holds_device_in, andb_true_r.
    case_bool_decide; by destruct a as [? ? ? ? ? []].
Qed.

Lemma markAllAsRead_client_without_devices_witness :
  User.role Sample.carol = "client"
  /\ owned_device_ids Sample.db0 "u-carol" = []
  /\ List.map (fun a => (Alert.device_id a, Alert.is_read a)) (Supabase.alerts Sample.db0)
     = [("dev-A", false); ("dev-B", false)]
  /\ Forall (fun a' => Alert.is_read a' = true)
       (Supabase.alerts (db (markAllAsRead postgrest (Some Sample.carol) Sample.panel0).2)).
Proof.
  split; [reflexivity|]. split; [reflexivity|]. split; [reflexivity|].
  apply (markAllAsRead_client_without_devices Sample.carol Sample.panel0); reflexivity.
Defined.

Lemma markAsRead_postgrest (alertId : string) (w : World) :
  markAsRead postgrest alertId w
  = (Returned tt,
     mkWorld
       (with_alerts (update (Supabase.alerts (db w)) (Alert.with_is_read true)
                       [Eq "id" (VStr alertId)]) (db w))
       (List.map (fun a => if String.eqb (Alert.id (alert a)) alertId
                           then set_read a else a) (alerts w))
       (isLoading w) (toasts w)).
Proof. reflexivity. Qed.

(** C8. [markAsRead alertId] sets [is_read] on the alert with that id and
    changes nothing else: in the [alerts] table and in the rows the panel
    shows, every other column of that alert and every other alert are as
    they were, and so are the other tables.  The one other write the
    panel issues, [markAllAsRead], changes no column but [is_read]
    either. *)
Theorem markAsRead_only_sets_is_read (user : option User.t) (alertId : string) (w : World) :
  let w' := (markAsRead postgrest alertId w).2 in
  Forall2 (marked_read alertId) (Supabase.alerts (db w)) (Supabase.alerts (db w'))
  /\ Forall2 (marked_read_view alertId) (alerts w) (alerts w')
  /\ (users (db w'), devices (db w'), location_data (db w'), geofences (db w'))
     = (users (db w), devices (db w), location_data (db w), geofences (db w))
  /\ Forall2 same_but_read (Supabase.alerts (db w))
       (Supabase.alerts (db (markAllAsRead postgrest user w).2)).
Proof.
  intros w'. subst w'. rewrite markAsRead_postgrest. cbn [snd db alerts].
  split; [|split; [|split]].
  - apply Forall2_map_self. intros a.
    unfold matches; cbn [forallb]. rewrite holds_alert_id, andb_true_r.
    destruct (String.eqb_spec (Alert.id a) alertId) as [Heq|Hne].
    + split; [apply with_is_read_same|]. split; [done|]. by intros [].
    + split; [by destruct a|]. split; [by intros ?|done].
  - apply Forall2_map_self. intros v.
    destruct (String.eqb_spec (Alert.id (alert v)) alertId) as [Heq|Hne].
    + split; [|done]. split; [apply with_is_read_same|]. split; [done|]. by intros [].
    + split; [|done]. split; [by destruct (alert v)|]. split; [by intros ?|done].
  - reflexivity.
  - unfold markAllAsRead, try_catch, bind.
    destruct (client_id_of user) as [uid|].
    + rewrite device_filter_postgrest. simpl. apply update_only_is_read.
    + simpl. apply update_only_is_read.
Qed.

(** When the update is refused the panel keeps its rows and says so. *)
Lemma markAsRead_refused (backend : Backend) (alertId e : string) (w w1 : World)
    (r : Response unit) :
  write (update_alerts backend (Alert.with_is_read true) [Eq "id" (VStr alertId)]) w
  = (Returned r, w1) ->
  error r = Some e ->
  markAsRead backend alertId w
  = (Returned tt, mkWorld (db w1) (alerts w1) (isLoading w1)
                          ("Failed to update alert" :: toasts w1))
    /\ alerts w1 = alerts w.
Proof.
  intros Hw He. unfold markAsRead, try_catch, bind. rewrite Hw, He. split; [done|].
  unfold write in Hw. destruct (update_alerts backend _ _ (db w)). by simplify_eq.
Qed.

End MarkRead.

(** ** What a client is shown *)

Section ClientViews.
Import AlertsPanel AlertFacts.

Lemma mapM_enrich_postgrest (al : list Alert.t) (w : World) :
  mapM (enrich postgrest) al w = (Returned (List.map (details_of (db w)) al), w).
Proof.
  induction al as [|a al IH]; [reflexivity|].
  cbn [mapM]. unfold bind at 1.
  replace (enrich postgrest a w) with (Returned (details_of (db w) a), w) by reflexivity.
  unfold bind at 1. by rewrite IH.
Qed.

Lemma loadAlerts_client_postgrest (u : User.t) (w : World) :
  User.role u = "client" ->
  alerts (loadAlerts postgrest (Some u) w).2
  = match owned_device_ids (db w) (User.id u) with
    | [] => []
    | ids => List.map (details_of (db w))
               (merge_sort newer_alert
                  (select (Supabase.alerts (db w)) [In_ "device_id" (List.map VStr ids)]))
    end.
Proof.
  intros Hrole. unfold loadAlerts, try_finally, try_catch, bind at 1.
  rewrite (client_id_of_client u Hrole), device_filter_postgrest.
  destruct (owned_device_ids (db w) (User.id u)) as [|i ids]; [reflexivity|].
  unfold bind at 1, request at 1. cbn [select_alerts_newest_first postgrest error ok data_or_empty].
  unfold bind. simpl data. cbn [default]. rewrite mapM_enrich_postgrest. reflexivity.
Qed.

(** The rows [loadAlerts] shows a client are rows of the table about the
    client's own devices. *)
Lemma loadAlerts_client_rows (u : User.t) (w : World) (v : AlertWithDetails) :
  User.role u = "client" ->
  v ∈ alerts (loadAlerts postgrest (Some u) w).2 ->
  alert v ∈ Supabase.alerts (db w)
  /\ Alert.device_id (alert v) ∈ owned_device_ids (db w) (User.id u).
Proof.
  intros Hrole. rewrite (loadAlerts_client_postgrest u w Hrole).
  destruct (owned_device_ids (db w) (User.id u)) as [|i ids] eqn:Hids.
  - by intros ?%elem_of_nil.
  - rewrite list_elem_of_In, in_map_iff. intros (a & <- & Hin).
    apply list_elem_of_In in Hin. rewrite merge_sort_Permutation in Hin.
    apply list_elem_of_In, filter_In in Hin as [Hin Hm].
    unfold matches in Hm; cbn [forallb] in Hm.
    rewrite holds_device_in, andb_true_r in Hm. apply bool_decide_eq_true in Hm.
    split; [by apply list_elem_of_In | done].
Qed.

Lemma updateDeviceLocation_frame (seen : list Device.t) (loc : LocationData.t)
    (s : MapView.State) :
  exists s', MapView.updateDeviceLocation seen loc s = (Returned tt, s')
             /\ MapView.devices s' = MapView.devices s
             /\ MapView.geofences s' = MapView.geofences s
             /\ MapView.geofenceCircles s' = MapView.geofenceCircles s
             /\ MapView.toasts s' = MapView.toasts s.
Proof.
  unfold MapView.updateDeviceLocation.
  destruct (MapView.mapInstance s); [|by eexists].
  destruct (List.find _ seen); by eexists.
Qed.

Lemma load_locations_frame (db : Db) (seen ds : list Device.t)
    (s : MapView.State) :
  exists s',
    forM_ ds (MapView.show_latest_location postgrest db seen) s = (Returned tt, s')
    /\ MapView.devices s' = MapView.devices s.
Proof.
  revert s. induction ds as [|d ds IH]; intros s; [by eexists|].
  cbn [forM_]. unfold bind at 1, MapView.show_latest_location at 1.
  unfold bind at 1, await at 1.
  cbn [select_latest_location postgrest ok data].
  destruct (take 1 _) as [|loc ?].
  - unfold ret at 1. cbn beta iota. destruct (IH s) as (s' & -> & ?). eauto.
  - destruct (updateDeviceLocation_frame seen loc s) as (s1 & -> & Hd & _).
    cbn beta iota. destruct (IH s1) as (s' & -> & ?). eexists; split; [done|congruence].
Qed.

(** The device list [MapView] loads for a client is the list of the
    client's devices. *)
Lemma loadDevicesAndLocations_client_rows
    (db : Db) (u : User.t) (seen : list Device.t) (s : MapView.State) :
  User.role u = "client" ->
  MapView.devices (MapView.loadDevicesAndLocations postgrest db (Some u) seen s).2
  = List.filter (fun d => bool_decide (Device.client_id d = Some (User.id u))) (devices db).
Proof.
  intros Hrole. unfold MapView.loadDevicesAndLocations, try_catch.
  rewrite (client_id_of_client u Hrole).
  unfold bind at 1, await at 1. cbn [select_devices postgrest error ok data_or_empty data default].
  unfold bind at 1, MapView.setDevices at 1, modify at 1.
  match goal with |- context [forM_ ?ds ?f ?s0] =>
    destruct (load_locations_frame db seen ds s0) as (s' & -> & Hd) end.
  cbn [snd]. rewrite Hd. cbn [MapView.devices]. unfold select. apply filter_ext. intros d.
  unfold matches; cbn [forallb]. by rewrite holds_client_id, andb_true_r.
Qed.

(** So is the device list of the client dashboard. *)
Lemma loadDevices_client_rows (db : Db) (u : User.t) (s : ClientDashboard.State) :
  ClientDashboard.devices (ClientDashboard.loadDevices postgrest db (Some u) s).2
  = List.filter (fun d => bool_decide (Device.client_id d = Some (User.id u))) (devices db).
Proof.
  cbn. unfold select. apply filter_ext. intros d.
  unfold matches; cbn [forallb]. by rewrite holds_client_id, andb_true_r.
Qed.

(** The [location_data] handler of [MapView] drops a row about a device
    that is not in the device list it sees. *)
Lemma on_location_insert_other_device
    (seen : list Device.t) (payload : LocationData.t) (s : MapView.State) :
  (forall d, d ∈ seen -> Device.device_id d <> LocationData.device_id payload) ->
  MapView.on_location_insert seen payload s = (Returned tt, s).
Proof.
  intros Hseen. unfold MapView.on_location_insert, MapView.updateDeviceLocation.
  destruct (MapView.mapInstance s); [|done].
  destruct (List.find _ seen) as [d|] eqn:Hfind; [|done].
  apply find_some in Hfind as [Hin Heq]. apply String.eqb_eq in Heq.
  by destruct (Hseen d (proj2 (list_elem_of_In _ _) Hin)).
Qed.

Lemma loadAlerts_postgrest_toasts (user : option User.t) (w : World) :
  toasts (loadAlerts postgrest user w).2 = toasts w.
Proof.
  unfold loadAlerts, try_finally, try_catch, bind at 1.
  destruct (client_id_of user) as [uid|].
  - rewrite device_filter_postgrest.
    destruct (owned_device_ids (db w) uid) as [|i ids]; [reflexivity|].
    unfold bind at 1, request at 1.
    cbn [select_alerts_newest_first postgrest error ok data_or_empty].
    unfold bind. simpl data. cbn [default]. rewrite mapM_enrich_postgrest. reflexivity.
  - unfold ret at 1. unfold bind at 1, request at 1.
    cbn [select_alerts_newest_first postgrest error ok data_or_empty].
    unfold bind. simpl data. cbn [default]. rewrite mapM_enrich_postgrest. reflexivity.
Qed.

(** The [alerts] handler of [AlertsPanel] raises its toast for every
    inserted row, whoever is signed in. *)
Lemma on_alert_insert_toasts (user : option User.t) (newAlert : Alert.t) (w : World) :
  toasts (on_alert_insert postgrest user newAlert w).2
  = ("New Alert: " ++ Alert.message newAlert)%string :: toasts w.
Proof.
  unfold on_alert_insert, bind, toast at 1, modify.
  by rewrite loadAlerts_postgrest_toasts.
Qed.

(** C2. A client-role user is shown only rows about the client's own
    devices in the alert list and in the device lists, but the alert
    subscription of the panel does not look at the device: Alice, who
    owns dev-A only, gets the toast of an alert inserted for dev-B, while
    the list reloaded by the same handler keeps to dev-A. *)
Theorem alert_insert_toast_reaches_other_client :
  let w' := (on_alert_insert postgrest (Some Sample.alice) Sample.alert_b Sample.panel0).2 in
  User.role Sample.alice = "client"
  /\ owned_device_ids Sample.db0 (User.id Sample.alice) = ["dev-A"]
  /\ Alert.device_id Sample.alert_b = "dev-B"
  /\ toasts w' = ["New Alert: dev-B left Depot"]
  /\ List.map alert (alerts w') = [Sample.alert_a].
Proof. vm_compute. repeat split. Qed.

End ClientViews.

(** ** MapView: the geofences read *)

Section ActiveGeofences.
Import MapView.

Lemma select_active (db : Db) :
  select (Supabase.geofences db) [Eq "is_active" (VBool true)]
  = List.filter Geofence.is_active (Supabase.geofences db).
Proof.
  unfold select. apply filter_ext. intros g.
  unfold matches; cbn [forallb]. by rewrite holds_is_active, andb_true_r.
Qed.

Lemma add_circles (gs : list Geofence.t) (s : State) :
  exists s',
    forM_ gs add_circle s = (Returned tt, s')
    /\ geofences s' = geofences s
    /\ mapInstance s' = mapInstance s
    /\ forall id, is_Some (geofenceCircles s' !! id)
                  <-> is_Some (geofenceCircles s !! id)
                      \/ (is_Some (mapInstance s)
                          /\ exists g, g ∈ gs /\ Geofence.id g = id).
Proof.
  revert s. induction gs as [|g gs IH]; intros s.
  - eexists; split; [reflexivity|]. split; [done|]. split; [done|].
    intros id. split; [by left|]. intros [?|(_ & g & Hg & _)]; [done|].
    by apply elem_of_nil in Hg.
  - cbn [forM_]. unfold bind at 1, add_circle at 1, bind at 1, getMap at 1.
    destruct (mapInstance s) as [m|] eqn:Hmap.
    + unfold bind at 1, getCircles at 1, setCircles at 1, modify at 1.
      match goal with |- context [forM_ gs add_circle ?s1] =>
        destruct (IH s1) as (s' & -> & Hg & Hm & Hc) end.
      cbn [geofences mapInstance geofenceCircles] in Hg, Hm, Hc.
      eexists; split; [reflexivity|]. split; [done|]. split; [congruence|].
      intros id. rewrite Hc, Hmap. rewrite lookup_insert_is_Some.
      split.
      * intros [[<-|[_ ?]]|(_ & g' & Hin & <-)].
        -- right. split; [done|]. exists g. split; [apply list_elem_of_here|done].
        -- by left.
        -- right. split; [done|]. exists g'. split; [by apply list_elem_of_further|done].
      * intros [?|(_ & g' & Hin & <-)].
        -- destruct (decide (Geofence.id g = id)); [by left; left|by left; right].
        -- apply elem_of_cons in Hin as [->|Hin]; [by left; left|].
           right. split; [done|]. by exists g'.
    + unfold ret at 1. destruct (IH s) as (s' & -> & Hg & Hm & Hc).
      eexists; split; [reflexivity|]. split; [done|]. split; [congruence|].
      intros id. rewrite Hc, Hmap. split.
      * intros [?|([? ?] & _)]; [by left|done].
      * intros [?|([? ?] & _)]; [by left|done].
Qed.

Lemma loadGeofences_postgrest (db : Db) (s : State) :
  exists s',
    loadGeofences postgrest db s = (Returned tt, s')
    /\ geofences s' = List.filter Geofence.is_active (Supabase.geofences db)
    /\ forall id, is_Some (geofenceCircles s' !! id)
                  <-> is_Some (mapInstance s)
                      /\ exists g, g ∈ List.filter Geofence.is_active (Supabase.geofences db)
                                   /\ Geofence.id g = id.
Proof.
  unfold loadGeofences, try_catch.
  unfold bind at 1, await at 1.
  cbn [select_geofences postgrest error ok data_or_empty data default].
  unfold bind at 1, setGeofences at 1, modify at 1.
  unfold bind at 1, setCircles at 1, modify at 1. unfold id.
  match goal with |- context [forM_ ?gs add_circle ?s1] =>
    destruct (add_circles gs s1) as (s' & -> & Hg & Hm & Hc) end.
  cbn [geofences mapInstance geofenceCircles] in Hg, Hm, Hc.
  rewrite select_active in *.
  exists s'. split; [done|]. split; [done|].
  intros id. rewrite Hc, lookup_empty. split.
  - by intros [[? ?]|?].
  - by right.
Qed.

Lemma loadGeofences_lists_active (db : Db) (s : State) :
  let s' := (loadGeofences postgrest db s).2 in
  geofences s' = List.filter Geofence.is_active (Supabase.geofences db)
  /\ (forall g, g ∈ geofences s'
                <-> g ∈ Supabase.geofences db /\ Geofence.is_active g = true)
  /\ (forall id, is_Some (geofenceCircles s' !! id)
                 <-> is_Some (mapInstance s)
                     /\ exists g, g ∈ Supabase.geofences db
                                  /\ Geofence.is_active g = true /\ Geofence.id g = id).
Proof.
  intros s'. subst s'.
  destruct (loadGeofences_postgrest db s) as (s' & -> & Hg & Hc). cbn [snd].
  split; [done|]. split.
  - intros g. by rewrite Hg, !list_elem_of_In, filter_In.
  - intros id. rewrite Hc. split.
    + intros (Hmap & g & Hin & Hid).
      apply list_elem_of_In, filter_In in Hin as [Hin Hact].
      split; [done|]. exists g. by rewrite list_elem_of_In.
    + intros (Hmap & g & Hin & Hact & Hid). split; [done|].
      exists g. split; [|done]. apply list_elem_of_In, filter_In.
      by rewrite <- list_elem_of_In.
Qed.

Section Registry.
Import Core GeofenceRegistry.

Variable distance : ContainmentTracker.Position -> ContainmentTracker.Position -> number.
Variable max_margin : number.
Variable first_state :
  ContainmentTracker.Geofence -> ContainmentTracker.Fix -> ContainmentTracker.ContainmentState.
Variable f : ContainmentTracker.Fix.

Local Abbreviation step := (evaluate_geofence distance max_margin first_state f).

Lemma active_snapshot_of_rows (table : list Geofence.t) :
  active_snapshot (List.map of_row table)
  = List.map of_row (List.filter Geofence.is_active table).
Proof.
  unfold active_snapshot. induction table as [|g table IH]; [done|].
  cbn [List.map List.filter]. cbn [of_row ContainmentTracker.active].
  destruct (Geofence.is_active g); cbn [List.map]; by rewrite IH.
Qed.

Lemma evaluate_geofence_other (g : ContainmentTracker.Geofence)
    (acc : Containment * list Request) (gid : string) :
  ContainmentTracker.id g <> gid ->
  (step acc g).1 !! gid = acc.1 !! gid
  /\ (Forall (fun r => about r <> gid) acc.2 ->
      Forall (fun r => about r <> gid) (step acc g).2).
Proof.
  intros Hne. unfold evaluate_geofence, Containment in *.
  destruct (acc.1 !! ContainmentTracker.id g) as [prior|].
  - destruct (ContainmentTracker.evaluate distance max_margin g prior f) as [st kinds].
    cbn [fst snd]. split; [by rewrite lookup_insert_ne|].
    intros Hacc. apply Forall_app. split; [done|].
    apply Forall_forall. intros r Hr.
    apply list_elem_of_In, in_map_iff in Hr as (k & <- & _). done.
  - cbn [fst snd]. split; [by rewrite lookup_insert_ne|done].
Qed.

Lemma pass_leaves_other (gs : list ContainmentTracker.Geofence)
    (acc : Containment * list Request) (gid : string) :
  (forall g, g ∈ gs -> ContainmentTracker.id g <> gid) ->
  (fold_left step gs acc).1 !! gid = acc.1 !! gid
  /\ (Forall (fun r => about r <> gid) acc.2 ->
      Forall (fun r => about r <> gid) (fold_left step gs acc).2).
Proof.
  revert acc. induction gs as [|g gs IH]; intros acc Hgs; [done|].
  cbn [fold_left].
  destruct (evaluate_geofence_other g acc gid) as [H1 H2].
  { apply Hgs, list_elem_of_here. }
  destruct (IH (step acc g)) as [H3 H4].
  { intros g' Hg'. by apply Hgs, list_elem_of_further. }
  split; [by rewrite H3|]. intros Hacc. by apply H4, H2.
Qed.

Lemma evaluate_geofence_keeps (g : ContainmentTracker.Geofence)
    (acc : Containment * list Request) (gid : string) :
  (is_Some (acc.1 !! gid) \/ ContainmentTracker.id g = gid) ->
  is_Some ((step acc g).1 !! gid).
Proof.
  intros Hcase. unfold evaluate_geofence, Containment in *.
  destruct (acc.1 !! ContainmentTracker.id g) as [prior|] eqn:Hprior.
  - destruct (ContainmentTracker.evaluate distance max_margin g prior f) as [st kinds].
    cbn [fst]. rewrite lookup_insert_is_Some.
    destruct (decide (ContainmentTracker.id g = gid)); [by left|].
    right. split; [done|]. by destruct Hcase.
  - cbn [fst]. rewrite lookup_insert_is_Some.
    destruct (decide (ContainmentTracker.id g = gid)); [by left|].
    right. split; [done|]. by destruct Hcase.
Qed.

Lemma pass_covers (gs : list ContainmentTracker.Geofence)
    (acc : Containment * list Request) (gid : string) :
  (is_Some (acc.1 !! gid) \/ exists g, g ∈ gs /\ ContainmentTracker.id g = gid) ->
  is_Some ((fold_left step gs acc).1 !! gid).
Proof.
  revert acc. induction gs as [|g gs IH]; intros acc Hcase.
  - destruct Hcase as [?|(g & Hg & _)]; [done|]. by apply elem_of_nil in Hg.
  - cbn [fold_left]. apply IH.
    destruct Hcase as [?|(g' & Hg' & Hid)].
    + left. apply evaluate_geofence_keeps. by left.
    + apply elem_of_cons in Hg' as [->|Hg'].
      * left. apply evaluate_geofence_keeps. by right.
      * right. by exists g'.
Qed.

(** C6. A geofence whose active flag is false is left out where geofences
    are read.  The read path of the code, [loadGeofences] of the map,
    lists exactly the rows of the table whose [is_active] is true when
    the request is answered: an inactive geofence is neither in the list
    nor drawn, and when the map is there every active one is drawn.  The
    snapshot the registry hands to an evaluation pass is that same set,
    and the pass evaluates exactly the geofences of the snapshot: every
    active geofence has a containment state afterwards, while for a
    geofence that is inactive the containment state on record is as it
    was before the pass and no alert is requested for it. *)
Theorem inactive_geofences_are_excluded
    (db : Db) (s : State) (states : Containment) :
  let table := Supabase.geofences db in
  let listed := geofences (loadGeofences postgrest db s).2 in
  let circles := geofenceCircles (loadGeofences postgrest db s).2 in
  let registry := List.map of_row table in
  let pass := evaluation_pass distance max_margin first_state registry states f in
  listed = List.filter Geofence.is_active table
  /\ (forall g, g ∈ listed <-> g ∈ table /\ Geofence.is_active g = true)
  /\ (forall id, is_Some (circles !! id)
                 <-> is_Some (mapInstance s)
                     /\ exists g, g ∈ table /\ Geofence.is_active g = true
                                  /\ Geofence.id g = id)
  /\ active_snapshot registry = List.map of_row listed
  /\ (forall g, g ∈ active_snapshot registry
                <-> g ∈ registry /\ ContainmentTracker.active g = true)
  /\ (forall g, g ∈ table -> Geofence.is_active g = true ->
                is_Some (pass.1 !! Geofence.id g))
  /\ (forall g, g ∈ table -> Geofence.is_active g = false ->
                (forall g', g' ∈ table -> Geofence.id g' = Geofence.id g ->
                            Geofence.is_active g' = false) ->
                pass.1 !! Geofence.id g = states !! Geofence.id g
                /\ Forall (fun r => about r <> Geofence.id g) pass.2).
Proof.
  intros table listed circles registry pass.
  destruct (loadGeofences_lists_active db s) as (Hlisted & Hin & Hcircles).
  fold table listed circles in Hlisted, Hin, Hcircles.
  assert (active_snapshot registry = List.map of_row listed) as Hsnap.
  { subst registry. by rewrite active_snapshot_of_rows, Hlisted. }
  split; [done|]. split; [done|]. split; [done|]. split; [done|]. split; [|split].
  - intros g. unfold active_snapshot. by rewrite !list_elem_of_In, filter_In.
  - intros g Hg Hact. subst pass. unfold evaluation_pass. rewrite Hsnap.
    apply pass_covers. right. exists (of_row g). split; [|done].
    apply list_elem_of_In, in_map, list_elem_of_In, Hin. done.
  - intros g Hg Hact Hids. subst pass. unfold evaluation_pass. rewrite Hsnap.
    destruct (pass_leaves_other (List.map of_row listed) (states, []) (Geofence.id g))
      as [Hstate Hreq].
    { intros g0 Hg0. apply list_elem_of_In, in_map_iff in Hg0 as (g' & <- & Hg').
      apply list_elem_of_In, Hin in Hg' as [Hg' Hact']. cbn [of_row ContainmentTracker.id].
      intros Hid. specialize (Hids g' Hg' Hid). congruence. }
    split; [exact Hstate|]. apply Hreq. constructor.
Qed.

End Registry.

Lemma inactive_geofences_are_excluded_witness :
  let pass := GeofenceRegistry.evaluation_pass CoreSample.grid_distance 50
                RegistrySample.starts_outside RegistrySample.registry ∅
                RegistrySample.fix_at_depot in
  Geofence.is_active Sample.old_yard = false
  /\ MapView.geofences (MapView.loadGeofences postgrest Sample.db0 Sample.view0).2
     = [Sample.depot]
  /\ is_Some (pass.1 !! "g-1")
  /\ pass.1 !! "g-2" = None
  /\ Forall (fun r => GeofenceRegistry.about r <> "g-2") pass.2.
Proof.
  destruct (inactive_geofences_are_excluded CoreSample.grid_distance 50
              RegistrySample.starts_outside RegistrySample.fix_at_depot
              Sample.db0 Sample.view0 ∅)
    as (Hlisted & _ & _ & _ & _ & Hactive & Hinactive).
  split; [reflexivity|]. split; [exact Hlisted|]. split.
  - apply (Hactive Sample.depot); [apply list_elem_of_here|reflexivity].
  - apply (Hinactive Sample.old_yard).
    + apply list_elem_of_further, list_elem_of_here.
    + reflexivity.
    + intros g' Hg' Hid.
      apply elem_of_cons in Hg' as [->|Hg']; [discriminate Hid|].
      apply elem_of_cons in Hg' as [->|Hg']; [reflexivity|].
      by apply elem_of_nil in Hg'.
Defined.

(** When the request is refused the map keeps the geofences it had. *)
Lemma loadGeofences_refused (backend : Backend) (db : Db) (s : State)
    (r : Response (list Geofence.t)) (e : string) :
  select_geofences backend [Eq "is_active" (VBool true)] db = Returned r ->
  error r = Some e ->
  loadGeofences backend db s
  = (Returned tt,
     mkState (mapInstance s) (markers s) (geofenceCircles s) (devices s) (geofences s)
             ("Failed to load geofences" :: toasts s)).
Proof.
  intros Hr He. unfold loadGeofences, try_catch, bind, await. by rewrite Hr, He.
Qed.

End ActiveGeofences.

(** ** MapView: location rows *)

Section LocationRows.
Import MapView MapFacts.

Variable seen : list Device.t.

Lemma updateDeviceLocation_known (loc : LocationData.t) (s : State)
    (m : MapInstance) (device : Device.t) :
  mapInstance s = Some m ->
  find_device seen loc = Some device ->
  exists m',
    updateDeviceLocation seen loc s
    = (Returned tt,
       mkState (Some m') (<[Device.device_id device := make_marker device loc]> (markers s))
               (geofenceCircles s) (devices s) (geofences s) (toasts s)).
Proof.
  unfold find_device, updateDeviceLocation. intros -> ->. by eexists.
Qed.

Lemma updateDeviceLocation_dropped (loc : LocationData.t) (s : State) :
  mapInstance s = None \/ find_device seen loc = None ->
  updateDeviceLocation seen loc s = (Returned tt, s).
Proof.
  unfold find_device, updateDeviceLocation. intros [->| ->]; [done|].
  by destruct (mapInstance s).
Qed.

Lemma find_device_id (loc : LocationData.t) (device : Device.t) :
  find_device seen loc = Some device ->
  Device.device_id device = LocationData.device_id loc.
Proof. intros [_ Heq]%find_some. by apply String.eqb_eq. Qed.

(** Taken on its own, [updateDeviceLocation] compares no timestamps.
    Run with a map and with the device of the row in the device list, it
    replaces the marker of the device by the marker of the row, whatever
    the instant of the marker it replaces; otherwise it leaves the state
    as it was.  Neither way is a toast raised or the geofence or device
    list touched. *)
Lemma updateDeviceLocation_any_timestamp (loc : LocationData.t) (s : State) :
  let s' := after_ping seen loc s in
  match mapInstance s, find_device seen loc with
  | Some _, Some device =>
      markers s' !! Device.device_id device = Some (make_marker device loc)
      /\ recorded_timestamp s' (Device.device_id device)
         = Some (LocationData.timestamp loc)
  | _, _ => s' = s
  end
  /\ toasts s' = toasts s
  /\ geofences s' = geofences s
  /\ geofenceCircles s' = geofenceCircles s
  /\ devices s' = devices s.
Proof.
  intros s'. subst s'. unfold after_ping.
  destruct (mapInstance s) as [m|] eqn:Hmap.
  - destruct (find_device seen loc) as [device|] eqn:Hfind.
    + destruct (updateDeviceLocation_known loc s m device Hmap Hfind) as (m' & ->).
      cbn [snd markers toasts geofences geofenceCircles devices].
      unfold recorded_timestamp. cbn [markers].
      by rewrite lookup_insert_eq.
    + by rewrite updateDeviceLocation_dropped; [|right].
  - by rewrite updateDeviceLocation_dropped; [|left].
Qed.

(** Run with a map on two rows of one device of the device list, one
    after the other, [updateDeviceLocation] leaves the position of the row
    it was run on last, whichever has the later timestamp. *)
Lemma last_arrival_wins (pa pb : LocationData.t) (s : State) (device : Device.t) :
  is_Some (mapInstance s) ->
  find_device seen pa = Some device ->
  LocationData.device_id pb = LocationData.device_id pa ->
  recorded_position (after_ping seen pb (after_ping seen pa s)) (Device.device_id device)
  = Some (position_of pb).
Proof.
  intros [m Hmap] Hfa Hid. unfold after_ping.
  assert (find_device seen pb = Some device) as Hfb.
  { unfold find_device in *. by rewrite Hid. }
  destruct (updateDeviceLocation_known pa s m device Hmap Hfa) as (m1 & ->). cbn [snd].
  match goal with |- context [updateDeviceLocation seen pb ?s1] =>
    destruct (updateDeviceLocation_known pb s1 m1 device eq_refl Hfb) as (m2 & ->) end.
  unfold recorded_position. cbn [snd markers].
  by rewrite lookup_insert_eq.
Qed.

(** Taken on its own, [updateDeviceLocation] validates no field of the
    row.  Run with a map and with the device in the device list, it
    returns normally and the marker carries latitude, longitude, accuracy
    and battery level of the row as they came, whatever their values. *)
Lemma updateDeviceLocation_stores_unvalidated
    (loc : LocationData.t) (s : State) (device : Device.t) :
  is_Some (mapInstance s) ->
  find_device seen loc = Some device ->
  exists marker,
    updateDeviceLocation seen loc s = (Returned tt, after_ping seen loc s)
    /\ markers (after_ping seen loc s) !! LocationData.device_id loc = Some marker
    /\ lat (position marker) = LocationData.latitude loc
    /\ lng (position marker) = LocationData.longitude loc
    /\ accuracy (info marker) = LocationData.accuracy loc
    /\ battery (info marker) = LocationData.battery_level loc.
Proof.
  intros [m Hmap] Hfind. unfold after_ping.
  destruct (updateDeviceLocation_known loc s m device Hmap Hfind) as (m' & ->).
  cbn [snd markers]. rewrite <- (find_device_id loc device Hfind).
  exists (make_marker device loc). by rewrite lookup_insert_eq.
Qed.

End LocationRows.

Section RefusedOnSamples.
Import Sample.

Example markAsRead_unavailable :
  AlertsPanel.markAsRead unavailable "al-1" panel0
  = (Returned tt, AlertsPanel.mkWorld db0 [] true ["Failed to update alert"]).
Proof. reflexivity. Qed.

Example loadGeofences_unavailable :
  MapView.loadGeofences unavailable db0 view0
  = (Returned tt,
     MapView.mkState (Some map0) ∅ ∅ [tracker_a] [] ["Failed to load geofences"]).
Proof. reflexivity. Qed.

Example loadGeofences_sample :
  MapView.geofences (MapView.loadGeofences postgrest db0 view0).2 = [depot].
Proof. reflexivity. Qed.

End RefusedOnSamples.

Section LocationRowsOnSamples.
Import MapView MapFacts Sample.

(** [updateDeviceLocation] run by hand with a map and with dev-A in the
    device list, a state the function accepts: the row of instant 2000 and
    then the row of instant 1000 leave the marker on the earlier row, and a
    row with latitude 95 degrees, longitude -200 degrees, accuracy -3 m
    and battery 150 % is put on the map like any other. *)
Example updateDeviceLocation_by_hand :
  let s1 := after_ping [tracker_a] ping_late view0 in
  let s2 := after_ping [tracker_a] ping_early s1 in
  recorded_timestamp s1 "dev-A" = Some 2000
  /\ recorded_position s2 "dev-A" = Some (mkLatLng 40000000 (-74000000))
  /\ recorded_timestamp s2 "dev-A" = Some 1000
  /\ recorded_position (after_ping [tracker_a] ping_invalid view0) "dev-A"
     = Some (mkLatLng 95000000 (-200000000)).
Proof. repeat split. Qed.

End LocationRowsOnSamples.

(** ** MapView: location rows in the mounted component *)

Section MountedMap.
Import MapShell MapFacts.

(** What the component finds around it when it is mounted. *)
Variable apiKey : option string.
Variable load : Outcome unit.
Variable construct : Outcome unit.
Variable instanceof_Error : string -> bool.
Variable message_of : string -> string.
Variable backend : Backend.
Variable db : Db.
Variable user : option User.t.

Local Abbreviation mounted_session :=
  (session apiKey load construct instanceof_Error message_of backend db user).

(** The first render shows the spinner, so the effect finds no map
    element and returns at once. *)
Lemma mount_returns_at_once :
  mount apiKey load construct instanceof_Error message_of backend db user initial
  = (Returned tt, initial).
Proof. reflexivity. Qed.

(** With no map, every row the subscription delivers is dropped. *)
Lemma on_location_insert_without_map (payload : LocationData.t) (sh : Shell) :
  MapView.mapInstance (view sh) = None ->
  on_location_insert payload sh = (Returned tt, sh).
Proof.
  intros Hmap. unfold on_location_insert, on_view, MapView.on_location_insert.
  rewrite updateDeviceLocation_dropped by (by left). by destruct sh.
Qed.

Lemma rows_without_map (payloads : list LocationData.t) (sh : Shell) :
  MapView.mapInstance (view sh) = None ->
  forM_ payloads on_location_insert sh = (Returned tt, sh).
Proof.
  intros Hmap. induction payloads as [|p payloads IH]; [done|].
  cbn [forM_]. unfold bind. by rewrite on_location_insert_without_map.
Qed.

(** The mounted component stays as it started, whatever rows arrive. *)
Lemma session_stays_initial (payloads : list LocationData.t) :
  mounted_session payloads initial = (Returned tt, initial).
Proof.
  unfold session, bind. rewrite mount_returns_at_once. by apply rows_without_map.
Qed.


(** C4. In the mounted map no position is ever recorded: after two rows
    of one device, in either order of arrival and whatever arrived before
    and between, the device has no marker, so its recorded position is not
    the position of the row with the later timestamp. *)
Theorem rows_in_either_order_record_no_position
    (earlier between : list LocationData.t) (p1 p2 : LocationData.t) :
  let final := fun arrived => view (mounted_session arrived initial).2 in
  let device_id := LocationData.device_id p2 in
  recorded_position (final (earlier ++ p1 :: between ++ [p2])%list) device_id = None
  /\ recorded_position (final (earlier ++ p2 :: between ++ [p1])%list) device_id = None
  /\ recorded_position (final (earlier ++ p1 :: between ++ [p2])%list) device_id
     <> Some (position_of p2)
  /\ recorded_position (final (earlier ++ p2 :: between ++ [p1])%list) device_id
     <> Some (position_of p2).
Proof.
  intros final device_id. subst final. cbn beta.
  rewrite !session_stays_initial. cbn [snd]. by repeat split.
Qed.


End MountedMap.

Section MountedMapOnSamples.
Import MapShell MapFacts Sample.

Local Abbreviation sample_session :=
  (session (Some "key") (Returned tt) (Returned tt) (fun _ => true) (fun e => e)
     postgrest db_tracks (Some root)).


(** The two rows of dev-A in both orders of arrival. *)
Example rows_in_either_order_on_samples :
  LocationData.timestamp ping_early < LocationData.timestamp ping_late
  /\ recorded_position (view (sample_session [ping_early; ping_late] initial).2) "dev-A"
     = None
  /\ recorded_position (view (sample_session [ping_late; ping_early] initial).2) "dev-A"
     = None
  /\ render (sample_session [ping_early; ping_late] initial).2 = Spinner.
Proof. repeat split. Qed.


End MountedMapOnSamples.

(** ** The containment tracker of the specification *)

Section Hysteresis.
Import Core Core.ContainmentTracker.

Variable distance : Position -> Position -> number.
Variable max_margin : number.

Local Abbreviation margin := (margin max_margin).
Local Abbreviation evaluate := (evaluate distance max_margin).
Local Abbreviation track := (track distance max_margin).
Local Abbreviation in_dead_band := (in_dead_band distance max_margin).

Lemma evaluate_dead_band (g : Geofence) (st : ContainmentState) (f : Fix) :
  in_dead_band g f -> evaluate g st f = (st, []).
Proof.
  unfold ContainmentTracker.in_dead_band, ContainmentTracker.evaluate, decide_inside.
  intros [Hlo Hhi]. destruct (inside st) eqn:Hin.
  - rewrite (proj2 (Z.ltb_ge _ _)) by lia. reflexivity.
  - rewrite (proj2 (Z.ltb_ge _ _)) by lia. reflexivity.
Qed.

Lemma evaluate_enters (g : Geofence) (st : ContainmentState) (f : Fix) :
  inside st = false ->
  (inside (evaluate g st f).1 = true
   <-> distance (at_ f) (center g) < radiusMeters g - margin f).
Proof.
  unfold ContainmentTracker.evaluate, decide_inside. intros Hin. rewrite Hin.
  destruct (Z.ltb_spec (distance (at_ f) (center g)) (radiusMeters g - margin f));
    cbn [fst inside]; [done|]. rewrite Hin. split; [done|lia].
Qed.

Lemma evaluate_exits (g : Geofence) (st : ContainmentState) (f : Fix) :
  inside st = true ->
  (inside (evaluate g st f).1 = false
   <-> distance (at_ f) (center g) > radiusMeters g + margin f).
Proof.
  unfold ContainmentTracker.evaluate, decide_inside. intros Hin. rewrite Hin.
  destruct (Z.ltb_spec (radiusMeters g + margin f) (distance (at_ f) (center g)));
    cbn [negb fst inside]; [split; [lia|done]|]. rewrite Hin. split; [done|lia].
Qed.

Lemma track_dead_band (g : Geofence) (st : ContainmentState) (fs : list Fix) :
  Forall (in_dead_band g) fs -> track g st fs = (st, []).
Proof.
  induction 1 as [|f fs Hf _ IH]; [reflexivity|].
  cbn [ContainmentTracker.track]. by rewrite (evaluate_dead_band g st f Hf), IH.
Qed.

(** C1. Evaluating a fix against a geofence with a prior containment state
    turns [inside] true only when the distance to the centre is below
    radius minus margin, turns it false only when the distance is above
    radius plus margin, and in the dead band between leaves the state as
    it was and requests no alert; so a device whose fixes all stay in the
    dead band raises no alert at all. *)
Theorem containment_hysteresis (g : Geofence) (st : ContainmentState) :
  (forall f,
      (inside st = false ->
       (inside (evaluate g st f).1 = true
        <-> distance (at_ f) (center g) < radiusMeters g - margin f))
      /\ (inside st = true ->
          (inside (evaluate g st f).1 = false
           <-> distance (at_ f) (center g) > radiusMeters g + margin f))
      /\ (in_dead_band g f -> evaluate g st f = (st, [])))
  /\ (forall fs, Forall (in_dead_band g) fs -> track g st fs = (st, [])).
Proof.
  split.
  - intros f. split; [apply evaluate_enters|]. split; [apply evaluate_exits|].
    apply evaluate_dead_band.
  - apply track_dead_band.
Qed.

End Hysteresis.

Lemma containment_hysteresis_witness :
  Core.ContainmentTracker.track CoreSample.grid_distance 50 CoreSample.yard
    (Core.ContainmentTracker.mkContainment true 0) CoreSample.wobble
  = (Core.ContainmentTracker.mkContainment true 0, []).
Proof.
  apply (containment_hysteresis CoreSample.grid_distance 50 CoreSample.yard
           (Core.ContainmentTracker.mkContainment true 0)).
  repeat constructor; vm_compute; congruence.
Defined.

(** ** The alert dispatcher of the specification *)

Section CoolDown.
Import Core Core.AlertDispatcher.

Variable window : number.








End CoolDown.


(** * Further properties of the components *)

(** ** AlertsPanel: loading the rows *)

Section LoadAlerts.
Import AlertsPanel AlertFacts AlertsPanelView.

#[local] Instance newer_alert_total : Total newer_alert.
Proof. intros a b. unfold newer_alert. lia. Qed.

Lemma loadAlerts_other_postgrest (user : option User.t) (w : World) :
  client_id_of user = None ->
  loadAlerts postgrest user w
  = (Returned tt,
     mkWorld (db w)
       (List.map (details_of (db w)) (merge_sort newer_alert (Supabase.alerts (db w))))
       false (toasts w)).
Proof.
  intros Hrole. unfold loadAlerts, try_finally, try_catch, bind at 1. rewrite Hrole.
  unfold ret at 1. unfold bind at 1, request at 1.
  cbn [select_alerts_newest_first postgrest error ok data_or_empty].
  unfold bind. simpl data. cbn [default]. rewrite mapM_enrich_postgrest.
  unfold select. cbn [matches forallb]. rewrite filter_true. reflexivity.
Qed.

Lemma map_alert_details (db : Db) (al : list Alert.t) :
  List.map alert (List.map (details_of db) al) = al.
Proof. rewrite map_map. apply map_id. Qed.

(** X1. The rows [loadAlerts] shows to a client-role user are rows of the
    [alerts] table whose device is one of the client's own devices. *)
Theorem loadAlerts_client_rows_are_own (u : User.t) (w : World) (v : AlertWithDetails) :
  User.role u = "client" ->
  v ∈ alerts (loadAlerts postgrest (Some u) w).2 ->
  alert v ∈ Supabase.alerts (db w)
  /\ exists d, d ∈ devices (db w)
               /\ Device.client_id d = Some (User.id u)
               /\ Device.device_id d = Alert.device_id (alert v).
Proof.
  intros Hrole Hv.
  destruct (loadAlerts_client_rows u w v Hrole Hv) as [Hin Hown]. split; [done|].
  unfold owned_device_ids in Hown.
  apply list_elem_of_In, in_map_iff in Hown as (d & Hid & Hd).
  apply filter_In in Hd as [Hd Hc]. apply bool_decide_eq_true in Hc.
  exists d. by rewrite list_elem_of_In.
Qed.

Lemma loadAlerts_client_rows_are_own_witness :
  exists d, d ∈ devices Sample.db0
            /\ Device.client_id d = Some "u-alice"
            /\ Device.device_id d = "dev-A".
Proof.
  apply (loadAlerts_client_rows_are_own Sample.alice Sample.panel0
           (details_of Sample.db0 Sample.alert_a)).
  - reflexivity.
  - vm_compute. apply list_elem_of_here.
Defined.

(** X2. Only the role client narrows the rows: for every other user, an
    administrator, a viewer or nobody signed in, [loadAlerts] shows every
    row of the [alerts] table, newest first. *)
Theorem loadAlerts_other_roles_see_all (user : option User.t) (w : World) :
  client_id_of user = None ->
  let rows := List.map alert (alerts (loadAlerts postgrest user w).2) in
  rows ≡ₚ Supabase.alerts (db w)
  /\ StronglySorted newer_alert rows.
Proof.
  intros Hrole rows. subst rows. rewrite (loadAlerts_other_postgrest user w Hrole).
  cbn [snd alerts]. rewrite map_alert_details. split.
  - apply merge_sort_Permutation.
  - apply StronglySorted_merge_sort; [|apply _].
    intros a b c. unfold newer_alert. lia.
Qed.

Lemma loadAlerts_other_roles_see_all_witness :
  List.map alert (alerts (loadAlerts postgrest None Sample.panel0).2)
  ≡ₚ [Sample.alert_a; Sample.alert_b].
Proof.
  apply (loadAlerts_other_roles_see_all None Sample.panel0). reflexivity.
Defined.

End LoadAlerts.

Section LoadAlertsAnyBackend.
Import AlertsPanel AlertFacts AlertsPanelView.

Variable backend : Backend.

Lemma or_else_nonempty (a : option string) (b : string) : b <> "" -> or_else a b <> "".
Proof.
  intros Hb. unfold or_else. destruct a as [s|]; [|done].
  destruct (String.eqb_spec s ""); done.
Qed.

Lemma enrich_world (a : Alert.t) (w : World) :
  exists o, enrich backend a w = (o, w)
            /\ forall v, o = Returned v -> alert v = a /\ named v.
Proof.
  unfold enrich, bind, request, ret.
  destruct (select_geofence_single backend _ (db w)) as [g|e]; [|by eexists].
  destruct (select_device_single backend _ (db w)) as [d|e]; [|by eexists].
  eexists; split; [reflexivity|]. intros v [= <-]. split; [done|].
  eexists; split; [reflexivity|]. by apply or_else_nonempty.
Qed.

Lemma mapM_enrich_world (al : list Alert.t) (w : World) :
  exists o, mapM (enrich backend) al w = (o, w)
            /\ forall vs, o = Returned vs -> List.map alert vs = al /\ Forall named vs.
Proof.
  induction al as [|a al (o & IH & Hvs)].
  - eexists; split; [reflexivity|]. by intros vs [= <-].
  - cbn [mapM]. unfold bind at 1.
    destruct (enrich_world a w) as (o1 & -> & Hv). destruct o1 as [v|e]; [|by eexists].
    unfold bind at 1. rewrite IH. destruct o as [vs|e]; [|by eexists].
    eexists; split; [reflexivity|]. intros ? [= <-].
    destruct (Hv v eq_refl) as [<- ?], (Hvs vs eq_refl) as [<- ?].
    split; [done|by constructor].
Qed.

Lemma device_filter_world (uid : string) (w : World) :
  exists o, device_filter backend uid w = (o, w).
Proof.
  unfold device_filter, bind, request, ret.
  destruct (select_devices backend _ (db w)) as [r|e]; [|by eexists].
  destruct (data r) as [[|d ds]|]; by eexists.
Qed.

Lemma enrich_outcome (a : Alert.t) (w : World) :
  exists o, enrich backend a w = (o, w)
            /\ (LoadFacts.names_rejected backend (db w) a = true -> exists e, o = Thrown e)
            /\ (LoadFacts.names_rejected backend (db w) a = false ->
                exists v, o = Returned v /\ alert v = a).
Proof.
  unfold enrich, bind, request, ret, LoadFacts.names_rejected.
  destruct (select_geofence_single backend _ (db w)) as [g|e]; cbn [LoadFacts.rejected orb].
  - destruct (select_device_single backend _ (db w)) as [d|e]; cbn [LoadFacts.rejected].
    + eexists; split; [reflexivity|]. split; [done|]. intros _. by eexists.
    + eexists; split; [reflexivity|]. split; [by eexists|done].
  - eexists; split; [reflexivity|]. split; [by eexists|done].
Qed.

Lemma mapM_enrich_outcome (al : list Alert.t) (w : World) :
  exists o, mapM (enrich backend) al w = (o, w)
            /\ (existsb (LoadFacts.names_rejected backend (db w)) al = true ->
                exists e, o = Thrown e)
            /\ (existsb (LoadFacts.names_rejected backend (db w)) al = false ->
                exists vs, o = Returned vs /\ List.map alert vs = al).
Proof.
  induction al as [|a al (o & IH & Hfail & Hok)].
  - eexists; split; [reflexivity|]. split; [done|]. intros _. by exists [].
  - cbn [mapM existsb]. unfold bind at 1.
    destruct (enrich_outcome a w) as (o1 & -> & Hfail1 & Hok1).
    destruct (LoadFacts.names_rejected backend (db w) a) eqn:Ha; cbn [orb].
    + destruct (Hfail1 eq_refl) as (e & ->).
      eexists; split; [reflexivity|]. split; [by eexists|done].
    + destruct (Hok1 eq_refl) as (v & -> & Hv).
      unfold bind at 1. rewrite IH.
      destruct (existsb (LoadFacts.names_rejected backend (db w)) al) eqn:Hal.
      * destruct (Hfail eq_refl) as (e & ->).
        eexists; split; [reflexivity|]. split; [by eexists|done].
      * destruct (Hok eq_refl) as (vs & -> & Hvs).
        eexists; split; [reflexivity|]. split; [done|]. intros _.
        exists (v :: vs). split; [done|]. cbn [List.map]. by rewrite Hv, Hvs.
Qed.

(** X3. Whatever the database answers, and whether a request resolves or
    rejects, [loadAlerts] does not throw, leaves the spinner off and
    writes nothing to the database.  It raises the one toast 'Failed to
    load alerts' and keeps the rows it had exactly when one of its
    requests fails: the device lookup of a client rejects, the list
    request rejects or is answered with an error, or a lookup for the
    names of a listed row rejects.  Otherwise it raises no toast and the
    panel holds the rows the list request came back with, in that order
    (none when a client has no device). *)
Theorem loadAlerts_settles (user : option User.t) (w : World) :
  exists w',
    loadAlerts backend user w = (Returned tt, w')
    /\ isLoading w' = false
    /\ db w' = db w
    /\ if LoadFacts.load_fails backend user (db w)
       then toasts w' = "Failed to load alerts" :: toasts w /\ alerts w' = alerts w
       else toasts w' = toasts w
            /\ List.map alert (alerts w') = LoadFacts.listed backend user (db w).
Proof.
  unfold loadAlerts, try_finally, try_catch, bind at 1.
  unfold LoadFacts.load_fails, LoadFacts.device_lookup_rejected, LoadFacts.list_refused,
    LoadFacts.listed, LoadFacts.list_answer, LoadFacts.list_filters.
  destruct (client_id_of user) as [uid|].
  - unfold device_filter, bind at 1, request at 1.
    destruct (select_devices backend _ (db w)) as [userDevices|e];
      cbn [LoadFacts.rejected orb fmap option_fmap option_map].
    + destruct (data userDevices) as [[|d ds]|];
        cbn [fmap option_fmap option_map existsb orb].
      * eexists; repeat split.
      * unfold ret at 1. unfold bind at 1, request at 1.
        destruct (select_alerts_newest_first backend _ (db w)) as [r|e]; cbn [orb].
        -- destruct (error r); cbn [orb]; [eexists; repeat split|].
           unfold bind at 1.
           destruct (mapM_enrich_outcome (data_or_empty r) w) as (o & -> & Hfail & Hok).
           destruct (existsb _ (data_or_empty r)).
           ++ destruct (Hfail eq_refl) as (e & ->). eexists; repeat split.
           ++ destruct (Hok eq_refl) as (vs & -> & Hvs). eexists; repeat split. exact Hvs.
        -- eexists; repeat split.
      * eexists; repeat split.
    + eexists; repeat split.
  - unfold ret at 1. cbn [fmap option_fmap option_map orb].
    unfold bind at 1, request at 1.
    destruct (select_alerts_newest_first backend _ (db w)) as [r|e]; cbn [orb].
    + destruct (error r); cbn [orb]; [eexists; repeat split|].
      unfold bind at 1.
      destruct (mapM_enrich_outcome (data_or_empty r) w) as (o & -> & Hfail & Hok).
      destruct (existsb _ (data_or_empty r)).
      * destruct (Hfail eq_refl) as (e & ->). eexists; repeat split.
      * destruct (Hok eq_refl) as (vs & -> & Hvs). eexists; repeat split. exact Hvs.
    + eexists; repeat split.
Qed.

(** X4. Every row [loadAlerts] puts on the panel has a geofence name to
    show: the name found, or 'Unknown Geofence' when the lookup fails,
    finds no single geofence or finds an empty name.  Rows that had one
    keep it when the load fails. *)
Theorem loadAlerts_rows_named (user : option User.t) (w : World) :
  Forall named (alerts w) ->
  Forall named (alerts (loadAlerts backend user w).2).
Proof.
  intros Hw. unfold loadAlerts, try_finally, try_catch, bind at 1.
  assert (exists o, match client_id_of user with
                    | Some uid => device_filter backend uid
                    | None => ret (Some [])
                    end w = (o, w)) as (o & ->).
  { destruct (client_id_of user); [apply device_filter_world|by eexists]. }
  destruct o as [[fs|]|e]; [| |done].
  - unfold bind at 1, request at 1.
    destruct (select_alerts_newest_first backend fs (db w)) as [r|e]; [|done].
    destruct (error r); [done|].
    unfold bind at 1. destruct (mapM_enrich_world (data_or_empty r) w) as (o & -> & Hvs).
    destruct o as [vs|e]; [|done]. cbn. by destruct (Hvs vs eq_refl).
  - cbn. constructor.
Qed.

End LoadAlertsAnyBackend.

Lemma loadAlerts_rows_named_witness :
  Forall AlertsPanelView.named
    (AlertsPanel.alerts (AlertsPanel.loadAlerts postgrest (Some Sample.root) Sample.panel0).2).
Proof.
  apply (loadAlerts_rows_named postgrest (Some Sample.root) Sample.panel0). constructor.
Defined.

(** ** AlertsPanel: the two updates *)

Section MarkReadAnyBackend.
Import AlertsPanel AlertFacts AlertsPanelView.

Variable backend : Backend.

(** [markAsRead] does not throw.  The rows on the panel change only
    when the database accepted the update; when the update is answered
    with an error or the request rejects, the rows stay as they were and
    the one toast 'Failed to update alert' is raised. *)
Theorem markAsRead_settles (alertId : string) (w : World) :
  exists w',
    markAsRead backend alertId w = (Returned tt, w')
    /\ isLoading w' = isLoading w
    /\ (alerts w' = alerts w /\ toasts w' = "Failed to update alert" :: toasts w
        \/ (exists r db', update_alerts backend (Alert.with_is_read true)
                            [Eq "id" (VStr alertId)] (db w) = (Returned r, db')
                          /\ error r = None /\ db w' = db')
           /\ toasts w' = toasts w
           /\ alerts w' = List.map (fun a => if String.eqb (Alert.id (alert a)) alertId
                                            then set_read a else a) (alerts w)).
Proof.
  unfold markAsRead, try_catch, bind at 1, write at 1.
  destruct (update_alerts backend _ _ (db w)) as [[r|e] db'] eqn:Hw.
  - destruct (error r) eqn:He.
    + eexists; split; [reflexivity|]. split; [done|]. by left.
    + eexists; split; [reflexivity|]. split; [done|]. right.
      split; [by exists r, db'|done].
  - eexists; split; [reflexivity|]. split; [done|]. by left.
Qed.

(** X5. [markAllAsRead] does not throw and ends with exactly one toast:
    'All alerts marked as read' with every row on the panel set read, or
    'Failed to update alerts' with the rows as they were.  When the lookup
    of the client's devices rejects, no update is sent at all. *)
Theorem markAllAsRead_settles (user : option User.t) (w : World) :
  exists w',
    markAllAsRead backend user w = (Returned tt, w')
    /\ (alerts w' = alerts w /\ toasts w' = "Failed to update alerts" :: toasts w
        \/ alerts w' = List.map set_read (alerts w)
           /\ toasts w' = "All alerts marked as read" :: toasts w)
    /\ (forall uid e, client_id_of user = Some uid ->
        select_devices backend [Eq "client_id" (VStr uid)] (db w) = Thrown e ->
        db w' = db w).
Proof.
  unfold markAllAsRead, try_catch, bind at 1.
  destruct (client_id_of user) as [uid|] eqn:Hc.
  - unfold device_filter, bind at 1, request at 1.
    destruct (select_devices backend _ (db w)) as [r0|e0] eqn:Hsel.
    + assert (exists sc, match data r0 with
                         | Some (d :: ds) =>
                             ret (Some [In_ "device_id"
                                    (List.map (fun d => VStr (Device.device_id d)) (d :: ds))])
                         | _ => ret None
                         end w = (Returned sc, w)) as (sc & ->).
      { destruct (data r0) as [[|d ds]|]; by eexists. }
      unfold bind at 1, write at 1.
      destruct (update_alerts backend _ _ (db w)) as [[r|e] db'].
      * destruct (error r); eexists; (split; [reflexivity|]); (split; [by auto|]);
          intros ? ? [= <-] ?; congruence.
      * eexists; split; [reflexivity|]. split; [by left|].
        intros ? ? [= <-] ?; congruence.
    + eexists; split; [reflexivity|]. split; [by left|]. done.
  - unfold ret at 1. unfold bind at 1, write at 1.
    destruct (update_alerts backend _ _ (db w)) as [[r|e] db'].
    + destruct (error r); eexists; (split; [reflexivity|]); (split; [by auto|]); done.
    + eexists; split; [reflexivity|]. split; [by left|]. done.
Qed.

(** X6. When the lookup of a client's devices is answered without rows,
    be it an error or an empty list, [markAllAsRead] sends the update
    with the filter on [is_read] alone: the database is left as that
    unrestricted update leaves it. *)
Theorem markAllAsRead_lookup_without_rows
    (u : User.t) (w : World) (r : Response (list Device.t)) :
  User.role u = "client" ->
  select_devices backend [Eq "client_id" (VStr (User.id u))] (db w) = Returned r ->
  data r = None \/ data r = Some [] ->
  db (markAllAsRead backend (Some u) w).2
  = (update_alerts backend (Alert.with_is_read true) [Eq "is_read" (VBool false)] (db w)).2.
Proof.
  intros Hrole Hsel Hdata. unfold markAllAsRead, try_catch, bind at 1.
  rewrite (client_id_of_client u Hrole).
  unfold device_filter, bind at 1, request at 1. rewrite Hsel.
  assert (match data r with
          | Some (d :: ds) =>
              ret (Some [In_ "device_id"
                     (List.map (fun d => VStr (Device.device_id d)) (d :: ds))])
          | _ => ret None
          end w = (Returned None, w)) as ->.
  { by destruct Hdata as [-> | ->]. }
  unfold bind at 1, write at 1. cbn [default].
  destruct (update_alerts backend _ _ (db w)) as [[r1|e] db']; [|done].
  by destruct (error r1).
Qed.

End MarkReadAnyBackend.

Lemma markAllAsRead_lookup_without_rows_witness :
  Supabase.alerts
    (AlertsPanel.db (AlertsPanel.markAllAsRead Sample.devices_down (Some Sample.alice)
                       Sample.panel0).2)
  = [Alert.with_is_read true Sample.alert_a; Alert.with_is_read true Sample.alert_b].
Proof.
  rewrite (markAllAsRead_lookup_without_rows Sample.devices_down Sample.alice Sample.panel0
             (failed "57014")).
  - reflexivity.
  - reflexivity.
  - reflexivity.
  - left. reflexivity.
Defined.

Section MarkReadComposed.
Import AlertsPanel AlertFacts AlertsPanelView.

Lemma update_read_twice (rows : list Alert.t) (fs : list Filter) :
  update (update rows (Alert.with_is_read true) fs) (Alert.with_is_read true) fs
  = update rows (Alert.with_is_read true) fs.
Proof.
  unfold update. rewrite map_map. apply map_ext. intros a.
  destruct (matches fs a) eqn:Hm.
  - by destruct (matches fs (Alert.with_is_read true a)).
  - by rewrite Hm.
Qed.

Lemma markAllAsRead_postgrest (user : option User.t) (w : World) :
  markAllAsRead postgrest user w
  = (Returned tt,
     mkWorld
       (with_alerts
          (update (Supabase.alerts (db w)) (Alert.with_is_read true)
             (Eq "is_read" (VBool false)
              :: match client_id_of user with
                 | Some uid =>
                     match owned_device_ids (db w) uid with
                     | [] => []
                     | ids => [In_ "device_id" (List.map VStr ids)]
                     end
                 | None => []
                 end)) (db w))
       (List.map set_read (alerts w)) (isLoading w)
       ("All alerts marked as read" :: toasts w)).
Proof.
  unfold markAllAsRead, try_catch, bind at 1.
  destruct (client_id_of user) as [uid|].
  - rewrite device_filter_postgrest. by destruct (owned_device_ids (db w) uid).
  - reflexivity.
Qed.

Lemma unreadCount_set_read (al : list AlertWithDetails) :
  unreadCount (List.map set_read al) = 0%nat.
Proof. unfold unreadCount. induction al as [|a al IH]; [done|]. cbn. exact IH. Qed.

(** X7. [markAllAsRead] can be repeated: a second run leaves the [alerts]
    table and the rows on the panel as the first run left them.  After a
    run no row on the panel counts as unread, so the 'unread' choice shows
    nothing and the 'read' choice shows every row. *)
Theorem markAllAsRead_twice (user : option User.t) (w : World) :
  let w1 := (markAllAsRead postgrest user w).2 in
  let w2 := (markAllAsRead postgrest user w1).2 in
  db w2 = db w1
  /\ alerts w2 = alerts w1
  /\ unreadCount (alerts w1) = 0%nat
  /\ filteredAlerts unread (alerts w1) = []
  /\ filteredAlerts read (alerts w1) = alerts w1.
Proof.
  intros w1 w2. subst w2 w1. rewrite !markAllAsRead_postgrest. cbn [snd db alerts].
  split; [|split; [|split; [|split]]].
  - unfold with_alerts. cbn [Supabase.alerts users devices location_data geofences].
    unfold owned_device_ids. cbn [devices]. by rewrite update_read_twice.
  - rewrite map_map. apply map_ext. by intros [[] ? ?].
  - apply unreadCount_set_read.
  - unfold filteredAlerts. induction (alerts w) as [|a al IH]; [done|]. cbn. exact IH.
  - unfold filteredAlerts. induction (alerts w) as [|a al IH]; [done|]. cbn. by rewrite IH.
Qed.

(** X8. An accepted [markAsRead] takes from the unread count exactly the
    unread rows with that id, and no row on the panel with that id is
    unread afterwards. *)
Theorem markAsRead_unread_count (alertId : string) (w : World) :
  let w' := (markAsRead postgrest alertId w).2 in
  (unreadCount (alerts w')
   + length (List.filter (fun a => negb (Alert.is_read (alert a))
                                   && String.eqb (Alert.id (alert a)) alertId)
               (alerts w)))%nat
  = unreadCount (alerts w)
  /\ forall v, v ∈ alerts w' -> Alert.id (alert v) = alertId ->
               Alert.is_read (alert v) = true.
Proof.
  intros w'. subst w'. rewrite markAsRead_postgrest. cbn [snd alerts]. split.
  - unfold unreadCount. induction (alerts w) as [|a al IH]; [done|]. cbn [List.map List.filter].
    destruct (String.eqb_spec (Alert.id (alert a)) alertId) as [Heq|Hne].
    + cbn [set_read alert Alert.with_is_read Alert.is_read negb andb].
      destruct (Alert.is_read (alert a)); cbn [negb andb length]; lia.
    + rewrite andb_false_r.
      destruct (Alert.is_read (alert a)); cbn [negb length]; lia.
  - intros v Hv Hid. apply list_elem_of_In, in_map_iff in Hv as (a & <- & _).
    destruct (String.eqb_spec (Alert.id (alert a)) alertId) as [Heq|Hne]; [done|].
    by destruct Hne.
Qed.

End MarkReadComposed.

(** ** MapView: the markers *)

Section Markers.
Import MapView MapFacts MarkerFacts.

Variable seen : list Device.t.

Lemma markers_within_refl (s : State) : markers_within seen s s.
Proof. intros id ?. by left. Qed.

Lemma markers_within_trans (s1 s2 s3 : State) :
  markers_within seen s1 s2 -> markers_within seen s2 s3 -> markers_within seen s1 s3.
Proof.
  intros H12 H23 id H3. destruct (H23 id H3) as [H2|?]; [|by right]. by apply H12.
Qed.

Lemma updateDeviceLocation_within (loc : LocationData.t) (s : State) :
  exists s', updateDeviceLocation seen loc s = (Returned tt, s') /\ markers_within seen s s'.
Proof.
  destruct (mapInstance s) as [m|] eqn:Hmap.
  - destruct (find_device seen loc) as [device|] eqn:Hfind.
    + destruct (updateDeviceLocation_known seen loc s m device Hmap Hfind) as (m' & ->).
      eexists; split; [reflexivity|]. intros id. cbn [markers].
      rewrite lookup_insert_is_Some. intros [<-|[_ ?]]; [|by left].
      right. exists device. split; [|done].
      apply find_some in Hfind as [Hin _]. by apply list_elem_of_In.
    + rewrite updateDeviceLocation_dropped by (by right).
      eexists; split; [reflexivity|apply markers_within_refl].
  - rewrite updateDeviceLocation_dropped by (by left).
    eexists; split; [reflexivity|apply markers_within_refl].
Qed.

Lemma show_latest_location_within (backend : Backend) (db : Db) (d : Device.t) (s : State) :
  exists o s', show_latest_location backend db seen d s = (o, s')
               /\ markers_within seen s s'.
Proof.
  unfold show_latest_location, bind, await.
  destruct (select_latest_location backend _ db) as [l|e].
  - destruct (data l) as [[|loc ?]|].
    + eexists _, _; split; [reflexivity|apply markers_within_refl].
    + destruct (updateDeviceLocation_within loc s) as (s' & -> & ?). by eexists _, _.
    + eexists _, _; split; [reflexivity|apply markers_within_refl].
  - eexists _, _; split; [reflexivity|apply markers_within_refl].
Qed.

Lemma load_locations_within (backend : Backend) (db : Db) (ds : list Device.t) (s : State) :
  exists o s', forM_ ds (show_latest_location backend db seen) s = (o, s')
               /\ markers_within seen s s'.
Proof.
  revert s. induction ds as [|d ds IH]; intros s.
  - eexists _, _; split; [reflexivity|apply markers_within_refl].
  - cbn [forM_]. unfold bind.
    destruct (show_latest_location_within backend db d s) as (o1 & s1 & -> & H1).
    destruct o1 as [[]|e].
    + destruct (IH s1) as (o & s' & -> & H2).
      eexists _, _; split; [reflexivity|]. by eapply markers_within_trans.
    + by eexists _, _.
Qed.

Lemma loadDevicesAndLocations_within (backend : Backend) (db : Db) (user : option User.t)
    (s : State) :
  markers_within seen s (loadDevicesAndLocations backend db user seen s).2.
Proof.
  unfold loadDevicesAndLocations, try_catch, bind at 1, await at 1.
  destruct (select_devices backend _ db) as [r|e]; [|by intros id ?; left].
  destruct (error r); [by intros id ?; left|].
  unfold bind at 1, setDevices at 1, modify at 1.
  match goal with |- context [forM_ ?ds _ ?s0] =>
    destruct (load_locations_within backend db ds s0) as (o & s' & -> & H) end.
  destruct o; intros id Hid; by apply (H id).
Qed.

(** X9. Markers are filed under the ids of the devices the render sees,
    and nowhere else: whatever the database answers, a location row from
    the subscription and a run of [loadDevicesAndLocations] add markers
    only for those devices. *)
Theorem markers_only_for_seen_devices
    (backend : Backend) (db : Db) (user : option User.t)
    (payload : LocationData.t) (s : State) :
  markers_within seen s (on_location_insert seen payload s).2
  /\ markers_within seen s (loadDevicesAndLocations backend db user seen s).2.
Proof.
  split.
  - unfold on_location_insert.
    by destruct (updateDeviceLocation_within payload s) as (s' & -> & ?).
  - apply loadDevicesAndLocations_within.
Qed.

End Markers.

Section MarkersFirstRender.
Import MapView MapFacts MarkerFacts.

(** X10. With an empty device list, which is what the first render sees,
    nothing is put on the map: a location row from the subscription
    changes no state, and [loadDevicesAndLocations] loads the device list
    without adding or moving a marker, whatever the database holds. *)
Theorem empty_device_list_shows_nothing
    (backend : Backend) (db : Db) (user : option User.t)
    (payload : LocationData.t) (s : State) :
  on_location_insert [] payload s = (Returned tt, s)
  /\ markers (loadDevicesAndLocations backend db user [] s).2 = markers s
  /\ mapInstance (loadDevicesAndLocations backend db user [] s).2 = mapInstance s.
Proof.
  split.
  - unfold on_location_insert. apply updateDeviceLocation_dropped. by right.
  - assert (forall ds s0, exists o,
               forM_ ds (show_latest_location backend db []) s0 = (o, s0)) as Hloop.
    { induction ds as [|d ds IH]; intros s0; [by eexists|].
      cbn [forM_]. unfold bind at 1, show_latest_location at 1, bind at 1, await at 1.
      destruct (select_latest_location backend _ db) as [l|e]; [|by eexists].
      destruct (data l) as [[|loc ?]|].
      - unfold ret at 1. apply IH.
      - rewrite updateDeviceLocation_dropped by (by right). apply IH.
      - unfold ret at 1. apply IH. }
    assert (exists o s', loadDevicesAndLocations backend db user [] s = (o, s')
                         /\ markers s' = markers s
                         /\ mapInstance s' = mapInstance s) as (o & s' & -> & ?); [|done].
    unfold loadDevicesAndLocations, try_catch, bind at 1, await at 1.
    destruct (select_devices backend _ db) as [r|e]; [|by eexists _, _].
    destruct (error r); [by eexists _, _|].
    unfold bind at 1, setDevices at 1, modify at 1.
    match goal with |- context [forM_ ?ds _ ?s0] =>
      destruct (Hloop ds s0) as (o & ->) end.
    destruct o; by eexists _, _.
Qed.

End MarkersFirstRender.

Section MarkerUpdates.
Import MapView MapFacts MarkerFacts.

Variable seen : list Device.t.

Lemma size_insert_one (ms : gmap string Marker) (i : string) (x : Marker) :
  size (<[i:=x]> ms) = 1%nat <-> forall k, k <> i -> ms !! k = None.
Proof.
  rewrite <- insert_delete_eq, map_size_insert_None by apply lookup_delete_eq.
  split.
  - intros Hs k Hk. assert (size (delete i ms) = 0%nat) as H0 by lia.
    apply map_size_empty_iff in H0.
    rewrite <- (lookup_delete_ne ms i k) by done. by rewrite H0, lookup_empty.
  - intros Hk. f_equal. apply map_size_empty_iff, map_empty. intros k.
    destruct (decide (i = k)) as [->|Hne]; [apply lookup_delete_eq|].
    rewrite lookup_delete_ne by done. by apply Hk.
Qed.

Lemma updateDeviceLocation_exact (loc : LocationData.t) (s : State)
    (m : MapInstance) (device : Device.t) :
  mapInstance s = Some m ->
  find_device seen loc = Some device ->
  after_ping seen loc s
  = mkState
      (Some (if Nat.eqb (size (<[Device.device_id device := make_marker device loc]>
                                 (markers s))) 1
             then mkMap (position_of loc) (zoom m) else m))
      (<[Device.device_id device := make_marker device loc]> (markers s))
      (geofenceCircles s) (devices s) (geofences s) (toasts s).
Proof.
  unfold after_ping, find_device, updateDeviceLocation. by intros -> ->.
Qed.

Lemma after_ping_known (loc : LocationData.t) (s : State)
    (m : MapInstance) (device : Device.t) :
  mapInstance s = Some m ->
  find_device seen loc = Some device ->
  exists m', mapInstance (after_ping seen loc s) = Some m'
             /\ markers (after_ping seen loc s)
                = <[LocationData.device_id loc := make_marker device loc]> (markers s).
Proof.
  intros Hmap Hfind. unfold after_ping.
  destruct (updateDeviceLocation_known seen loc s m device Hmap Hfind) as (m' & ->).
  exists m'. by rewrite (find_device_id seen loc device Hfind).
Qed.

Lemma after_ping_dropped (loc : LocationData.t) (s : State) :
  mapInstance s = None \/ find_device seen loc = None -> after_ping seen loc s = s.
Proof. intros H. unfold after_ping. by rewrite updateDeviceLocation_dropped. Qed.

(** X11. The map is centred on a ping exactly when no other device has a
    marker: with one device on the map every ping of it moves the centre,
    and once a second device is shown the centre is never moved again.
    The zoom is kept either way. *)
Theorem updateDeviceLocation_centre (loc : LocationData.t) (s : State)
    (m : MapInstance) (device : Device.t) :
  mapInstance s = Some m ->
  find_device seen loc = Some device ->
  let s' := after_ping seen loc s in
  (other_marker s (Device.device_id device) -> mapInstance s' = Some m)
  /\ (~ other_marker s (Device.device_id device) ->
      mapInstance s' = Some (mkMap (position_of loc) (zoom m))).
Proof.
  intros Hmap Hfind s'. subst s'.
  rewrite (updateDeviceLocation_exact loc s m device Hmap Hfind). cbn [mapInstance].
  destruct (Nat.eqb_spec (size (<[Device.device_id device := make_marker device loc]>
                                  (markers s))) 1) as [Hone|Hmore].
  - split; [|done]. intros (k & Hk & [x Hx]).
    rewrite size_insert_one in Hone. by rewrite (Hone k Hk) in Hx.
  - split; [done|]. intros Hno. destruct Hmore. apply size_insert_one.
    intros k Hk. destruct (markers s !! k) eqn:Hlk; [|done].
    destruct Hno. exists k. split; [done|]. by rewrite Hlk.
Qed.

(** X12. Processing the same location row twice leaves the map as
    processing it once: a duplicate delivery changes nothing. *)
Theorem updateDeviceLocation_duplicate (loc : LocationData.t) (s : State) :
  after_ping seen loc (after_ping seen loc s) = after_ping seen loc s.
Proof.
  destruct (mapInstance s) as [m|] eqn:Hmap.
  - destruct (find_device seen loc) as [device|] eqn:Hfind.
    + rewrite (updateDeviceLocation_exact loc s m device Hmap Hfind).
      erewrite updateDeviceLocation_exact; [|reflexivity|exact Hfind].
      cbn [markers geofenceCircles devices geofences toasts]. rewrite insert_insert_eq.
      destruct (Nat.eqb _ 1); reflexivity.
    + rewrite (after_ping_dropped loc s) by (by right).
      by apply after_ping_dropped; right.
  - rewrite (after_ping_dropped loc s) by (by left).
    by apply after_ping_dropped; left.
Qed.

(** X13. Location rows of different devices do not disturb each other:
    in whichever order two of them arrive, the markers end up the same. *)
Theorem updateDeviceLocation_devices_commute (pa pb : LocationData.t) (s : State) :
  LocationData.device_id pa <> LocationData.device_id pb ->
  markers (after_ping seen pb (after_ping seen pa s))
  = markers (after_ping seen pa (after_ping seen pb s)).
Proof.
  intros Hne. destruct (mapInstance s) as [m|] eqn:Hmap.
  - destruct (find_device seen pa) as [da|] eqn:Hfa;
      destruct (find_device seen pb) as [db|] eqn:Hfb.
    + destruct (after_ping_known pa s m da Hmap Hfa) as (ma & Hma & Ha).
      destruct (after_ping_known pb s m db Hmap Hfb) as (mb & Hmb & Hb).
      destruct (after_ping_known pb _ ma db Hma Hfb) as (? & _ & ->).
      destruct (after_ping_known pa _ mb da Hmb Hfa) as (? & _ & ->).
      rewrite Ha, Hb. by apply insert_insert_ne.
    + rewrite (after_ping_dropped pb s) by (by right).
      by rewrite (after_ping_dropped pb) by (by right).
    + rewrite (after_ping_dropped pa s) by (by right).
      by rewrite (after_ping_dropped pa) by (by right).
    + by rewrite (after_ping_dropped pa s), (after_ping_dropped pb s),
        (after_ping_dropped pa s) by (by right).
  - by rewrite (after_ping_dropped pa s), (after_ping_dropped pb s),
      (after_ping_dropped pa s) by (by left).
Qed.

End MarkerUpdates.

Lemma updateDeviceLocation_centre_witness :
  MapView.mapInstance
    (MapFacts.after_ping [Sample.tracker_a] Sample.ping_late
       (MapFacts.after_ping [Sample.tracker_a] Sample.ping_early Sample.view0))
  = Some (MapView.mkMap (MapFacts.position_of Sample.ping_late) 12).
Proof.
  apply (proj2 (updateDeviceLocation_centre [Sample.tracker_a] Sample.ping_late
                  (MapFacts.after_ping [Sample.tracker_a] Sample.ping_early Sample.view0)
                  (MapView.mkMap (MapFacts.position_of Sample.ping_early) 12)
                  Sample.tracker_a eq_refl eq_refl)).
  - intros (k & Hk & Hx). revert Hx.
    change (MapView.markers
              (MapFacts.after_ping [Sample.tracker_a] Sample.ping_early Sample.view0))
      with (<["dev-A" := MapView.make_marker Sample.tracker_a Sample.ping_early]>
              (∅ : gmap string MapView.Marker)).
    rewrite lookup_insert_ne by (intros <-; by apply Hk).
    rewrite lookup_empty. by intros [? ?].
Defined.


Lemma updateDeviceLocation_devices_commute_witness :
  MapView.markers
    (MapFacts.after_ping [Sample.tracker_a; Sample.tracker_b] Sample.ping_b
       (MapFacts.after_ping [Sample.tracker_a; Sample.tracker_b] Sample.ping_early
          Sample.view0))
  = MapView.markers
      (MapFacts.after_ping [Sample.tracker_a; Sample.tracker_b] Sample.ping_early
         (MapFacts.after_ping [Sample.tracker_a; Sample.tracker_b] Sample.ping_b
            Sample.view0)).
Proof.
  apply (updateDeviceLocation_devices_commute [Sample.tracker_a; Sample.tracker_b]
           Sample.ping_early Sample.ping_b Sample.view0).
  vm_compute. congruence.
Defined.

(** ** MapView: the first load *)

Section FirstLoad.
Import MapView MapFacts.

#[local] Instance newer_location_total : Total newer_location.
Proof. intros a b. unfold newer_location. lia. Qed.

#[local] Instance newer_location_trans : Transitive newer_location.
Proof. intros a b c. unfold newer_location. lia. Qed.

Lemma holds_location_device (l : LocationData.t) (id : string) :
  holds l (Eq "device_id" (VStr id)) = String.eqb (LocationData.device_id l) id.
Proof.
  unfold holds, column, LocationData_columns; simpl.
  destruct (String.eqb_spec (LocationData.device_id l) id) as [->|Hne].
  - by apply bool_decide_eq_true_2.
  - apply bool_decide_eq_false_2. congruence.
Qed.

Lemma select_locations_of (db : Db) (id : string) (l : LocationData.t) :
  l ∈ select (location_data db) [Eq "device_id" (VStr id)]
  <-> l ∈ location_data db /\ LocationData.device_id l = id.
Proof.
  unfold select. rewrite !list_elem_of_In, filter_In. unfold matches; cbn [forallb].
  by rewrite holds_location_device, andb_true_r, String.eqb_eq.
Qed.

Lemma newest_first_head (rows : list LocationData.t) :
  rows <> [] ->
  exists x, take 1 (merge_sort newer_location rows) = [x]
            /\ x ∈ rows
            /\ forall y, y ∈ rows -> LocationData.timestamp y <= LocationData.timestamp x.
Proof.
  intros Hne.
  pose proof (merge_sort_Permutation newer_location rows) as Hperm.
  pose proof (StronglySorted_merge_sort newer_location rows) as Hsorted.
  destruct (merge_sort newer_location rows) as [|x rest].
  - apply Permutation_nil_l in Hperm. by subst.
  - exists x. split; [done|]. split.
    + rewrite <- Hperm. apply list_elem_of_here.
    + intros y Hy. rewrite <- Hperm in Hy.
      apply elem_of_cons in Hy as [->|Hy]; [lia|].
      apply StronglySorted_inv in Hsorted as [_ Hall].
      rewrite Forall_forall in Hall. by apply Hall.
Qed.

Lemma find_device_member (seen : list Device.t) (d : Device.t) (loc : LocationData.t) :
  d ∈ seen -> LocationData.device_id loc = Device.device_id d ->
  exists d', find_device seen loc = Some d' /\ Device.device_id d' = Device.device_id d.
Proof.
  intros Hin Hid. unfold find_device.
  destruct (List.find _ seen) as [d'|] eqn:Hfind.
  - exists d'. split; [done|]. apply find_some in Hfind as [_ Heq].
    apply String.eqb_eq in Heq. congruence.
  - apply list_elem_of_In in Hin. apply (find_none _ _ Hfind d) in Hin.
    apply String.eqb_neq in Hin. congruence.
Qed.

(** X14. For a device of the list that has location rows, the first load
    puts the marker where the row with the greatest timestamp says, and
    not where the row inserted last says. *)
Theorem show_latest_location_newest
    (db : Db) (seen : list Device.t) (d : Device.t) (s : State) :
  is_Some (mapInstance s) ->
  d ∈ seen ->
  (exists l0, l0 ∈ location_data db /\ LocationData.device_id l0 = Device.device_id d) ->
  let s' := (show_latest_location postgrest db seen d s).2 in
  exists loc,
    loc ∈ location_data db
    /\ LocationData.device_id loc = Device.device_id d
    /\ (forall l', l' ∈ location_data db ->
                   LocationData.device_id l' = Device.device_id d ->
                   LocationData.timestamp l' <= LocationData.timestamp loc)
    /\ recorded_position s' (Device.device_id d) = Some (position_of loc)
    /\ recorded_timestamp s' (Device.device_id d) = Some (LocationData.timestamp loc).
Proof.
  intros [m Hmap] Hseen (l0 & Hl0 & Hid0) s'. subst s'.
  destruct (newest_first_head
              (select (location_data db) [Eq "device_id" (VStr (Device.device_id d))]))
    as (x & Htake & Hx & Hmax).
  { intros Hnil. assert (l0 ∈ select (location_data db)
                                 [Eq "device_id" (VStr (Device.device_id d))]) as Hin
      by by apply select_locations_of.
    rewrite Hnil in Hin. by apply elem_of_nil in Hin. }
  apply select_locations_of in Hx as [Hx Hxid].
  destruct (find_device_member seen d x Hseen Hxid) as (d' & Hfind & Hd').
  exists x. split; [done|]. split; [done|]. split.
  - intros l' Hl' Hid'. apply Hmax. by apply select_locations_of.
  - unfold show_latest_location, bind, await.
    cbn [select_latest_location postgrest ok data]. rewrite Htake.
    destruct (updateDeviceLocation_known seen x s m d' Hmap Hfind) as (m' & ->).
    unfold recorded_position, recorded_timestamp. cbn [snd markers].
    rewrite <- Hd', !lookup_insert_eq. done.
Qed.

End FirstLoad.

Lemma show_latest_location_newest_witness :
  exists loc,
    loc ∈ location_data Sample.db_tracks
    /\ LocationData.device_id loc = "dev-A"
    /\ (forall l', l' ∈ location_data Sample.db_tracks ->
                   LocationData.device_id l' = "dev-A" ->
                   LocationData.timestamp l' <= LocationData.timestamp loc)
    /\ MapFacts.recorded_position
         (MapView.show_latest_location postgrest Sample.db_tracks [Sample.tracker_a]
            Sample.tracker_a Sample.view0).2 "dev-A"
       = Some (MapFacts.position_of loc)
    /\ MapFacts.recorded_timestamp
         (MapView.show_latest_location postgrest Sample.db_tracks [Sample.tracker_a]
            Sample.tracker_a Sample.view0).2 "dev-A"
       = Some (LocationData.timestamp loc).
Proof.
  apply (show_latest_location_newest Sample.db_tracks [Sample.tracker_a]
           Sample.tracker_a Sample.view0).
  - exists Sample.map0. reflexivity.
  - apply list_elem_of_here.
  - exists Sample.ping_early. split; [|reflexivity].
    apply list_elem_of_further, list_elem_of_here.
Defined.

(** ** Lists when the database refuses, and lists by role *)

Section Lists.
Import Refusal.

(** X15. When the database answers the list requests with an error, the
    lists and the map stay as they were: [MapView] raises one toast for
    the devices and one for the geofences, and the client dashboard keeps
    its device list without telling the user. *)
Theorem refused_lists_are_kept
    (backend : Backend) (db : Db) (user : option User.t) (seen : list Device.t)
    (s : MapView.State) (c : ClientDashboard.State) :
  refuses_lists backend db ->
  MapView.loadDevicesAndLocations backend db user seen s
  = (Returned tt,
     MapView.mkState (MapView.mapInstance s) (MapView.markers s) (MapView.geofenceCircles s)
       (MapView.devices s) (MapView.geofences s)
       ("Failed to load devices" :: MapView.toasts s))
  /\ MapView.loadGeofences backend db s
     = (Returned tt,
        MapView.mkState (MapView.mapInstance s) (MapView.markers s)
          (MapView.geofenceCircles s) (MapView.devices s) (MapView.geofences s)
          ("Failed to load geofences" :: MapView.toasts s))
  /\ ClientDashboard.loadDevices backend db user c = (Returned tt, c).
Proof.
  intros [Hdev Hgeo]. split; [|split].
  - unfold MapView.loadDevicesAndLocations, try_catch, bind, await.
    destruct (Hdev match client_id_of user with
                   | Some uid => [Eq "client_id" (VStr uid)]
                   | None => []
                   end) as (r & e & -> & ->). reflexivity.
  - destruct (Hgeo [Eq "is_active" (VBool true)]) as (r & e & Hr & He).
    by apply (loadGeofences_refused backend db s r e).
  - unfold ClientDashboard.loadDevices. destruct user as [u|]; [|done].
    unfold try_catch, bind, await.
    destruct (Hdev [Eq "client_id" (VStr (User.id u))]) as (r & e & -> & ->). reflexivity.
Qed.

Lemma refused_lists_are_kept_witness :
  MapView.loadDevicesAndLocations Sample.unavailable Sample.db0 (Some Sample.alice)
    [Sample.tracker_a] Sample.view0
  = (Returned tt,
     MapView.mkState (Some Sample.map0) ∅ ∅ [Sample.tracker_a] [] ["Failed to load devices"])
  /\ MapView.loadGeofences Sample.unavailable Sample.db0 Sample.view0
     = (Returned tt,
        MapView.mkState (Some Sample.map0) ∅ ∅ [Sample.tracker_a] []
          ["Failed to load geofences"])
  /\ ClientDashboard.loadDevices Sample.unavailable Sample.db0 (Some Sample.alice)
       (ClientDashboard.mkState [Sample.tracker_a])
     = (Returned tt, ClientDashboard.mkState [Sample.tracker_a]).
Proof.
  apply (refused_lists_are_kept Sample.unavailable Sample.db0 (Some Sample.alice)
           [Sample.tracker_a] Sample.view0 (ClientDashboard.mkState [Sample.tracker_a])).
  split; intros fs; exists (failed "503"), "503"; split; reflexivity.
Defined.

(** X16. The client dashboard lists the devices whose [client_id] is the
    id of the signed-in user and no other, whatever the role of that
    user; a device that is assigned to nobody is in nobody's list, and
    with nobody signed in nothing is requested. *)
Theorem loadDevices_own_devices (db : Db) (c : ClientDashboard.State) :
  (forall u d,
      d ∈ ClientDashboard.devices (ClientDashboard.loadDevices postgrest db (Some u) c).2
      <-> d ∈ devices db /\ Device.client_id d = Some (User.id u))
  /\ ClientDashboard.loadDevices postgrest db None c = (Returned tt, c).
Proof.
  split; [|done]. intros u d. rewrite loadDevices_client_rows.
  by rewrite !list_elem_of_In, filter_In, bool_decide_eq_true.
Qed.

(** X17. The device list of [MapView] depends on the role alone: a client
    gets the devices assigned to the client, and every other user, also
    nobody signed in, gets every device of the table. *)
Theorem loadDevicesAndLocations_by_role
    (db : Db) (user : option User.t) (seen : list Device.t) (s : MapView.State) :
  MapView.devices (MapView.loadDevicesAndLocations postgrest db user seen s).2
  = match client_id_of user with
    | Some uid => List.filter (fun d => bool_decide (Device.client_id d = Some uid))
                    (devices db)
    | None => devices db
    end.
Proof.
  unfold MapView.loadDevicesAndLocations, try_catch.
  unfold bind at 1, await at 1.
  cbn [select_devices postgrest error ok data_or_empty data default].
  unfold bind at 1, MapView.setDevices at 1, modify at 1.
  match goal with |- context [forM_ ?ds ?f ?s0] =>
    destruct (load_locations_frame db seen ds s0) as (s' & -> & Hd) end.
  cbn [snd]. rewrite Hd. cbn [MapView.devices]. unfold select.
  destruct (client_id_of user) as [uid|].
  - apply filter_ext. intros d.
    unfold matches; cbn [forallb]. by rewrite holds_client_id, andb_true_r.
  - cbn [matches forallb]. apply filter_true.
Qed.

End Lists.

(** ** AuthContext: the session *)

Section Session.
Import Auth AuthSession.

Variable c : Client.

Lemma adopt_profile_run (au : AuthUser) (s : State) :
  exists o s', adopt_profile c au s = (o, s')
               /\ st_loading s' = st_loading s
               /\ (s' = s
                   \/ exists r u,
                        select_user_single c (Eq "email" (of_nullable (au_email au)))
                        = Returned r
                        /\ Supabase.data r = Some u /\ st_user s' = Some u).
Proof.
  unfold adopt_profile, bind, await.
  destruct (select_user_single c _) as [r|e] eqn:Hsel; [|eexists _, _; eauto].
  destruct (Supabase.data r) as [u|] eqn:Hdata; [|eexists _, _; eauto].
  eexists _, _; split; [reflexivity|]. split; [done|]. right. by exists r, u.
Qed.

(** X18. [checkUser] does not throw and always turns the loading flag
    off.  It never signs anybody out: the stored user stays as it was
    unless there is a session with a user and the [users] row with that
    user's e-mail is found, in which case that row is stored. *)
Theorem checkUser_settles (api : SessionApi) (s : State) :
  exists s',
    checkUser c api s = (Returned tt, s')
    /\ st_loading s' = false
    /\ (st_user s' = st_user s
        \/ exists au r u,
             getSession api = Returned (Some (mkSession (Some au)))
             /\ select_user_single c (Eq "email" (of_nullable (au_email au))) = Returned r
             /\ Supabase.data r = Some u /\ st_user s' = Some u).
Proof.
  unfold checkUser, try_finally, try_catch, bind at 1, await at 1.
  destruct (getSession api) as [[[[au|]]|]|e] eqn:Hsess;
    try (eexists; split; [reflexivity|]; split; [reflexivity|]; by left).
  destruct (adopt_profile_run au s) as (o & s1 & -> & Hl & Hcase).
  assert (exists s', (let (o0, s'0) := match o with
                                       | Returned a => (Returned a, s1)
                                       | Thrown e => ret tt s1
                                       end in
                      match setLoading false s'0 with
                      | (Returned _, s'') => (o0, s'')
                      | (Thrown e, s'') => (Thrown e, s'')
                      end) = (Returned tt, s')
                     /\ st_loading s' = false /\ st_user s' = st_user s1) as (s' & -> & ? & Hu).
  { destruct o as [[]|e]; by eexists. }
  exists s'. split; [done|]. split; [done|]. rewrite Hu.
  destruct Hcase as [->|(r & u & ? & ? & ?)]; [by left|]. right. by exists au, r, u.
Qed.

(** X19. The auth listener clears the stored user on SIGNED_OUT and on
    no other event.  On SIGNED_IN with a user in the session it looks up
    the [users] row with the e-mail of that user: the row found becomes
    the stored user, a lookup that finds none leaves the state as it was,
    and a lookup that rejects makes the listener reject with what it was
    rejected with, the state untouched (the listener has no handler of
    its own).  SIGNED_IN without a user and every other event leave the
    state alone.  The loading flag is never touched. *)
Theorem on_auth_state_change_cases (event : string) (session : option Session) (s : State) :
  (event = "SIGNED_OUT" ->
   on_auth_state_change c event session s = (Returned tt, mkState None (st_loading s)))
  /\ (event <> "SIGNED_OUT" -> event <> "SIGNED_IN" ->
      on_auth_state_change c event session s = (Returned tt, s))
  /\ (event = "SIGNED_IN" ->
      on_auth_state_change c event session s
      = match session with
        | Some (mkSession (Some au)) =>
            match select_user_single c (Eq "email" (of_nullable (au_email au))) with
            | Returned found =>
                match Supabase.data found with
                | Some row => (Returned tt, mkState (Some row) (st_loading s))
                | None => (Returned tt, s)
                end
            | Thrown e => (Thrown e, s)
            end
        | _ => (Returned tt, s)
        end).
Proof.
  unfold on_auth_state_change. split; [|split].
  - intros ->. reflexivity.
  - intros Hout Hin. apply String.eqb_neq in Hout, Hin. rewrite Hout, Hin.
    by destruct session as [[[au|]]|].
  - intros ->. cbn [String.eqb Ascii.eqb Bool.eqb].
    destruct session as [[[au|]]|]; try reflexivity.
    unfold adopt_profile, bind, await.
    destruct (select_user_single c _) as [found|e]; [|reflexivity].
    by destruct (Supabase.data found).
Qed.

(** [signOut] forgets the stored user as soon as the call to the
    auth service resolves, also when it resolves to an error; when the
    call rejects, [signOut] rejects and the user stays stored. *)
Theorem signOut_cases (api : SessionApi) (s : State) :
  (forall err, auth_signOut api = Returned err ->
               signOut api s = (Returned tt, mkState None (st_loading s)))
  /\ (forall e, auth_signOut api = Thrown e -> signOut api s = (Thrown e, s)).
Proof.
  unfold signOut, bind, await. split.
  - by intros err ->.
  - by intros e ->.
Qed.

End Session.

(** ** MapView: mounting the component *)

Section Mount.
Import MapShell.

Lemma loadGeofences_returns (backend : Backend) (db : Db) (v : MapView.State) :
  exists v', MapView.loadGeofences backend db v = (Returned tt, v')
             /\ MapView.mapInstance v' = MapView.mapInstance v.
Proof.
  unfold MapView.loadGeofences, try_catch, bind at 1, await at 1.
  destruct (select_geofences backend _ db) as [r|e]; [|by eexists].
  destruct (error r); [by eexists|].
  unfold bind at 1, MapView.setGeofences at 1, modify at 1.
  unfold bind at 1, MapView.setCircles at 1, modify at 1.
  match goal with |- context [forM_ ?gs MapView.add_circle ?s1] =>
    destruct (add_circles gs s1) as (s' & -> & _ & Hm & _) end.
  by exists s'.
Qed.

Lemma updateDeviceLocation_keeps_map (seen : list Device.t) (loc : LocationData.t)
    (v : MapView.State) :
  exists v', MapView.updateDeviceLocation seen loc v = (Returned tt, v')
             /\ (is_Some (MapView.mapInstance v) -> is_Some (MapView.mapInstance v')).
Proof.
  unfold MapView.updateDeviceLocation.
  destruct (MapView.mapInstance v) eqn:Hm; [|eexists; split; [done|by rewrite Hm]].
  destruct (List.find _ seen); eexists; (split; [done|]); [by eauto|by rewrite Hm].
Qed.

Lemma loadDevicesAndLocations_returns (backend : Backend) (db : Db)
    (user : option User.t) (seen : list Device.t) (v : MapView.State) :
  exists v', MapView.loadDevicesAndLocations backend db user seen v = (Returned tt, v')
             /\ (is_Some (MapView.mapInstance v) -> is_Some (MapView.mapInstance v')).
Proof.
  assert (forall ds v0, exists o v1,
             forM_ ds (MapView.show_latest_location backend db seen) v0 = (o, v1)
             /\ (is_Some (MapView.mapInstance v0) -> is_Some (MapView.mapInstance v1)))
    as Hloop.
  { induction ds as [|d ds IH]; intros v0; [by eexists _, _|].
    cbn [forM_]. unfold bind at 1, MapView.show_latest_location at 1, bind at 1, await at 1.
    destruct (select_latest_location backend _ db) as [l|e]; [|by eexists _, _].
    destruct (data l) as [[|loc ?]|]; try apply IH.
    destruct (updateDeviceLocation_keeps_map seen loc v0) as (v1 & -> & H1).
    destruct (IH v1) as (o & v2 & -> & H2). eexists _, _; split; [done|]. auto. }
  unfold MapView.loadDevicesAndLocations, try_catch, bind at 1, await at 1.
  destruct (select_devices backend _ db) as [r|e]; [|by eexists].
  destruct (error r); [by eexists|].
  unfold bind at 1, MapView.setDevices at 1, modify at 1.
  match goal with |- context [forM_ ?ds _ ?s0] =>
    destruct (Hloop ds s0) as (o & v1 & -> & H) end.
  destruct o as [[]|e]; eexists; (split; [reflexivity|]); exact H.
Qed.

(** X20. While the spinner is shown the map element is not mounted, and
    the effect that should build the map returns at its first line: it
    changes no state, requests nothing and leaves the spinner on.  The
    component starts in that state, so mounting it does nothing, and the
    subscription that follows finds no map to put a location on. *)
Theorem initializeMap_behind_spinner
    (sh : Shell) (apiKey : option string) (load construct : Outcome unit)
    (instanceof_Error : string -> bool) (message_of : string -> string)
    (backend : Backend) (db : Db) (user : option User.t) (seen : list Device.t)
    (payload : LocationData.t) :
  isLoading sh = true ->
  MapView.mapInstance (view sh) = None ->
  render sh = Spinner
  /\ initializeMap (mapRef_attached sh) apiKey load construct
       instanceof_Error message_of backend db user seen sh
     = (Returned tt, sh)
  /\ MapView.on_location_insert seen payload (view sh) = (Returned tt, view sh).
Proof.
  intros Hload Hmap. unfold mapRef_attached, render, initializeMap. rewrite Hload.
  split; [done|]. split; [done|].
  unfold MapView.on_location_insert, MapView.updateDeviceLocation. by rewrite Hmap.
Qed.

Lemma initializeMap_behind_spinner_witness :
  render initial = Spinner
  /\ mount (Some "key") (Returned tt) (Returned tt) (fun _ => true) (fun e => e)
       postgrest Sample.db_tracks (Some Sample.root) initial
     = (Returned tt, initial)
  /\ MapView.on_location_insert [] Sample.ping_early (view initial)
     = (Returned tt, view initial).
Proof.
  apply (initializeMap_behind_spinner initial (Some "key") (Returned tt) (Returned tt)
           (fun _ => true) (fun e => e)
           postgrest Sample.db_tracks (Some Sample.root) [] Sample.ping_early);
    reflexivity.
Defined.

(** X21. Run with the map element mounted, [initializeMap] does not throw
    and always turns the spinner off.  Without an API key it reports that
    and touches nothing else.  When loading the maps script rejects or
    constructing the map throws, it reports 'Failed to load map: '
    followed by the message of what was thrown if that is an [Error], and
    by 'Unknown error' if it is anything else, and the map state is as it
    was.  Otherwise there is a map, and no failure to load devices or
    geofences is reported as a map error. *)
Theorem initializeMap_mounted
    (sh : Shell) (apiKey : option string) (load construct : Outcome unit)
    (instanceof_Error : string -> bool) (message_of : string -> string)
    (backend : Backend) (db : Db) (user : option User.t) (seen : list Device.t) :
  exists sh',
    initializeMap true apiKey load construct instanceof_Error message_of
      backend db user seen sh = (Returned tt, sh')
    /\ isLoading sh' = false
    /\ (default "" apiKey = "" ->
        mapError sh' = Some api_key_missing /\ view sh' = view sh)
    /\ (default "" apiKey <> "" ->
        match load, construct with
        | Returned _, Returned _ =>
            mapError sh' = mapError sh /\ is_Some (MapView.mapInstance (view sh'))
        | Returned _, Thrown e | Thrown e, _ =>
            mapError sh'
            = Some (if instanceof_Error e
                    then "Failed to load map: " ++ message_of e
                    else "Failed to load map: Unknown error")%string
            /\ view sh' = view sh
        end).
Proof.
  unfold initializeMap. cbn [negb]. unfold try_finally, try_catch.
  destruct (String.eqb_spec (default "" apiKey) "") as [Hkey|Hkey].
  - eexists; split; [reflexivity|]. split; [done|]. split; [done|]. by intros ?.
  - unfold bind at 1, await at 1.
    destruct load as [[]|e].
    + unfold bind at 1, await at 1. destruct construct as [[]|e].
      * unfold bind at 1, on_view at 1, set_map_instance at 1, modify at 1.
        unfold bind at 1, on_view at 1. cbn [view].
        match goal with |- context [MapView.loadDevicesAndLocations _ _ _ _ ?v0] =>
          destruct (loadDevicesAndLocations_returns backend db user seen v0)
            as (v1 & -> & H1) end.
        unfold on_view. cbn [view isLoading mapError].
        destruct (loadGeofences_returns backend db v1) as (v2 & -> & H2).
        eexists; split; [reflexivity|]. split; [done|]. split; [done|]. intros _.
        cbn [mapError view]. split; [done|]. rewrite H2. apply H1. by eexists.
      * eexists; split; [reflexivity|]. split; [done|]. split; [done|]. intros _.
        cbn. by destruct (instanceof_Error e).
    + eexists; split; [reflexivity|]. split; [done|]. split; [done|]. intros _.
      cbn. by destruct (instanceof_Error e).
Qed.

End Mount.

(** ** GeofenceManager *)

Section Geofences.
Import Admin GeofenceManager GeofenceFacts.

Variable new_id : string.
Variable db_now : number.

Local Abbreviation healthy := (Admin.postgrest new_id db_now).

Lemma holds_geofence_row_id (r : GeofenceRow.t) (id : string) :
  holds r (Eq "id" (VStr id)) = String.eqb (row_id r) id.
Proof.
  unfold holds, column, GeofenceRow_columns, row_id; simpl.
  unfold column, Geofence_columns; simpl.
  destruct (String.eqb_spec (Geofence.id (GeofenceRow.shown r)) id) as [->|Hne].
  - by apply bool_decide_eq_true_2.
  - apply bool_decide_eq_false_2. congruence.
Qed.

Lemma matches_geofence_row_id (r : GeofenceRow.t) (id : string) :
  matches [Eq "id" (VStr id)] r = String.eqb (row_id r) id.
Proof. unfold matches; cbn [forallb]. by rewrite holds_geofence_row_id, andb_true_r. Qed.

Lemma loadGeofences_healthy (w : World) :
  loadGeofences healthy w
  = (Returned tt,
     mkWorld (tables w) (merge_sort newer_geofence (Admin.geofences (tables w))) false
       (showAddModal w) (editingGeofence w) (toasts w)).
Proof. reflexivity. Qed.

Lemma toggleGeofenceStatus_healthy (now : number) (id : string) (isActive : bool) (w : World) :
  tables (toggleGeofenceStatus healthy now id isActive w).2
  = with_geofences
      (List.map (fun r => if String.eqb (row_id r) id
                          then GeofenceRow.mk (set_active (negb isActive) (GeofenceRow.shown r))
                                 (GeofenceRow.created_at r) now
                          else r)
         (Admin.geofences (tables w)))
      (tables w).
Proof.
  cbn. unfold update. f_equal. apply map_ext. intros r.
  rewrite matches_geofence_row_id. by destruct (String.eqb (row_id r) id).
Qed.

Lemma on_map_active (t : Tables) (v : MapView.State) :
  on_map t v = List.filter Geofence.is_active (List.map GeofenceRow.shown (Admin.geofences t)).
Proof.
  unfold on_map. destruct (loadGeofences_postgrest (visible t) v) as (s' & -> & Hg & _).
  exact Hg.
Qed.

(** X22. Toggling a geofence in the manager writes the opposite of the
    flag the button showed to the rows with that id and touches no other
    geofence.  The map then lists a geofence exactly when it is a row with
    that id and the button showed it inactive, or an active row with
    another id: switching a geofence off takes it off the map at the next
    load. *)
Theorem toggleGeofenceStatus_on_map
    (now : number) (id : string) (isActive : bool) (w : World) (v : MapView.State)
    (g : Geofence.t) :
  g ∈ on_map (tables (toggleGeofenceStatus healthy now id isActive w).2) v
  <-> exists r, r ∈ Admin.geofences (tables w)
                /\ (row_id r = id /\ isActive = false
                    /\ g = set_active true (GeofenceRow.shown r)
                    \/ row_id r <> id /\ Geofence.is_active (GeofenceRow.shown r) = true
                       /\ g = GeofenceRow.shown r).
Proof.
  rewrite on_map_active, toggleGeofenceStatus_healthy. cbn [Admin.geofences with_geofences].
  rewrite list_elem_of_In, filter_In, in_map_iff. split.
  - intros [(r' & <- & Hin) Hact]. apply in_map_iff in Hin as (r & <- & Hin).
    exists r. split; [by apply list_elem_of_In|].
    destruct (String.eqb_spec (row_id r) id) as [Heq|Hne].
    + left. cbn in Hact. destruct isActive; [done|]. done.
    + right. done.
  - intros (r & Hin & Hcase). apply list_elem_of_In in Hin.
    destruct Hcase as [(Hid & -> & ->)|(Hid & Hact & ->)].
    + split; [|done]. eexists. split; [|apply in_map_iff; exists r; split; [reflexivity|done]].
      apply String.eqb_eq in Hid. by rewrite Hid.
    + split; [|done]. eexists. split; [|apply in_map_iff; exists r; split; [reflexivity|done]].
      apply String.eqb_neq in Hid. by rewrite Hid.
Qed.

(** X23. The toggle goes by the flag on the button, not by the flag in
    the table.  Repeating it with the same flag does not flip the
    geofence back: the tables read the same as after the first click.
    Clicking again once the list is reloaded, so with the opposite flag,
    does give back what the table read, when the first click went by the
    stored flag. *)
Theorem toggleGeofenceStatus_twice
    (now1 now2 : number) (id : string) (isActive : bool) (w : World) :
  let w1 := (toggleGeofenceStatus healthy now1 id isActive w).2 in
  visible (tables (toggleGeofenceStatus healthy now2 id isActive w1).2) = visible (tables w1)
  /\ ((forall r, r ∈ Admin.geofences (tables w) -> row_id r = id ->
                 Geofence.is_active (GeofenceRow.shown r) = isActive) ->
      visible (tables (toggleGeofenceStatus healthy now2 id (negb isActive) w1).2)
      = visible (tables w)).
Proof.
  intros w1. subst w1. rewrite !toggleGeofenceStatus_healthy.
  unfold visible. cbn [Admin.users Admin.devices Admin.location_data Admin.geofences
                       Admin.alerts with_geofences].
  split.
  - f_equal. rewrite !map_map. apply map_ext. intros r.
    destruct (String.eqb_spec (row_id r) id) as [Heq|Hne].
    + cbn [row_id GeofenceRow.shown set_active Geofence.id]. fold (row_id r).
      apply String.eqb_eq in Heq. by rewrite Heq.
    + apply String.eqb_neq in Hne. by rewrite Hne.
  - intros Hfresh. f_equal. rewrite !map_map.
    apply map_ext_in. intros r Hin. apply list_elem_of_In in Hin.
    destruct (String.eqb_spec (row_id r) id) as [Heq|Hne].
    + cbn [row_id GeofenceRow.shown set_active Geofence.id]. fold (row_id r).
      apply String.eqb_eq in Heq. rewrite Heq. cbn [GeofenceRow.shown].
      rewrite negb_involutive. apply String.eqb_eq in Heq.
      rewrite <- (Hfresh r Hin Heq). unfold set_active. by destruct (GeofenceRow.shown r).
    + apply String.eqb_neq in Hne. by rewrite Hne.
Qed.

End Geofences.

Section GeofencesAddDelete.
Import Admin GeofenceManager GeofenceFacts.

Variable new_id : string.
Variable db_now : number.

Local Abbreviation healthy := (Admin.postgrest new_id db_now).

Lemma handleAddGeofence_healthy (f : FormData) (w : World) :
  handleAddGeofence healthy f w
  = (Returned tt,
     let rows := (Admin.geofences (tables w) ++
                    [GeofenceRow.mk
                       (Geofence.mk new_id (name f) (type f) (latitude f) (longitude f)
                          (radius f) true) db_now db_now])%list in
     mkWorld (with_geofences rows (tables w)) (merge_sort newer_geofence rows) false false
       (editingGeofence w) ("Geofence added successfully" :: toasts w)).
Proof. reflexivity. Qed.

(** X24. A geofence added in the manager is stored active, with the
    fields of the form: the manager closes the form, confirms with one
    toast and lists the new row, and the map lists the new geofence at
    its next load beside every geofence it listed before. *)
Theorem handleAddGeofence_on_map (f : FormData) (w : World) (v : MapView.State) :
  let w' := (handleAddGeofence healthy f w).2 in
  let added := Geofence.mk new_id (name f) (type f) (latitude f) (longitude f)
                 (radius f) true in
  showAddModal w' = false
  /\ toasts w' = "Geofence added successfully" :: toasts w
  /\ GeofenceRow.mk added db_now db_now ∈ geofences w'
  /\ geofences w' ≡ₚ Admin.geofences (tables w')
  /\ on_map (tables w') v = (on_map (tables w) v ++ [added])%list.
Proof.
  intros w' added. subst w'. rewrite handleAddGeofence_healthy.
  cbn [snd showAddModal toasts geofences tables with_geofences Admin.geofences].
  split; [done|]. split; [done|]. split; [|split].
  - rewrite merge_sort_Permutation. apply elem_of_app. right. apply list_elem_of_here.
  - apply merge_sort_Permutation.
  - rewrite !on_map_active. cbn [Admin.geofences with_geofences].
    by rewrite List.map_app, List.filter_app.
Qed.

Lemma delete_rows_geofence (rows : list GeofenceRow.t) (id : string) (r : GeofenceRow.t) :
  r ∈ delete_rows rows [Eq "id" (VStr id)] <-> r ∈ rows /\ row_id r <> id.
Proof.
  unfold delete_rows. rewrite !list_elem_of_In, filter_In, matches_geofence_row_id.
  rewrite negb_true_iff, String.eqb_neq. done.
Qed.

(** X25. Deleting a geofence asks first: when the dialogue is declined
    nothing is requested and nothing changes.  When it is confirmed, the
    rows with that id are gone from the table and from the map, and every
    other row is kept. *)
Theorem handleDeleteGeofence_cases (id : string) (w : World) (v : MapView.State) :
  handleDeleteGeofence healthy false id w = (Returned tt, w)
  /\ (let w' := (handleDeleteGeofence healthy true id w).2 in
      (forall r, r ∈ Admin.geofences (tables w')
                 <-> r ∈ Admin.geofences (tables w) /\ row_id r <> id)
      /\ (forall g, g ∈ on_map (tables w') v ->
                    Geofence.id g <> id /\ g ∈ on_map (tables w) v)
      /\ toasts w' = "Geofence deleted successfully" :: toasts w).
Proof.
  split; [done|]. cbn zeta.
  assert ((handleDeleteGeofence healthy true id w).2
          = let rows := delete_rows (Admin.geofences (tables w)) [Eq "id" (VStr id)] in
            mkWorld (with_geofences rows (tables w)) (merge_sort newer_geofence rows) false
              (showAddModal w) (editingGeofence w)
              ("Geofence deleted successfully" :: toasts w)) as -> by reflexivity.
  cbn [tables toasts with_geofences Admin.geofences]. split; [|split; [|done]].
  - intros r. apply delete_rows_geofence.
  - intros g. rewrite !on_map_active. cbn [Admin.geofences with_geofences].
    rewrite !list_elem_of_In, !filter_In, !in_map_iff.
    intros [(r & <- & Hin) Hact]. apply list_elem_of_In, delete_rows_geofence in Hin as [Hin Hid].
    split; [done|]. split; [|done]. exists r. split; [done|]. by apply list_elem_of_In.
Qed.

(** X26. Saving the edit form untouched writes back the fields of the
    row with two exceptions the form makes on opening: an empty type
    becomes 'custom' and a radius of 0 becomes 100.  For a row with a
    type and a radius other than 0 the save changes nothing but
    [updated_at]; it never changes the id, [is_active] or [created_at]. *)
Theorem edit_form_untouched (now : number) (r : GeofenceRow.t) (w : World) :
  r ∈ Admin.geofences (tables w) ->
  let w' := (handleSubmit healthy now (Some r) (initial_form (Some r)) w).2 in
  let g := GeofenceRow.shown r in
  GeofenceRow.mk
    (Geofence.mk (Geofence.id g) (Geofence.name g)
       (if String.eqb (Geofence.type g) "" then "custom" else Geofence.type g)
       (Geofence.latitude g) (Geofence.longitude g)
       (if Z.eqb (Geofence.radius g) 0 then 100 else Geofence.radius g)
       (Geofence.is_active g))
    (GeofenceRow.created_at r) now
  ∈ Admin.geofences (tables w')
  /\ (Geofence.type g <> "" -> Geofence.radius g <> 0 ->
      GeofenceRow.mk g (GeofenceRow.created_at r) now ∈ Admin.geofences (tables w')).
Proof.
  intros Hin w' g. subst w'.
  assert (Admin.geofences
            (tables (handleSubmit healthy now (Some r) (initial_form (Some r)) w).2)
          = update (Admin.geofences (tables w))
              (patch_geofence (stamped (as_patch (initial_form (Some r))) now))
              [Eq "id" (VStr (row_id r))]) as -> by reflexivity.
  assert (forall r', r' ∈ Admin.geofences (tables w) -> row_id r' = row_id r ->
                     patch_geofence (stamped (as_patch (initial_form (Some r))) now) r'
                     ∈ update (Admin.geofences (tables w))
                         (patch_geofence (stamped (as_patch (initial_form (Some r))) now))
                         [Eq "id" (VStr (row_id r))]) as Hpatched.
  { intros r' Hr' Hid. unfold update. apply list_elem_of_In, in_map_iff. exists r'.
    split; [|by apply list_elem_of_In].
    rewrite matches_geofence_row_id. apply String.eqb_eq in Hid. by rewrite Hid. }
  specialize (Hpatched r Hin eq_refl).
  assert (patch_geofence (stamped (as_patch (initial_form (Some r))) now) r
          = GeofenceRow.mk
              (Geofence.mk (Geofence.id g) (Geofence.name g)
                 (if String.eqb (Geofence.type g) "" then "custom" else Geofence.type g)
                 (Geofence.latitude g) (Geofence.longitude g)
                 (if Z.eqb (Geofence.radius g) 0 then 100 else Geofence.radius g)
                 (Geofence.is_active g))
              (GeofenceRow.created_at r) now) as Heq.
  { subst g. destruct r as [[id nm ty la lo ra act] cr up].
    unfold patch_geofence, stamped, as_patch, initial_form, or_else, num_or. cbn.
    f_equal. f_equal.
    - by destruct (String.eqb_spec nm "") as [->|].
    - by destruct (Z.eqb_spec la 0) as [->|].
    - by destruct (Z.eqb_spec lo 0) as [->|]. }
  rewrite Heq in Hpatched. split; [done|].
  intros Hty Hra. apply String.eqb_neq in Hty. apply Z.eqb_neq in Hra.
  rewrite Hty, Hra in Hpatched. by destruct g.
Qed.

End GeofencesAddDelete.

Lemma edit_form_untouched_witness :
  GeofenceRow.mk (Geofence.mk "g-3" "Gate" "custom" 0 0 100 true) 300 7000
  ∈ Admin.geofences
      (GeofenceManager.tables
         (GeofenceManager.handleSubmit AdminSample.healthy 7000 (Some AdminSample.blank_row)
            (GeofenceManager.initial_form (Some AdminSample.blank_row))
            AdminSample.manager0).2).
Proof.
  apply (edit_form_untouched "g-new" 5000 7000 AdminSample.blank_row AdminSample.manager0).
  apply list_elem_of_further, list_elem_of_further, list_elem_of_here.
Defined.

Lemma toggleGeofenceStatus_twice_witness :
  Admin.visible
    (GeofenceManager.tables
       (GeofenceManager.toggleGeofenceStatus AdminSample.healthy 7100 "g-1" false
          (GeofenceManager.toggleGeofenceStatus AdminSample.healthy 7000 "g-1" true
             AdminSample.manager0).2).2)
  = Admin.visible AdminSample.tables0.
Proof.
  apply (toggleGeofenceStatus_twice "g-new" 5000 7000 7100 "g-1" true AdminSample.manager0).
  intros r Hr Hid. vm_compute in Hr.
  repeat (apply elem_of_cons in Hr as [->|Hr]; [try reflexivity; by vm_compute in Hid|]).
  by apply elem_of_nil in Hr.
Defined.

(** ** DeviceManagement *)

Section Devices.
Import Admin DeviceManagement.

Variable new_id : string.
Variable db_now : number.

Local Abbreviation healthy := (Admin.postgrest new_id db_now).

Lemma holds_role_client (u : User.t) :
  holds u (Eq "role" (VStr "client")) = String.eqb (User.role u) "client".
Proof.
  unfold holds, column, User_columns; simpl.
  destruct (String.eqb_spec (User.role u) "client") as [->|Hne].
  - by apply bool_decide_eq_true_2.
  - apply bool_decide_eq_false_2. congruence.
Qed.

Lemma loadUsers_healthy (w : World) :
  users (loadUsers healthy w).2
  = List.filter (fun u => String.eqb (User.role u) "client") (Admin.users (tables w)).
Proof.
  cbn. unfold select. apply filter_ext. intros u.
  unfold matches; cbn [forallb]. by rewrite holds_role_client, andb_true_r.
Qed.

(** X27. The 'Assigned To' column reads 'Unassigned' for a device without
    client, also when its [client_id] is the empty string.  The users it
    looks the client up in are the rows with role client only, so a
    device assigned to a user of another role, or to an id that is no
    user, reads 'Unknown'; a device of a client reads the e-mail of a
    client with that id. *)
Theorem getClientEmail_after_loadUsers (w : World) (clientId : option string) :
  let us := users (loadUsers healthy w).2 in
  (clientId = None \/ clientId = Some "" -> getClientEmail us clientId = "Unassigned")
  /\ (forall cid, clientId = Some cid -> cid <> "" ->
      (forall u, u ∈ Admin.users (tables w) -> User.id u = cid -> User.role u <> "client") ->
      getClientEmail us clientId = "Unknown")
  /\ (forall cid u, clientId = Some cid -> cid <> "" ->
      u ∈ Admin.users (tables w) -> User.id u = cid -> User.role u = "client" ->
      exists u', u' ∈ Admin.users (tables w) /\ User.id u' = cid
                 /\ User.role u' = "client"
                 /\ getClientEmail us clientId = User.email u').
Proof.
  intros us. subst us. rewrite loadUsers_healthy. split; [|split].
  - by intros [-> | ->].
  - intros cid -> Hcid Hnone. unfold getClientEmail, truthy.
    apply String.eqb_neq in Hcid. rewrite Hcid.
    destruct (List.find _ _) as [u|] eqn:Hfind; [|done].
    apply find_some in Hfind as [Hin Hid]. apply filter_In in Hin as [Hin Hrole].
    apply String.eqb_eq in Hid, Hrole.
    by destruct (Hnone u (proj2 (list_elem_of_In _ _) Hin) Hid).
  - intros cid u -> Hcid Hin Hid Hrole. unfold getClientEmail, truthy.
    apply String.eqb_neq in Hcid. rewrite Hcid.
    destruct (List.find _ _) as [u'|] eqn:Hfind.
    + apply find_some in Hfind as [Hin' Hid']. apply filter_In in Hin' as [Hin' Hrole'].
      apply String.eqb_eq in Hid', Hrole'. exists u'. by rewrite list_elem_of_In.
    + apply list_elem_of_In in Hin.
      assert (In u (List.filter (fun u => String.eqb (User.role u) "client")
                      (Admin.users (tables w)))) as Hf.
      { apply filter_In. split; [done|]. by apply String.eqb_eq. }
      apply (find_none _ _ Hfind) in Hf. apply String.eqb_neq in Hf. done.
Qed.

Lemma submit_add_healthy (now : number) (f : FormData) (w : World) :
  Admin.devices (tables (submit_add healthy now f w).2)
  = (Admin.devices (tables w) ++
       [DeviceRow.mk
          (Device.mk new_id (form_device_id f) (form_phone_number f) (form_device_type f)
             false 100 (truthy (Some (form_client_id f))))
          now db_now db_now])%list.
Proof.
  assert (truthy (truthy (Some (form_client_id f))) = truthy (Some (form_client_id f)))
    as Hidem.
  { unfold truthy. destruct (String.eqb (form_client_id f) "") eqn:He; [done|].
    by rewrite He. }
  unfold submit_add, handleAddDevice, try_catch, bind at 1, write at 1.
  cbn [insert_device postgrest device_id phone_number device_type client_id].
  rewrite Hidem. reflexivity.
Qed.

(** X28. A device added through the form is stored offline with battery
    level 100 and the instant of the click as last seen; the choice
    'Unassigned' is stored as no client.  The new device comes last in
    the dashboard of the client it was assigned to and in nobody else's,
    and an unassigned one in no client's dashboard at all. *)
Theorem submit_add_reaches_dashboard
    (now : number) (f : FormData) (w : World) (u : User.t) (c : ClientDashboard.State) :
  let t' := tables (submit_add healthy now f w).2 in
  let added := Device.mk new_id (form_device_id f) (form_phone_number f)
                 (form_device_type f) false 100 (truthy (Some (form_client_id f))) in
  let dashboard t :=
    ClientDashboard.devices
      (ClientDashboard.loadDevices Supabase.postgrest (visible t) (Some u) c).2 in
  Admin.devices t' = (Admin.devices (tables w) ++ [DeviceRow.mk added now db_now db_now])%list
  /\ dashboard t'
     = (dashboard (tables w)
        ++ if bool_decide (form_client_id f <> "" /\ form_client_id f = User.id u)
           then [added] else [])%list.
Proof.
  intros t' added dashboard. subst t' dashboard.
  split; [apply submit_add_healthy|].
  rewrite !loadDevices_client_rows. unfold visible. cbn [Supabase.devices].
  rewrite submit_add_healthy, List.map_app, List.filter_app. f_equal.
  cbn [List.map List.filter DeviceRow.shown]. subst added. cbn [Device.client_id].
  unfold truthy. destruct (String.eqb_spec (form_client_id f) "") as [He|Hne].
  - rewrite bool_decide_eq_false_2 by done. rewrite bool_decide_eq_false_2; [done|].
    by intros [? _].
  - destruct (decide (form_client_id f = User.id u)) as [Hu|Hu].
    + rewrite bool_decide_eq_true_2 by congruence. by rewrite bool_decide_eq_true_2.
    + rewrite bool_decide_eq_false_2 by congruence. rewrite bool_decide_eq_false_2; [done|].
      by intros [_ ?].
Qed.

Lemma matches_device_row_id (r : DeviceRow.t) (id : string) :
  matches [Eq "id" (VStr id)] r = String.eqb (Device.id (DeviceRow.shown r)) id.
Proof.
  unfold matches; cbn [forallb]. rewrite andb_true_r.
  unfold holds, column, DeviceRow_columns; simpl. unfold column, Device_columns; simpl.
  destruct (String.eqb_spec (Device.id (DeviceRow.shown r)) id) as [->|Hne].
  - by apply bool_decide_eq_true_2.
  - apply bool_decide_eq_false_2. congruence.
Qed.

(** X29. Saving the edit form of a device untouched writes back what the
    row held: name, phone number, type and client stay, and only
    [updated_at] moves.  The one change the form makes is to store an
    empty [client_id] as no client. *)
Theorem edit_device_untouched (now : number) (r : DeviceRow.t) (w : World) :
  r ∈ Admin.devices (tables w) ->
  let w' := (submit_edit healthy now r (edit_form r) w).2 in
  let d := DeviceRow.shown r in
  DeviceRow.mk
    (Device.mk (Device.id d) (Device.device_id d) (Device.phone_number d)
       (Device.device_type d) (Device.is_online d) (Device.battery_level d)
       (truthy (Device.client_id d)))
    (DeviceRow.last_seen r) (DeviceRow.created_at r) now
  ∈ Admin.devices (tables w')
  /\ (Device.client_id d <> Some "" ->
      DeviceRow.mk d (DeviceRow.last_seen r) (DeviceRow.created_at r) now
      ∈ Admin.devices (tables w')).
Proof.
  intros Hin w' d. subst w'.
  assert (Admin.devices (tables (submit_edit healthy now r (edit_form r) w).2)
          = update (Admin.devices (tables w))
              (patch_device
                 (stamped_device
                    (mkDevicePatch None (Some (Device.device_id d))
                       (Some (Device.phone_number d)) (Some (Device.device_type d))
                       None None
                       (Some (truthy (Some (or_else (Device.client_id d) "")))) None None None)
                    now))
              [Eq "id" (VStr (Device.id d))]) as -> by reflexivity.
  assert (truthy (Some (or_else (Device.client_id d) "")) = truthy (Device.client_id d))
    as Htruthy.
  { unfold truthy, or_else. destruct (Device.client_id d) as [x|]; [|done].
    destruct (String.eqb x "") eqn:He; [done|]. by rewrite He. }
  rewrite Htruthy.
  match goal with |- ?row ∈ update _ ?f _ /\ _ =>
    assert (row ∈ update (Admin.devices (tables w)) f [Eq "id" (VStr (Device.id d))])
      as Hrow end.
  { unfold update. apply list_elem_of_In, in_map_iff. exists r.
    split; [|by apply list_elem_of_In].
    rewrite matches_device_row_id. fold d. rewrite String.eqb_refl.
    subst d. by destruct r as [[] ? ? ?]. }
  split; [done|]. intros Hc.
  assert (truthy (Device.client_id d) = Device.client_id d) as Hsame.
  { unfold truthy. destruct (Device.client_id d) as [x|] eqn:Hcid; [|done].
    destruct (String.eqb_spec x "") as [->|]; [by destruct Hc|done]. }
  match type of Hrow with ?row ∈ _ =>
    replace (DeviceRow.mk d (DeviceRow.last_seen r) (DeviceRow.created_at r) now)
      with row; [exact Hrow|] end.
  rewrite Hsame. clear. subst d. by destruct (DeviceRow.shown r).
Qed.

End Devices.

Lemma edit_device_untouched_witness :
  DeviceRow.mk Sample.tracker_a 900 10 7000
  ∈ Admin.devices
      (DeviceManagement.tables
         (DeviceManagement.submit_edit AdminSample.healthy 7000 AdminSample.tracker_a_row
            (DeviceManagement.edit_form AdminSample.tracker_a_row) AdminSample.devices0).2).
Proof.
  apply (edit_device_untouched "g-new" 5000 7000 AdminSample.tracker_a_row
           AdminSample.devices0).
  - apply list_elem_of_here.
  - discriminate.
Defined.
